(** * Scan2Score: the evaluation and plagiarism decision engine

    A shallow embedding of [ai_evaluator.py] (class [AIEvaluator]) and
    [plagiarism_detector.py] (class [PlagiarismDetector]), with the
    properties of the specification stated and settled on it.

    Modelling conventions.
    - A Python [str] is a list of Unicode code points ([pystr]).
    - A Python [float] is modelled by the exact rational it denotes ([Q]),
      extended with NaN and the infinities where a value can come from a
      JSON document; rounding to binary64 is not modelled.  [int] is [Z].
    - A Python [dict] is an association list in insertion order.
    - A call that can raise returns a [result]: [Ok v] or [Raise e].
    - The external services (the two model SDK clients, the two detection
      services, the clock) are parameters: a client is a function giving
      the reply to a request or the exception the call raises.
    - Functions of the Unicode database that the code calls ([str.lower],
      the classes behind [\w] and [\d]) are parameters of the development.
    - Interpreter resource limits (recursion depth, integer digit limit)
      and logging are not modelled. *)

From Stdlib Require Import List ZArith NArith QArith String Ascii Bool Lia.
From Stdlib Require Import DecimalString.
Import ListNotations.

Set Implicit Arguments.
Set Warnings "-register-all".

(* ================================================================== *)
(** ** Python strings *)

Definition codepoint := N.
Definition pystr := list codepoint.

(** A string literal of the source, as a Python string. *)
Definition py (s : string) : pystr := map N_of_ascii (list_ascii_of_string s).

(** The code point of a one-character literal. *)
Definition chr (s : string) : codepoint :=
  match s with
  | String a _ => N_of_ascii a
  | EmptyString => 0%N
  end.

Fixpoint str_eqb (a b : pystr) : bool :=
  match a, b with
  | [], [] => true
  | x :: a', y :: b' => N.eqb x y && str_eqb a' b'
  | _, _ => false
  end.

(** [s.startswith(p)], giving the rest of [s] behind the prefix. *)
Fixpoint strip_prefix (p s : pystr) : option pystr :=
  match p with
  | [] => Some s
  | x :: p' =>
      match s with
      | y :: s' => if N.eqb x y then strip_prefix p' s' else None
      | [] => None
      end
  end.

(** [Py_UNICODE_ISSPACE]: the characters [str.isspace], [str.split],
    [str.strip] and the class [\s] of a [str] pattern agree on. *)
Definition is_space (c : codepoint) : bool :=
  ((9 <=? c) && (c <=? 13) || (28 <=? c) && (c <=? 32)
   || (c =? 133) || (c =? 160) || (c =? 5760)
   || (8192 <=? c) && (c <=? 8202)
   || (c =? 8232) || (c =? 8233) || (c =? 8239) || (c =? 8287)
   || (c =? 12288))%N.

(** [s[a:b]] for [0 <= a <= b]. *)
Definition substr (s : pystr) (a b : nat) : pystr := firstn (b - a) (skipn a s).

(** [text.split()]: the maximal runs of non-space characters.  [cur] is
    the word being read, reversed. *)
Fixpoint split_ws_aux (s : pystr) (cur : pystr) : list pystr :=
  match s with
  | [] => match cur with [] => [] | _ => [rev cur] end
  | c :: s' =>
      if is_space c
      then match cur with
           | [] => split_ws_aux s' []
           | _ => rev cur :: split_ws_aux s' []
           end
      else split_ws_aux s' (c :: cur)
  end.

Definition split_ws (s : pystr) : list pystr := split_ws_aux s [].

Fixpoint lstrip (s : pystr) : pystr :=
  match s with
  | c :: s' => if is_space c then lstrip s' else s
  | [] => []
  end.

(** [text.strip()] *)
Definition strip (s : pystr) : pystr := rev (lstrip (rev (lstrip s))).

(** [sep.join(words)] *)
Fixpoint join (sep : pystr) (ws : list pystr) : pystr :=
  match ws with
  | [] => []
  | [w] => w
  | w :: ws' => w ++ sep ++ join sep ws'
  end.

(* ================================================================== *)
(** ** Python values, dictionaries, exceptions *)

Inductive value : Type :=
| VNone
| VBool (b : bool)
| VInt (z : Z)
| VFloat (q : Q)
| VNaN
| VInf (negative : bool)
| VStr (s : pystr)
| VList (l : list value)
| VDict (d : list (pystr * value)).

Definition dict := list (pystr * value).

(** [d.get(k)] *)
Fixpoint dict_get (k : pystr) (d : dict) : option value :=
  match d with
  | [] => None
  | (k', v) :: d' => if str_eqb k k' then Some v else dict_get k d'
  end.

(** [d.get(k, default)] *)
Definition dict_get_default (k : pystr) (default : value) (d : dict) : value :=
  match dict_get k d with
  | Some v => v
  | None => default
  end.

(** [d[k] = v]: an existing key keeps its place, a new one goes last. *)
Fixpoint dict_set (k : pystr) (v : value) (d : dict) : dict :=
  match d with
  | [] => [(k, v)]
  | (k', v') :: d' =>
      if str_eqb k k' then (k', v) :: d' else (k', v') :: dict_set k v d'
  end.

(** [dict(pairs)] *)
Definition dict_of_pairs (pairs : list (pystr * value)) : dict :=
  fold_left (fun d kv => dict_set (fst kv) (snd kv) d) pairs [].

(** Truth value of an object, as [if x:] and [not x] take it. *)
Definition truthy (v : value) : bool :=
  match v with
  | VNone => false
  | VBool b => b
  | VInt z => negb (Z.eqb z 0)
  | VFloat q => negb (Qeq_bool q 0)
  | VNaN => true
  | VInf _ => true
  | VStr s => match s with [] => false | _ => true end
  | VList l => match l with [] => false | _ => true end
  | VDict d => match d with [] => false | _ => true end
  end.

Inductive exn : Type :=
| ValueError (msg : pystr)
| TypeError (msg : pystr)
| AttributeError (msg : pystr)
| JSONDecodeError (msg : pystr)
| OtherError (msg : pystr).   (* any other subclass of Exception *)

(** [str(e)] *)
Definition str_exn (e : exn) : pystr :=
  match e with
  | ValueError m | TypeError m | AttributeError m
  | JSONDecodeError m | OtherError m => m
  end.

Inductive result (A : Type) : Type :=
| Ok (a : A)
| Raise (e : exn).
Arguments Ok {A} a.
Arguments Raise {A} e.

Definition bind {A B} (r : result A) (f : A -> result B) : result B :=
  match r with
  | Ok a => f a
  | Raise e => Raise e
  end.

Notation "x <- r ;; k" := (bind r (fun x => k))
  (at level 61, r at next level, right associativity).

(* ================================================================== *)
(** ** Numbers *)

Definition Qltb (x y : Q) : bool := negb (Qle_bool y x).

(** [int(x)] of a float: truncation toward zero. *)
Definition py_int (x : Q) : Z := Z.quot (Qnum x) (Zpos (Qden x)).

(** A number as the comparisons see it. *)
Inductive pynum : Type :=
| PFin (q : Q)
| PNaN
| PInf (negative : bool).

(** The number an object is compared as; an object that is not a number
    makes a comparison with a float raise [TypeError]. *)
Definition as_number (v : value) : result pynum :=
  match v with
  | VBool b => Ok (PFin (if b then 1 else 0))
  | VInt z => Ok (PFin (inject_Z z))
  | VFloat q => Ok (PFin q)
  | VNaN => Ok PNaN
  | VInf n => Ok (PInf n)
  | _ => Raise (TypeError (py "'>' not supported between these instances"))
  end.

(** [x > y] *)
Definition num_gt (x y : pynum) : bool :=
  match x, y with
  | PNaN, _ | _, PNaN => false
  | PFin a, PFin b => Qltb b a
  | PInf n, PFin _ => negb n
  | PFin _, PInf n => n
  | PInf n, PInf m => negb n && m
  end.


(* ================================================================== *)
(** ** Regular expressions: the fragment of [re] the code uses

    Every repetition in the patterns of the source is over a single
    character class, so [Rep] takes a class.  A class is the predicate it
    denotes.  The matcher is the backtracking matcher of [re]: alternatives
    in order, greedy repetitions longest first, lazy ones shortest first.
    The patterns have at most one capturing group. *)

Inductive regex : Type :=
| Eps
| Chr (p : codepoint -> bool)
| Rep (p : codepoint -> bool) (lo : nat) (hi : option nat) (greedy : bool)
| Seq (r1 r2 : regex)
| Alt (r1 r2 : regex)
| Grp (r : regex).

(** May a repetition bounded by [hi] take one more character? *)
Definition can_more (hi : option nat) : bool :=
  match hi with
  | Some O => false
  | _ => true
  end.

Definition one_less (hi : option nat) : option nat := option_map pred hi.

Section Matcher.
Variable A : Type.

(** [p{lo,hi}] greedy, then the continuation [k] on what is left. *)
Fixpoint rep_greedy (p : codepoint -> bool) (lo : nat) (hi : option nat)
         (s : pystr) (pos : nat) (k : pystr -> nat -> option A) : option A :=
  let stop := match lo with O => k s pos | S _ => None end in
  match s with
  | c :: s' =>
      if p c && can_more hi
      then match rep_greedy p (pred lo) (one_less hi) s' (S pos) k with
           | Some m => Some m
           | None => stop
           end
      else stop
  | [] => stop
  end.

(** [p{lo,hi}?] lazy. *)
Fixpoint rep_lazy (p : codepoint -> bool) (lo : nat) (hi : option nat)
         (s : pystr) (pos : nat) (k : pystr -> nat -> option A) : option A :=
  match s with
  | c :: s' =>
      let more := if p c && can_more hi
                  then rep_lazy p (pred lo) (one_less hi) s' (S pos) k
                  else None in
      match lo with
      | O => match k s pos with
             | Some m => Some m
             | None => more
             end
      | S _ => more
      end
  | [] => match lo with O => k s pos | S _ => None end
  end.

(** [rmatch r s pos g k]: match [r] at the head of [s], which starts at
    offset [pos] of the text; [g] is the span of group 1 so far. *)
Fixpoint rmatch (r : regex) (s : pystr) (pos : nat) (g : option (nat * nat))
         (k : pystr -> nat -> option (nat * nat) -> option A) : option A :=
  match r with
  | Eps => k s pos g
  | Chr p =>
      match s with
      | c :: s' => if p c then k s' (S pos) g else None
      | [] => None
      end
  | Rep p lo hi true => rep_greedy p lo hi s pos (fun s' pos' => k s' pos' g)
  | Rep p lo hi false => rep_lazy p lo hi s pos (fun s' pos' => k s' pos' g)
  | Seq r1 r2 =>
      rmatch r1 s pos g (fun s' pos' g' => rmatch r2 s' pos' g' k)
  | Alt r1 r2 =>
      match rmatch r1 s pos g k with
      | Some m => Some m
      | None => rmatch r2 s pos g k
      end
  | Grp r1 =>
      rmatch r1 s pos g (fun s' pos' _ => k s' pos' (Some (pos, pos')))
  end.
End Matcher.

(** A match object: the span of the match and of group 1. *)
Record rematch : Type := mkMatch {
  m_start : nat;
  m_end : nat;
  m_group1 : option (nat * nat)
}.

(** The match of [r] that starts at the head of [s], if any. *)
Definition match_here (r : regex) (s : pystr) (pos : nat) : option rematch :=
  rmatch r s pos None (fun _ e g => Some (mkMatch pos e g)).

(** The leftmost match in [s]. *)
Fixpoint search_from (r : regex) (s : pystr) (pos : nat) : option rematch :=
  match match_here r s pos with
  | Some m => Some m
  | None =>
      match s with
      | [] => None
      | _ :: s' => search_from r s' (S pos)
      end
  end.

(** [re.search(r, text)] *)
Definition re_search (r : regex) (text : pystr) : option rematch :=
  search_from r text 0.

(** [m.group(0)] *)
Definition group0 (text : pystr) (m : rematch) : pystr :=
  substr text (m_start m) (m_end m).

(** [m.group(1)], for a pattern whose group 1 takes part in every match. *)
Definition group1 (text : pystr) (m : rematch) : pystr :=
  match m_group1 m with
  | Some (a, b) => substr text a b
  | None => []
  end.

(** [re.findall(r, text)] for a pattern without groups: the matches from
    left to right, without overlap.  [skip] counts the characters of the
    last match still to pass.  An empty match is recorded and the scan
    moves on by one character (no pattern of the source matches the empty
    string). *)
Fixpoint findall_from (r : regex) (s : pystr) (skip : nat) : list pystr :=
  match s with
  | [] =>
      match skip, match_here r [] 0 with
      | O, Some _ => [[]]
      | _, _ => []
      end
  | _ :: s' =>
      match skip with
      | S n => findall_from r s' n
      | O =>
          match match_here r s 0 with
          | Some m => firstn (m_end m) s :: findall_from r s' (pred (m_end m))
          | None => findall_from r s' 0
          end
      end
  end.

Definition re_findall (r : regex) (text : pystr) : list pystr :=
  findall_from r text 0.

(** [re.sub(r, repl, text)] for a replacement without group references. *)
Fixpoint sub_from (r : regex) (repl : pystr) (s : pystr) (skip : nat) : pystr :=
  match s with
  | [] =>
      match skip, match_here r [] 0 with
      | O, Some _ => repl
      | _, _ => []
      end
  | c :: s' =>
      match skip with
      | S n => sub_from r repl s' n
      | O =>
          match match_here r s 0 with
          | Some m =>
              match m_end m with
              | O => repl ++ c :: sub_from r repl s' 0
              | S n => repl ++ sub_from r repl s' n
              end
          | None => c :: sub_from r repl s' 0
          end
      end
  end.

Definition re_sub (r : regex) (repl text : pystr) : pystr :=
  sub_from r repl text 0.

(** Pattern syntax. *)
Definition lit (s : string) : codepoint -> bool := N.eqb (chr s).
Definition any_char : codepoint -> bool := fun _ => true.   (* [.] with DOTALL *)
Definition not_in (p : codepoint -> bool) : codepoint -> bool := fun c => negb (p c).
Definition in_range (lo hi : string) : codepoint -> bool :=
  fun c => (chr lo <=? c)%N && (c <=? chr hi)%N.

(** A literal string. *)
Fixpoint lits (s : string) : regex :=
  match s with
  | EmptyString => Eps
  | String a s' => Seq (Chr (N.eqb (N_of_ascii a))) (lits s')
  end.

Definition star (p : codepoint -> bool) : regex := Rep p 0 None true.
Definition star_lazy (p : codepoint -> bool) : regex := Rep p 0 None false.
Definition plus (p : codepoint -> bool) : regex := Rep p 1 None true.
Definition at_least (n : nat) (p : codepoint -> bool) : regex := Rep p n None true.
Definition exactly (n : nat) (p : codepoint -> bool) : regex := Rep p n (Some n) true.

Declare Scope regex_scope.
Delimit Scope regex_scope with re.
Infix "++" := Seq (right associativity, at level 60) : regex_scope.
Infix "||" := Alt : regex_scope.

(* ================================================================== *)
(** ** [json.loads]

    The decoder of the standard library with its default settings
    (strict strings, [NaN] and [Infinity] accepted, a repeated key keeps
    its last value).  The message of a [JSONDecodeError] is kept without
    its position suffix. *)

Definition jerr {A} (msg : string) : result A := Raise (JSONDecodeError (py msg)).

(** Raised when the recursion budget of [scan_once] is used up; with the
    budget [json_loads] gives, it is not (lemma [json_loads_budget]). *)
Definition out_of_fuel : exn := OtherError (py "recursion budget exhausted").

Definition is_json_ws (c : codepoint) : bool :=
  ((c =? 32) || (c =? 9) || (c =? 10) || (c =? 13))%N.

Fixpoint skip_ws (s : pystr) : pystr :=
  match s with
  | c :: s' => if is_json_ws c then skip_ws s' else s
  | [] => []
  end.

Definition is_digit (c : codepoint) : bool := ((48 <=? c) && (c <=? 57))%N.

(** The longest prefix of ASCII digits and the rest. *)
Fixpoint span_digits (s : pystr) : pystr * pystr :=
  match s with
  | c :: s' =>
      if is_digit c
      then let (ds, rest) := span_digits s' in (c :: ds, rest)
      else ([], s)
  | [] => ([], [])
  end.

Definition digits_to_Z (ds : pystr) : Z :=
  fold_left (fun acc d => (acc * 10 + (Z.of_N d - 48))%Z) ds 0%Z.

Definition hex_val (c : codepoint) : option N :=
  (if (48 <=? c) && (c <=? 57) then Some (c - 48)
   else if (65 <=? c) && (c <=? 70) then Some (c - 55)
   else if (97 <=? c) && (c <=? 102) then Some (c - 87)
   else None)%N.

Definition hex4 (a b c d : codepoint) : option N :=
  match hex_val a, hex_val b, hex_val c, hex_val d with
  | Some x, Some y, Some z, Some w => Some (x * 4096 + y * 256 + z * 16 + w)%N
  | _, _, _, _ => None
  end.

(** The [BACKSLASH] table of the decoder. *)
Definition simple_escape (e : codepoint) : option codepoint :=
  (if e =? 34 then Some 34          (* quote *)
   else if e =? 92 then Some 92     (* backslash *)
   else if e =? 47 then Some 47     (* slash *)
   else if e =? 98 then Some 8      (* b *)
   else if e =? 102 then Some 12    (* f *)
   else if e =? 110 then Some 10    (* n *)
   else if e =? 114 then Some 13    (* r *)
   else if e =? 116 then Some 9     (* t *)
   else None)%N.

Definition is_high_surrogate (u : N) : bool := ((55296 <=? u) && (u <=? 56319))%N.
Definition is_low_surrogate (u : N) : bool := ((56320 <=? u) && (u <=? 57343))%N.
Definition join_surrogates (hi lo : N) : N :=
  (65536 + (N.shiftl (hi - 55296) 10) + (lo - 56320))%N.

(** [scanstring]: [s] starts behind the opening quote; gives the decoded
    string and what follows the closing quote.  [acc] is the string read
    so far, reversed. *)
Fixpoint scanstring (s : pystr) (acc : pystr) : result (pystr * pystr) :=
  match s with
  | [] => jerr "Unterminated string starting at"
  | c :: s1 =>
      if (c =? 34)%N then Ok (rev acc, s1)
      else if (c =? 92)%N then
        match s1 with
        | [] => jerr "Unterminated string starting at"
        | e :: s2 =>
            if (e =? 117)%N then
              match s2 with
              | h1 :: h2 :: h3 :: h4 :: s3 =>
                  match hex4 h1 h2 h3 h4 with
                  | None => jerr "Invalid \uXXXX escape"
                  | Some uni =>
                      if is_high_surrogate uni then
                        match s3 with
                        | b :: u :: s3b =>
                            if ((b =? 92) && (u =? 117))%N then
                              match s3b with
                              | g1 :: g2 :: g3 :: g4 :: s4 =>
                                  match hex4 g1 g2 g3 g4 with
                                  | None => jerr "Invalid \uXXXX escape"
                                  | Some uni2 =>
                                      if is_low_surrogate uni2
                                      then scanstring s4 (join_surrogates uni uni2 :: acc)
                                      else scanstring s3 (uni :: acc)
                                  end
                              | _ => jerr "Invalid \uXXXX escape"
                              end
                            else scanstring s3 (uni :: acc)
                        | _ => scanstring s3 (uni :: acc)
                        end
                      else scanstring s3 (uni :: acc)
                  end
              | _ => jerr "Invalid \uXXXX escape"
              end
            else
              match simple_escape e with
              | Some x => scanstring s2 (x :: acc)
              | None => jerr "Invalid \escape"
              end
        end
      else if (c <? 32)%N then jerr "Invalid control character at"
      else scanstring s1 (c :: acc)
  end.

(** The value of the number [-?int(.frac)?([eE][-+]?exp)?]. *)
Definition number_value (negative : bool) (int frac : pystr)
           (exp : option Z) : value :=
  let sign := (if negative then -1 else 1)%Z in
  match frac, exp with
  | [], None => VInt (sign * digits_to_Z int)
  | _, _ =>
      let m := (sign * digits_to_Z (int ++ frac))%Z in
      let e := (match exp with Some e => e | None => 0 end
                - Z.of_nat (List.length frac))%Z in
      VFloat (if (0 <=? e)%Z
              then inject_Z (m * 10 ^ e)
              else Qmake m (Z.to_pos (10 ^ (- e))))
  end.

(** The four parts of [NUMBER_RE]: an optional minus sign; a zero, or a
    digit from 1 to 9 and then digits; an optional fraction, a dot and
    at least one digit; an optional exponent, e or E, an optional sign and
    at least one digit.  Each gives what it read and the rest. *)
Definition take_sign (s : pystr) : bool * pystr :=
  match s with
  | c :: t => if (c =? 45)%N then (true, t) else (false, s)
  | [] => (false, s)
  end.

Definition take_int (s : pystr) : option (pystr * pystr) :=
  match s with
  | c :: t =>
      if (c =? 48)%N then Some ([c], t)
      else if is_digit c
           then let (ds, rest) := span_digits t in Some (c :: ds, rest)
           else None
  | [] => None
  end.

Definition take_frac (s : pystr) : pystr * pystr :=
  match s with
  | c :: t =>
      if (c =? 46)%N
      then match span_digits t with
           | ([], _) => ([], s)
           | (fs, rest) => (fs, rest)
           end
      else ([], s)
  | [] => ([], s)
  end.

Definition take_exp (s : pystr) : option Z * pystr :=
  match s with
  | c :: t =>
      if ((c =? 101) || (c =? 69))%N
      then
        let (esign, t') :=
          match t with
          | d :: u =>
              if (d =? 45)%N then ((-1)%Z, u)
              else if (d =? 43)%N then (1%Z, u)
              else (1%Z, t)
          | [] => (1%Z, t)
          end in
        match span_digits t' with
        | ([], _) => (None, s)
        | (es, rest) => (Some (esign * digits_to_Z es)%Z, rest)
        end
      else (None, s)
  | [] => (None, s)
  end.

(** [NUMBER_RE.match]: the number at the head of [s] and the rest. *)
Definition match_number (s : pystr) : option (value * pystr) :=
  let (negative, s1) := take_sign s in
  match take_int s1 with
  | None => None
  | Some (int, s2) =>
      let (frac, s3) := take_frac s2 in
      let (exp, s4) := take_exp s3 in
      Some (number_value negative int frac exp, s4)
  end.

(** The constants and numbers [scan_once] tries after strings, objects
    and arrays, in its order. *)
Definition scan_atom (s : pystr) : result (value * pystr) :=
  match strip_prefix (py "null") s with
  | Some r => Ok (VNone, r)
  | None =>
  match strip_prefix (py "true") s with
  | Some r => Ok (VBool true, r)
  | None =>
  match strip_prefix (py "false") s with
  | Some r => Ok (VBool false, r)
  | None =>
  match match_number s with
  | Some vr => Ok vr
  | None =>
  match strip_prefix (py "NaN") s with
  | Some r => Ok (VNaN, r)
  | None =>
  match strip_prefix (py "Infinity") s with
  | Some r => Ok (VInf false, r)
  | None =>
  match strip_prefix (py "-Infinity") s with
  | Some r => Ok (VInf true, r)
  | None => jerr "Expecting value"
  end end end end end end end.

(** [scan_once] with [JSONObject] and [JSONArray].  [object_pairs] reads
    the members of an object from behind the opening quote of a key,
    [array_elems] the elements of an array from the head of an element. *)
Fixpoint scan_once (fuel : nat) (s : pystr) {struct fuel}
  : result (value * pystr) :=
  match fuel with
  | O => Raise out_of_fuel
  | S fuel' =>
      match s with
      | [] => jerr "Expecting value"
      | c :: s' =>
          if (c =? 34)%N then
            r <- scanstring s' [] ;; Ok (VStr (fst r), snd r)
          else if (c =? 123)%N then
            match skip_ws s' with
            | q :: s1 =>
                if (q =? 34)%N then object_pairs fuel' s1 []
                else if (q =? 125)%N then Ok (VDict [], s1)
                else jerr "Expecting property name enclosed in double quotes"
            | [] => jerr "Expecting property name enclosed in double quotes"
            end
          else if (c =? 91)%N then
            match skip_ws s' with
            | q :: s1 =>
                if (q =? 93)%N then Ok (VList [], s1)
                else array_elems fuel' (q :: s1) []
            | [] => jerr "Expecting value"
            end
          else scan_atom s
      end
  end

with object_pairs (fuel : nat) (s : pystr) (pairs : list (pystr * value))
                  {struct fuel} : result (value * pystr) :=
  match fuel with
  | O => Raise out_of_fuel
  | S fuel' =>
      kr <- scanstring s [] ;;
      match skip_ws (snd kr) with
      | c :: s3 =>
          if (c =? 58)%N then
            vr <- scan_once fuel' (skip_ws s3) ;;
            let pairs' := pairs ++ [(fst kr, fst vr)] in
            match skip_ws (snd vr) with
            | d :: s6 =>
                if (d =? 125)%N then Ok (VDict (dict_of_pairs pairs'), s6)
                else if (d =? 44)%N then
                  match skip_ws s6 with
                  | q :: s7 =>
                      if (q =? 34)%N then object_pairs fuel' s7 pairs'
                      else jerr "Expecting property name enclosed in double quotes"
                  | [] => jerr "Expecting property name enclosed in double quotes"
                  end
                else jerr "Expecting ',' delimiter"
            | [] => jerr "Expecting ',' delimiter"
            end
          else jerr "Expecting ':' delimiter"
      | [] => jerr "Expecting ':' delimiter"
      end
  end

with array_elems (fuel : nat) (s : pystr) (acc : list value)
                 {struct fuel} : result (value * pystr) :=
  match fuel with
  | O => Raise out_of_fuel
  | S fuel' =>
      vr <- scan_once fuel' s ;;
      let acc' := acc ++ [fst vr] in
      match skip_ws (snd vr) with
      | d :: s2 =>
          if (d =? 93)%N then Ok (VList acc', s2)
          else if (d =? 44)%N then array_elems fuel' (skip_ws s2) acc'
          else jerr "Expecting ',' delimiter"
      | [] => jerr "Expecting ',' delimiter"
      end
  end.

(** [JSONDecoder.decode]: the value at the head of [s], with nothing but
    whitespace around it. *)
Definition decode (s : pystr) : result value :=
  r <- scan_once (S (2 * List.length s)) (skip_ws s) ;;
  match skip_ws (snd r) with
  | [] => Ok (fst r)
  | _ :: _ => jerr "Extra data"
  end.

(** [json.loads(s)] *)
Definition json_loads (s : pystr) : result value :=
  match s with
  | c :: _ =>
      if (c =? 65279)%N
      then jerr "Unexpected UTF-8 BOM (decode using utf-8-sig)"
      else decode s
  | [] => decode s
  end.

(* ================================================================== *)
(** ** Parameters of the development *)

Section Scan2Score.

(** [str.lower], and the Unicode classes behind [\w] ([str.isalnum]) and
    [\d] (decimal digits). *)
Variable str_lower : pystr -> pystr.
Variable isalnum : codepoint -> bool.
Variable isdecimal : codepoint -> bool.

(** [datetime.now().isoformat()] *)
Variable now : pystr.

(* ================================================================== *)
(** ** [ai_evaluator.py] *)

(** A model SDK client: the text of the reply to the prompt built from
    (question, student_answer, rubric, context), or the exception that
    building the prompt, the call or reading the reply raises. *)
Definition client := value -> value -> value -> value -> result pystr.

Record AIEvaluator : Type := mkEvaluator {
  claude_model : pystr;
  gpt_model : pystr;
  anthropic_client : option client;
  openai_client : option client
}.

(** [r'```json\s*(\{.*?\})\s*```'] with [re.DOTALL] *)
Definition fenced_json_re : regex :=
  (lits "```json" ++ star is_space
   ++ Grp (Chr (lit "{") ++ star_lazy any_char ++ Chr (lit "}"))
   ++ star is_space ++ lits "```")%re.

(** [r'\{.*\}'] with [re.DOTALL] *)
Definition bare_json_re : regex :=
  (Chr (lit "{") ++ star any_char ++ Chr (lit "}"))%re.

(** The JSON text of a response: the fenced block if there is one, else
    the bare braces, else [ValueError]. *)
Definition extract_json (response_text : pystr) : result pystr :=
  match re_search fenced_json_re response_text with
  | Some m => Ok (group1 response_text m)
  | None =>
      match re_search bare_json_re response_text with
      | Some m => Ok (group0 response_text m)
      | None => Raise (ValueError (py "No JSON found in response"))
      end
  end.

(** [o[k] = v] on an object that json.loads returned. *)
Definition setitem (k : pystr) (v : value) (o : value) : result dict :=
  match o with
  | VDict d => Ok (dict_set k v d)
  | VList _ => Raise (TypeError (py "list indices must be integers or slices, not str"))
  | _ => Raise (TypeError (py "object does not support item assignment"))
  end.

(** The [try] block of [_parse_evaluation_response]. *)
Definition parse_evaluation_try (response_text : pystr) : result dict :=
  json_str <- extract_json response_text ;;
  evaluation <- json_loads json_str ;;
  evaluation <- setitem (py "success") (VBool true) evaluation ;;
  Ok (dict_set (py "raw_response") (VStr response_text) evaluation).

(** The [except] block of [_parse_evaluation_response]. *)
Definition parse_evaluation_except (e : exn) (response_text : pystr) : dict :=
  [ (py "success", VBool false);
    (py "error", VStr (py "Failed to parse response: " ++ str_exn e));
    (py "raw_response", VStr response_text);
    (py "chain_of_thought", VDict [(py "parsing_error", VStr (str_exn e))]);
    (py "total_score", VInt 0);
    (py "max_possible_score", VInt 100);
    (py "percentage", VInt 0);
    (py "feedback",
     VDict [ (py "strengths", VList []);
             (py "areas_for_improvement",
              VList [VStr (py "Response parsing failed - manual review required")]);
             (py "specific_suggestions", VList []) ]) ].

Definition _parse_evaluation_response (response_text : pystr) : dict :=
  match parse_evaluation_try response_text with
  | Ok evaluation => evaluation
  | Raise e => parse_evaluation_except e response_text
  end.

(** The record a backend call returns when the call failed. *)
Definition backend_failure (e : exn) (model : pystr) : dict :=
  [ (py "success", VBool false);
    (py "error", VStr (str_exn e));
    (py "model_used", VStr model);
    (py "timestamp", VStr now) ].

(** The record a backend call returns from a reply. *)
Definition backend_success (response_text model : pystr) : dict :=
  dict_set (py "timestamp") (VStr now)
    (dict_set (py "model_used") (VStr model)
       (_parse_evaluation_response response_text)).

Definition evaluate_answer_with_claude (self : AIEvaluator)
           (question student_answer rubric context : value) : result dict :=
  match anthropic_client self with
  | None => Raise (ValueError (py "Anthropic client not initialized. Check API key."))
  | Some call =>
      match call question student_answer rubric context with
      | Ok response_text => Ok (backend_success response_text (claude_model self))
      | Raise e => Ok (backend_failure e (claude_model self))
      end
  end.

Definition evaluate_answer_with_gpt (self : AIEvaluator)
           (question student_answer rubric context : value) : result dict :=
  match openai_client self with
  | None => Raise (ValueError (py "OpenAI client not initialized. Check API key."))
  | Some call =>
      match call question student_answer rubric context with
      | Ok response_text => Ok (backend_success response_text (gpt_model self))
      | Raise e => Ok (backend_failure e (gpt_model self))
      end
  end.

(** [x.lower()] on an object: only a [str] has the method. *)
Definition lower_method (x : value) : result pystr :=
  match x with
  | VStr s => Ok (str_lower s)
  | _ => Raise (AttributeError (py "object has no attribute 'lower'"))
  end.

Definition is_configured (c : option client) : bool :=
  match c with Some _ => true | None => false end.

Definition evaluate_answer (self : AIEvaluator)
           (question student_answer rubric context preferred_model : value)
  : result dict :=
  lowered <- lower_method preferred_model ;;
  if str_eqb lowered (py "claude") && is_configured (anthropic_client self) then
    match evaluate_answer_with_claude self question student_answer rubric context with
    | Ok r => Ok r
    | Raise e =>
        if is_configured (openai_client self)
        then evaluate_answer_with_gpt self question student_answer rubric context
        else Raise e
    end
  else if is_configured (openai_client self) then
    evaluate_answer_with_gpt self question student_answer rubric context
  else Raise (ValueError (py "No AI client available for evaluation")).

(** The body of the loop of [batch_evaluate_answers] over
    [enumerate(results)]. *)
Definition processed_result (i : nat) (r : result dict) : dict :=
  match r with
  | Raise e =>
      [ (py "success", VBool false);
        (py "error", VStr (str_exn e));
        (py "request_index", VInt (Z.of_nat i));
        (py "timestamp", VStr now) ]
  | Ok d => dict_set (py "request_index") (VInt (Z.of_nat i)) d
  end.

(** The loop, from index [i]. *)
Fixpoint process_results (i : nat) (results : list (result dict)) : list dict :=
  match results with
  | [] => []
  | r :: rest => processed_result i r :: process_results (S i) rest
  end.

(** One task of the batch: [evaluate_answer] on the fields of a request. *)
Definition batch_task (self : AIEvaluator) (request : dict) : result dict :=
  evaluate_answer self
    (dict_get_default (py "question") (VStr []) request)
    (dict_get_default (py "student_answer") (VStr []) request)
    (dict_get_default (py "rubric") (VDict []) request)
    (dict_get_default (py "context") (VStr []) request)
    (dict_get_default (py "preferred_model") (VStr (py "claude")) request).

(** [asyncio.gather] with [return_exceptions=True]: the outcome of every
    task, in the order of the tasks. *)
Definition gather (A : Type) (tasks : list (result A)) : list (result A) := tasks.

Definition batch_evaluate_answers (self : AIEvaluator)
           (evaluation_requests : list dict) : list dict :=
  let tasks := map (batch_task self) evaluation_requests in
  let results := gather tasks in
  process_results 0 results.

(** An entry of [criteria_templates]. *)
Record criterion_template : Type := mkTemplate {
  t_name : pystr;
  t_weight : Q;
  t_description : pystr
}.

Definition essay_template : list criterion_template :=
  [ mkTemplate (py "Content Knowledge") 0.35
      (py "Accuracy and depth of subject matter understanding");
    mkTemplate (py "Organization & Structure") 0.25
      (py "Logical flow, clear introduction, body, and conclusion");
    mkTemplate (py "Critical Analysis") 0.25
      (py "Quality of reasoning, evidence use, and original insights");
    mkTemplate (py "Language & Mechanics") 0.15
      (py "Grammar, vocabulary, clarity of expression") ].

Definition short_answer_template : list criterion_template :=
  [ mkTemplate (py "Accuracy") 0.4 (py "Correctness of factual information");
    mkTemplate (py "Completeness") 0.3 (py "Coverage of all required elements");
    mkTemplate (py "Clarity") 0.2 (py "Clear and concise communication");
    mkTemplate (py "Examples/Evidence") 0.1
      (py "Use of relevant examples or supporting evidence") ].

Definition analysis_template : list criterion_template :=
  [ mkTemplate (py "Understanding") 0.3
      (py "Demonstrates clear understanding of the topic");
    mkTemplate (py "Analysis Quality") 0.35
      (py "Depth and sophistication of analytical thinking");
    mkTemplate (py "Evidence & Support") 0.25
      (py "Use of relevant evidence to support arguments");
    mkTemplate (py "Synthesis") 0.1
      (py "Ability to connect ideas and draw conclusions") ].

Definition criteria_templates : list (pystr * list criterion_template) :=
  [ (py "essay", essay_template);
    (py "short_answer", short_answer_template);
    (py "analysis", analysis_template) ].

(** [templates.get(key, default)] *)
Fixpoint template_get (key : pystr) (table : list (pystr * list criterion_template))
         (default : list criterion_template) : list criterion_template :=
  match table with
  | [] => default
  | (k, t) :: rest => if str_eqb key k then t else template_get key rest default
  end.

(** [l[:n]] *)
Definition slice_to (A : Type) (l : list A) (n : Z) : list A :=
  if (0 <=? n)%Z then firstn (Z.to_nat n) l
  else firstn (Z.to_nat (Z.of_nat (List.length l) + n)) l.

Definition performance_level (name : string) (points : Z) (description : string) : value :=
  VDict [ (py "name", VStr (py name));
          (py "points", VInt points);
          (py "description", VStr (py description)) ].

(** The body of the loop of [create_custom_rubric]. *)
Definition make_criterion (max_points : Z) (criterion_template : criterion_template) : value :=
  let criterion_points := py_int (inject_Z max_points * t_weight criterion_template) in
  VDict
    [ (py "name", VStr (t_name criterion_template));
      (py "description", VStr (t_description criterion_template));
      (py "max_points", VInt criterion_points);
      (py "weight", VFloat (t_weight criterion_template));
      (py "performance_levels",
       VList
         [ performance_level "Excellent" criterion_points "Exceeds expectations";
           performance_level "Good" (py_int (inject_Z criterion_points * 0.8))
             "Meets expectations";
           performance_level "Satisfactory" (py_int (inject_Z criterion_points * 0.6))
             "Partially meets expectations";
           performance_level "Needs Improvement" (py_int (inject_Z criterion_points * 0.4))
             "Below expectations";
           performance_level "Unsatisfactory" 0 "Does not meet expectations" ]) ].

Definition create_custom_rubric (subject : value) (question_type : pystr)
           (max_points criteria_count : Z) : dict :=
  let template :=
    template_get (str_lower question_type) criteria_templates
      (template_get (py "short_answer") criteria_templates []) in
  let criteria :=
    fold_left (fun criteria criterion_template =>
                 criteria ++ [make_criterion max_points criterion_template])
              (slice_to template criteria_count) [] in
  [ (py "subject", subject);
    (py "question_type", VStr question_type);
    (py "total_points", VInt max_points);
    (py "criteria", VList criteria);
    (py "created_at", VStr now);
    (py "version", VStr (py "1.0")) ].

(* ================================================================== *)
(** ** [plagiarism_detector.py]: the pattern heuristics *)

Definition dquote : codepoint -> bool := N.eqb 34.

(** [\w] of a [str] pattern *)
Definition is_word (c : codepoint) : bool := isalnum c || (c =? chr "_")%N.

(** A lowercase ASCII letter of a pattern compiled with [re.IGNORECASE]:
    the characters whose simple lowercase is the letter or one of its
    extra case forms (dotless i and long s; the Kelvin sign and the
    dotted capital I lowercase to k and i). *)
Definition ci_letter (a : codepoint) : codepoint -> bool :=
  fun c =>
    ((c =? a) || (c =? a - 32)
     || (a =? 105) && ((c =? 304) || (c =? 305))
     || (a =? 115) && (c =? 383)
     || (a =? 107) && (c =? 8490))%N.

(** A literal of a pattern compiled with [re.IGNORECASE]. *)
Fixpoint ci_lits (s : string) : regex :=
  match s with
  | EmptyString => Eps
  | String a s' =>
      let c := N_of_ascii a in
      Seq (Chr (if (97 <=? c)%N && (c <=? 122)%N then ci_letter c else N.eqb c))
          (ci_lits s')
  end.

(** [text.lower().strip()], runs of spaces to one space, then only word
    characters, spaces and [.,;:!?-] kept. *)
Definition _preprocess_text (text : pystr) : pystr :=
  let text := re_sub (plus is_space) (py " ") (strip (str_lower text)) in
  re_sub (Chr (not_in (fun c => is_word c || is_space c
                                || existsb (N.eqb c) (py ".,;:!?-"))))
         [] text.

Record quotes_check : Type := mkQuotes {
  quotes_detected : bool;
  quotes_percentage : Q;
  quote_count : nat
}.

(** Sum of the lengths, as [sum(len(q) for q in quotes)]. *)
Definition total_len (l : list pystr) : nat :=
  fold_left (fun acc q => acc + List.length q)%nat l 0%nat.

Definition Qnat (n : nat) : Q := inject_Z (Z.of_nat n).

Definition _check_excessive_quotes (text : pystr) : quotes_check :=
  let quotes := re_findall (Chr dquote ++ star (not_in dquote) ++ Chr dquote)%re text in
  let total_quoted_chars := total_len quotes in
  let quote_percentage :=
    match text with
    | [] => 0
    | _ => Qnat total_quoted_chars / Qnat (List.length text)
    end in
  mkQuotes (Qltb 0.4 quote_percentage) quote_percentage (List.length quotes).

Record phrases_check : Type := mkPhrases {
  phrases_detected : bool;
  max_repetitions : nat;
  repeated_phrases_count : nat
}.

(** [phrases[phrase] = phrases.get(phrase, 0) + 1] *)
Fixpoint count_phrase (phrase : pystr) (phrases : list (pystr * nat))
  : list (pystr * nat) :=
  match phrases with
  | [] => [(phrase, 1%nat)]
  | (k, v) :: rest =>
      if str_eqb phrase k then (k, S v) :: rest
      else (k, v) :: count_phrase phrase rest
  end.

Definition _check_repetitive_phrases (text : pystr) : phrases_check :=
  let words := split_ws text in
  let phrase_length := 5%nat in
  let phrases :=
    fold_left (fun phrases i =>
                 count_phrase (join (py " ") (firstn phrase_length (skipn i words)))
                              phrases)
              (seq 0 (List.length words + 1 - phrase_length)) [] in
  let repeated_phrases := filter (fun kv => (1 <? snd kv)%nat) phrases in
  let max_repetition := fold_left Nat.max (map snd repeated_phrases) 0%nat in
  mkPhrases (2 <? max_repetition)%nat max_repetition (List.length repeated_phrases).

Record formatting_check : Type := mkFormatting {
  formatting_detected : bool;
  inconsistent_spacing : bool;
  mixed_case_patterns : bool;
  unusual_punctuation : bool;
  indicator_count : nat
}.

Definition _check_unusual_formatting (text : pystr) : formatting_check :=
  let inconsistent_spacing :=
    (0 <? List.length (re_findall (at_least 3 is_space) text))%nat in
  let mixed_case_patterns :=
    Qltb (Qnat (List.length text) * 0.05)
         (Qnat (List.length
                  (re_findall (Chr (in_range "a" "z") ++ Chr (in_range "A" "Z"))%re text))) in
  let unusual_punctuation :=
    (0 <? List.length
            (re_findall (at_least 2 (lit ".") || at_least 2 (lit "!")
                         || at_least 2 (lit "?"))%re text))%nat in
  let detected_count :=
    (Nat.b2n inconsistent_spacing + Nat.b2n mixed_case_patterns
     + Nat.b2n unusual_punctuation)%nat in
  mkFormatting (1 <? detected_count)%nat inconsistent_spacing mixed_case_patterns
               unusual_punctuation detected_count.

Record citation_check : Type := mkCitation {
  citation_detected : bool;
  citation_count : nat;
  citation_density : Q
}.

(** The three patterns of [_check_citation_patterns], used with
    [re.IGNORECASE]. *)
Definition citation_patterns : list regex :=
  [ (* \([^)]*\d{4}[^)]*\) *)
    (Chr (lit "(") ++ star (not_in (lit ")")) ++ exactly 4 isdecimal
     ++ star (not_in (lit ")")) ++ Chr (lit ")"))%re;
    (* \[[^\]]*\d+[^\]]*\] *)
    (Chr (lit "[") ++ star (not_in (lit "]")) ++ plus isdecimal
     ++ star (not_in (lit "]")) ++ Chr (lit "]"))%re;
    (* (?:according to|as stated by|cited in)\s+[^.]+ *)
    ((ci_lits "according to" || ci_lits "as stated by" || ci_lits "cited in")
     ++ plus is_space ++ plus (not_in (lit ".")))%re ].

(** The list [citations] after the loop over the patterns. *)
Definition find_citations (text : pystr) : list pystr :=
  fold_left (fun citations pattern => citations ++ re_findall pattern text)
            citation_patterns [].

Definition _check_citation_patterns (text : pystr) : citation_check :=
  let citations := find_citations text in
  let words := List.length (split_ws text) in
  let citation_density :=
    if (0 <? words)%nat
    then Qnat (List.length citations) / (Qnat words / 100)
    else 0 in
  mkCitation (Qltb 5 citation_density || Qltb citation_density 0.5)
             (List.length citations) citation_density.

Definition pystr_eq_dec : forall a b : pystr, {a = b} + {a <> b} :=
  list_eq_dec N.eq_dec.

(** Jaccard similarity of the word sets. *)
Definition _calculate_text_similarity (text1 text2 : pystr) : Q :=
  let words1 := nodup pystr_eq_dec (split_ws text1) in
  let words2 := nodup pystr_eq_dec (split_ws text2) in
  match words1, words2 with
  | [], [] => 1.0
  | [], _ | _, [] => 0.0
  | _, _ =>
      let intersection :=
        filter (fun w => if in_dec pystr_eq_dec w words2 then true else false) words1 in
      let union := nodup pystr_eq_dec (words1 ++ words2) in
      Qnat (List.length intersection) / Qnat (List.length union)
  end.

Record patterns : Type := mkPatterns {
  excessive_quotes : quotes_check;
  repetitive_phrases : phrases_check;
  unusual_formatting : formatting_check;
  citation_inconsistencies : citation_check
}.

Record pattern_result : Type := mkPatternResult {
  pr_success : bool;
  suspicion_score : Q;
  max_similarity : Q;
  patterns_detected : patterns;
  reference_similarities : list Q;
  pr_timestamp : pystr
}.

(** [max(l)] of a list of floats that is not empty, [0.0] on the empty one. *)
Definition max_or_zero (l : list Q) : Q :=
  match l with
  | [] => 0.0
  | x :: rest => fold_left (fun m y => if Qltb m y then y else m) rest x
  end.

(** [min(x, 1.0)] *)
Definition min_one (x : Q) : Q := if Qltb 1.0 x then 1.0 else x.

(** On a text and reference texts that are strings no step of the [try]
    block raises, so the [except] branch of the source is not taken. *)
Definition detect_pattern_based_plagiarism (text : pystr)
           (reference_texts : option (list pystr)) : pattern_result :=
  let clean_text := _preprocess_text text in
  let patterns :=
    mkPatterns (_check_excessive_quotes text)
               (_check_repetitive_phrases clean_text)
               (_check_unusual_formatting text)
               (_check_citation_patterns text) in
  let suspicion_score := 0.0 in
  let suspicion_score :=
    if quotes_detected (excessive_quotes patterns)
    then suspicion_score + 0.3 else suspicion_score in
  let suspicion_score :=
    if phrases_detected (repetitive_phrases patterns)
    then suspicion_score + 0.4 else suspicion_score in
  let suspicion_score :=
    if formatting_detected (unusual_formatting patterns)
    then suspicion_score + 0.2 else suspicion_score in
  let suspicion_score :=
    if citation_detected (citation_inconsistencies patterns)
    then suspicion_score + 0.1 else suspicion_score in
  let similarity_scores :=
    match reference_texts with
    | Some refs =>
        map (fun ref_text =>
               _calculate_text_similarity clean_text (_preprocess_text ref_text))
            refs
    | None => []
    end in
  mkPatternResult true (min_one suspicion_score) (max_or_zero similarity_scores)
                  patterns similarity_scores now.

(* ================================================================== *)
(** ** [plagiarism_detector.py]: the aggregator *)

Record additional_info : Type := mkInfo {
  ai_detection_result : dict;
  traditional_detection_result : dict;
  pattern_detection_result : pattern_result;
  text_length : nat;
  word_count : nat
}.

Record PlagiarismResult : Type := mkPlagiarismResult {
  is_plagiarized : bool;
  confidence_score : Q;
  ai_generated_probability : value;
  sources_found : value;
  similarity_percentage : value;
  detection_method : pystr;
  timestamp : pystr;
  info : additional_info
}.

(** [isinstance(r, dict) and r.get('success')] on an outcome of [gather]. *)
Definition succeeded (r : result dict) : bool :=
  match r with
  | Ok d => truthy (dict_get_default (py "success") VNone d)
  | Raise _ => false
  end.

(** [r.get(key, default)] when the detector succeeded, else [default]. *)
Definition field_or (r : result dict) (key : string) (default : value) : value :=
  match r with
  | Ok d => if succeeded r then dict_get_default (py key) default d else default
  | Raise _ => default
  end.

(** [r if isinstance(r, dict) else {'error': str(r)}] *)
Definition dict_or_error (r : result dict) : dict :=
  match r with
  | Ok d => d
  | Raise e => [(py "error", VStr (str_exn e))]
  end.

(** [sum(l) / len(l)] *)
Definition mean (l : list Q) : Q :=
  fold_left Qplus l 0 / Qnat (List.length l).

(** [comprehensive_plagiarism_check], from the outcomes [ai_result] and
    [traditional_result] that [gather] gives for the two network
    detectors.  A detector value that is not a number makes the first
    comparison with it raise. *)
Definition comprehensive_plagiarism_check
           (ai_result traditional_result : result dict)
           (text : pystr) (reference_texts : option (list pystr))
  : result PlagiarismResult :=
  let pattern_result := detect_pattern_based_plagiarism text reference_texts in
  let ai_probability := field_or ai_result "ai_probability" (VFloat 0.0) in
  let similarity_percentage :=
    field_or traditional_result "similarity_percentage" (VFloat 0.0) in
  let sources_found := field_or traditional_result "sources" (VList []) in
  let pattern_suspicion :=
    if pr_success pattern_result then suspicion_score pattern_result else 0.0 in
  ai <- as_number ai_probability ;;
  let ai_factor :=
    if num_gt ai (PFin 0.7) then 0.9
    else if num_gt ai (PFin 0.5) then 0.7
    else 0.3 in
  sim <- as_number similarity_percentage ;;
  let similarity_factor :=
    if num_gt sim (PFin 30) then 0.9
    else if num_gt sim (PFin 15) then 0.7
    else 0.3 in
  let pattern_factor :=
    if Qltb 0.6 pattern_suspicion then 0.8
    else if Qltb 0.3 pattern_suspicion then 0.6
    else 0.4 in
  let confidence_factors := [ai_factor; similarity_factor; pattern_factor] in
  let overall_confidence := mean confidence_factors in
  let is_plagiarized :=
    num_gt ai (PFin 0.7) || num_gt sim (PFin 25) || Qltb 0.6 pattern_suspicion in
  let detection_method :=
    if num_gt ai sim && num_gt ai (PFin (pattern_suspicion * 100))
    then py "ai_detection"
    else if num_gt sim (PFin (pattern_suspicion * 100))
    then py "traditional_plagiarism"
    else py "pattern_based" in
  Ok (mkPlagiarismResult is_plagiarized overall_confidence ai_probability
        sources_found similarity_percentage detection_method now
        (mkInfo (dict_or_error ai_result) (dict_or_error traditional_result)
                pattern_result (List.length text) (List.length (split_ws text)))).


(* ================================================================== *)
(** ** [ai_evaluator.py]: the rubric in the prompt *)

(** [repr] of a float and [str] of a list or a dict: parameters, like the
    Unicode tables. *)
Definition float_printer : Type := Q -> pystr.
Definition object_printer : Type := value -> pystr.

Variable float_repr : float_printer.
Variable container_str : object_printer.

(** [str(z)] *)
Definition decimal (z : Z) : pystr := py (NilZero.string_of_int (Z.to_int z)).

(** An object as an f-string shows it. *)
Definition format_value (v : value) : pystr :=
  match v with
  | VNone => py "None"
  | VBool true => py "True"
  | VBool false => py "False"
  | VInt z => decimal z
  | VFloat q => float_repr q
  | VNaN => py "nan"
  | VInf false => py "inf"
  | VInf true => py "-inf"
  | VStr s => s
  | VList _ | VDict _ => container_str v
  end.

(** [o.get(key, default)] on an object: only a [dict] has the method. *)
Definition get_method (o : value) (key : string) (default : value) : result value :=
  match o with
  | VDict d => Ok (dict_get_default (py key) default d)
  | _ => Raise (AttributeError (py "object has no attribute 'get'"))
  end.

(** The items a [for] loop takes from an object: the elements of a list,
    the keys of a dict, the characters of a string. *)
Definition iterate (o : value) : result (list value) :=
  match o with
  | VList l => Ok l
  | VDict d => Ok (map (fun kv => VStr (fst kv)) d)
  | VStr s => Ok (map (fun c => VStr [c]) s)
  | _ => Raise (TypeError (py "object is not iterable"))
  end.

(** The line of one performance level. *)
Definition format_level (level : value) : result pystr :=
  level_name <- get_method level "name" (VStr []) ;;
  level_description <- get_method level "description" (VStr []) ;;
  level_points <- get_method level "points" (VInt 0) ;;
  Ok (py "  - " ++ format_value level_name ++ py " (" ++ format_value level_points
         ++ py " pts): " ++ format_value level_description).

(** The loop over the levels of a criterion. *)
Fixpoint format_levels (levels : list value) : result (list pystr) :=
  match levels with
  | [] => Ok []
  | level :: rest =>
      line <- format_level level ;;
      lines <- format_levels rest ;;
      Ok (line :: lines)
  end.

(** The lines of the criterion number [i]. *)
Definition format_criterion (i : nat) (criterion : value) : result (list pystr) :=
  name <- get_method criterion "name"
            (VStr (py "Criterion " ++ decimal (Z.of_nat i))) ;;
  description <- get_method criterion "description" (VStr []) ;;
  max_points <- get_method criterion "max_points" (VInt 0) ;;
  weight <- get_method criterion "weight" (VFloat 1.0) ;;
  levels <- get_method criterion "performance_levels" (VList []) ;;
  level_lines <-
    (if truthy levels
     then items <- iterate levels ;;
          lines <- format_levels items ;;
          Ok (py "Performance Levels:" :: lines)
     else Ok []) ;;
  Ok ([ py "**" ++ format_value name ++ py "** (Max: " ++ format_value max_points
          ++ py " points, Weight: " ++ format_value weight ++ py ")";
        py "Description: " ++ format_value description ]
      ++ level_lines ++ [ [] ]).

(** The loop over [enumerate(criteria, i)]. *)
Fixpoint format_criteria (i : nat) (criteria : list value) : result (list pystr) :=
  match criteria with
  | [] => Ok []
  | criterion :: rest =>
      lines <- format_criterion i criterion ;;
      more <- format_criteria (S i) rest ;;
      Ok (lines ++ more)
  end.

Definition newline : pystr := [10%N].

(** The list [formatted] at the end of [_format_rubric], for a rubric
    that is not empty. *)
Definition format_rubric_lines (rubric : value) : result (list pystr) :=
  total_points <- get_method rubric "total_points" (VInt 100) ;;
  criteria <- get_method rubric "criteria" (VList []) ;;
  items <- iterate criteria ;;
  lines <- format_criteria 1 items ;;
  Ok ((py "**Total Points: " ++ format_value total_points ++ py "**" ++ newline)
      :: lines).

Definition _format_rubric (rubric : value) : result pystr :=
  if negb (truthy rubric)
  then Ok (py "No specific rubric provided. Use general academic standards.")
  else formatted <- format_rubric_lines rubric ;;
       Ok (join newline formatted).

(* ================================================================== *)
(** ** [plagiarism_detector.py]: the network detectors *)

(** [o[:n]] *)
Definition slice_first (n : nat) (o : value) : result value :=
  match o with
  | VList l => Ok (VList (firstn n l))
  | VStr s => Ok (VStr (firstn n s))
  | VDict _ => Raise (TypeError (py "unhashable type: 'slice'"))
  | _ => Raise (TypeError (py "object is not subscriptable"))
  end.

(** The entry for one source. *)
Definition process_source (source : value) : result value :=
  url <- get_method source "url" (VStr []) ;;
  title <- get_method source "title" (VStr (py "Unknown Source")) ;;
  matched <- get_method source "matchedWords" (VInt 0) ;;
  introduction <- get_method source "introduction" (VDict []) ;;
  words <- get_method introduction "words" (VInt 0) ;;
  type <- get_method source "type" (VStr (py "web")) ;;
  Ok (VDict [ (py "url", url);
              (py "title", title);
              (py "similarity_percentage", matched);
              (py "matched_words", words);
              (py "type", type) ]).

Fixpoint process_sources (sources : list value) : result (list value) :=
  match sources with
  | [] => Ok []
  | source :: rest =>
      entry <- process_source source ;;
      entries <- process_sources rest ;;
      Ok (entry :: entries)
  end.

Definition _process_copyleaks_sources (sources : value) : result value :=
  top <- slice_first 10 sources ;;
  items <- iterate top ;;
  processed_sources <- process_sources items ;;
  Ok (VList processed_sources).

(** [text.encode('utf-8')]: the bytes of one character, and of a string;
    a surrogate code point has no encoding. *)
Definition utf8_bytes (c : codepoint) : list N :=
  (if c <? 128 then [c]
   else if c <? 2048 then [192 + c / 64; 128 + c mod 64]
   else if c <? 65536
        then [224 + c / 4096; 128 + (c / 64) mod 64; 128 + c mod 64]
   else [240 + c / 262144; 128 + (c / 4096) mod 64; 128 + (c / 64) mod 64;
         128 + c mod 64])%N.

Definition is_surrogate (c : codepoint) : bool :=
  is_high_surrogate c || is_low_surrogate c.

Fixpoint utf8_encode (s : pystr) : result (list N) :=
  match s with
  | [] => Ok []
  | c :: s' =>
      if is_surrogate c
      then Raise (OtherError
                    (py "'utf-8' codec can't encode character: surrogates not allowed"))
      else rest <- utf8_encode s' ;;
           Ok (utf8_bytes c ++ rest)
  end.

Definition b64_alphabet : pystr :=
  py "ABCDEFGHIJKLMNOPQRSTUVWXYZabcdefghijklmnopqrstuvwxyz0123456789+/".

Definition b64_char (i : N) : codepoint := nth (N.to_nat i) b64_alphabet 0%N.

Definition b64_pad : codepoint := chr "=".

(** [base64.b64encode(bytes).decode('utf-8')] *)
Fixpoint b64encode (bytes : list N) : pystr :=
  match bytes with
  | [] => []
  | [a] => [b64_char (a / 4); b64_char (a mod 4 * 16); b64_pad; b64_pad]%N
  | [a; b] =>
      [b64_char (a / 4); b64_char (a mod 4 * 16 + b / 16);
       b64_char (b mod 16 * 4); b64_pad]%N
  | a :: b :: c :: rest =>
      (b64_char (a / 4) :: b64_char (a mod 4 * 16 + b / 16)
       :: b64_char (b mod 16 * 4 + c / 64) :: b64_char (c mod 64)
       :: b64encode rest)%N
  end.

Definition _encode_text_to_base64 (text : pystr) : result pystr :=
  bytes <- utf8_encode text ;;
  Ok (b64encode bytes).

(** [hashlib.md5(bytes).hexdigest()], and [datetime.fromisoformat] giving
    the time in microseconds: parameters. *)
Definition digest : Type := list N -> pystr.
Definition time_parser : Type := pystr -> result Z.

Variable md5_hexdigest : digest.
Variable fromisoformat : time_parser.

Definition _generate_text_hash (text : pystr) : result pystr :=
  bytes <- utf8_encode text ;;
  Ok (md5_hexdigest bytes).

(** An entry of [results_cache]: the two keys it is written with. *)
Record cache_entry : Type := mkEntry {
  ce_result : dict;
  ce_timestamp : pystr
}.

Definition cache := list (pystr * cache_entry).

Fixpoint cache_get (k : pystr) (c : cache) : option cache_entry :=
  match c with
  | [] => None
  | (k', e) :: c' => if str_eqb k k' then Some e else cache_get k c'
  end.

Fixpoint cache_set (k : pystr) (e : cache_entry) (c : cache) : cache :=
  match c with
  | [] => [(k, e)]
  | (k', e') :: c' =>
      if str_eqb k k' then (k', e) :: c' else (k', e') :: cache_set k e c'
  end.

(** [timedelta(hours=24)], in microseconds. *)
Definition cache_ttl : Z := 24 * 3600 * 1000000.

(** [_is_cache_valid] at the time [clock]; an entry is never empty. *)
Definition _is_cache_valid (cache_entry : cache_entry) (clock : Z) : result bool :=
  cache_time <- fromisoformat (ce_timestamp cache_entry) ;;
  Ok (clock - cache_time <? cache_ttl)%Z.

(** The cached result that the two detectors return, if there is a valid
    one: [cache_key in results_cache and _is_cache_valid(...)]. *)
Definition cached_result (cache_key : pystr) (results_cache : cache) (clock : Z)
  : result (option dict) :=
  match cache_get cache_key results_cache with
  | Some entry =>
      valid <- _is_cache_valid entry clock ;;
      Ok (if valid then Some (ce_result entry) else None)
  | None => Ok None
  end.

(** An HTTP response: the status, [response.json()] and [response.text]. *)
Record response : Type := mkResponse {
  status_code : Z;
  json : result value;
  response_text : pystr
}.

(** The services: every request gives a response, or the exception that
    entering the client or the request raises.  The arguments are the
    parts of the request that the code builds. *)
Record network : Type := mkNetwork {
  gptzero_predict : pystr -> pystr -> result response;
    (* api key, document *)
  copyleaks_login : pystr -> pystr -> result response;
    (* email, key *)
  copyleaks_submit : value -> pystr -> pystr -> pystr -> result response;
    (* access token, scan id, base64 text, file name *)
  copyleaks_result : value -> pystr -> result response
    (* access token, scan id *)
}.

Record PlagiarismDetector : Type := mkDetector {
  gptzero_api_key : option pystr;
  copyleaks_email : option pystr;
  copyleaks_api_key : option pystr
}.

(** A credential that is neither [None] nor the empty string. *)
Definition given (credential : option pystr) : option pystr :=
  match credential with
  | Some (c :: s) => Some (c :: s)
  | _ => None
  end.

(** [o[0]] *)
Definition first_item (o : value) : result value :=
  match o with
  | VList (x :: _) => Ok x
  | VList [] => Raise (OtherError (py "list index out of range"))
  | VStr (c :: _) => Ok (VStr [c])
  | VStr [] => Raise (OtherError (py "string index out of range"))
  | VDict _ => Raise (OtherError (py "0"))
  | _ => Raise (TypeError (py "object is not subscriptable"))
  end.

(** [result.get('documents', [{}])[0].get(key, default)] *)
Definition document_field (reply : value) (key : string) (default : value)
  : result value :=
  documents <- get_method reply "documents" (VList [VDict []]) ;;
  document <- first_item documents ;;
  get_method document key default.

(** The record of a failed AI detection. *)
Definition ai_failure (error : pystr) : dict :=
  [ (py "success", VBool false);
    (py "error", VStr error);
    (py "ai_probability", VFloat 0.0) ].

(** The record built from the reply of the service. *)
Definition ai_processed_result (reply : value) : result dict :=
  ai_probability <- document_field reply "average_generated_prob" (VFloat 0.0) ;;
  completely <- document_field reply "completely_generated_prob" (VFloat 0.0) ;;
  burstiness <- document_field reply "overall_burstiness" (VFloat 0.0) ;;
  perplexity <- document_field reply "perplexity" (VFloat 0.0) ;;
  sentences <- document_field reply "sentences" (VList []) ;;
  Ok [ (py "success", VBool true);
       (py "ai_probability", ai_probability);
       (py "completely_generated_prob", completely);
       (py "overall_burstiness", burstiness);
       (py "perplexity", perplexity);
       (py "sentences", sentences);
       (py "timestamp", VStr now) ].

(** [detect_ai_generated_content] at the time [clock], with the cache
    before and after the call.  The hash and the look at the cache come
    before the [try]: what they raise leaves the function. *)
Definition detect_ai_generated_content (self : PlagiarismDetector) (net : network)
           (clock : Z) (text : pystr) (results_cache : cache)
  : result dict * cache :=
  match given (gptzero_api_key self) with
  | None => (Ok (ai_failure (py "GPTZero API key not provided")), results_cache)
  | Some api_key =>
      match _generate_text_hash text with
      | Raise e => (Raise e, results_cache)
      | Ok text_hash =>
          let cache_key := py "gptzero_" ++ text_hash in
          match cached_result cache_key results_cache clock with
          | Raise e => (Raise e, results_cache)
          | Ok (Some cached) => (Ok cached, results_cache)
          | Ok None =>
              match gptzero_predict net api_key text with
              | Raise e => (Ok (ai_failure (str_exn e)), results_cache)
              | Ok response =>
                  if (status_code response =? 200)%Z
                  then match (reply <- json response ;; ai_processed_result reply) with
                       | Ok processed_result =>
                           (Ok processed_result,
                            cache_set cache_key (mkEntry processed_result now)
                                      results_cache)
                       | Raise e => (Ok (ai_failure (str_exn e)), results_cache)
                       end
                  else (Ok (ai_failure (py "API error: "
                                           ++ decimal (status_code response))),
                        results_cache)
              end
          end
      end
  end.

(** [_get_copyleaks_token]: it catches every exception. *)
Definition _get_copyleaks_token (net : network) (email key : pystr) : dict :=
  match copyleaks_login net email key with
  | Raise e =>
      [ (py "success", VBool false);
        (py "error", VStr (py "Authentication error: " ++ str_exn e)) ]
  | Ok response =>
      if (status_code response =? 200)%Z
      then match (reply <- json response ;;
                  access_token <- get_method reply "access_token" VNone ;;
                  expires_in <- get_method reply "expires_in" VNone ;;
                  Ok [ (py "success", VBool true);
                       (py "access_token", access_token);
                       (py "expires_in", expires_in) ]) with
           | Ok token => token
           | Raise e =>
               [ (py "success", VBool false);
                 (py "error", VStr (py "Authentication error: " ++ str_exn e)) ]
           end
      else [ (py "success", VBool false);
             (py "error", VStr (py "Authentication failed: "
                                   ++ decimal (status_code response))) ]
  end.

(** The record of a failed similarity detection inside the [try]. *)
Definition traditional_failure (error : pystr) : dict :=
  [ (py "success", VBool false);
    (py "error", VStr error);
    (py "similarity_percentage", VFloat 0.0) ].

(** [result.get('scannedDocument', {}).get(key, 0)] *)
Definition scanned_field (reply : value) (key : string) : result value :=
  scanned <- get_method reply "scannedDocument" (VDict []) ;;
  get_method scanned key (VInt 0).

(** The record built from the result of a finished scan. *)
Definition traditional_processed_result (scan_id : pystr) (reply : value)
  : result dict :=
  similarity <- scanned_field reply "totalTextCredits" ;;
  identical <- scanned_field reply "creditsPerResult" ;;
  minor <- scanned_field reply "totalCredits" ;;
  results <- get_method reply "results" (VList []) ;;
  sources <- _process_copyleaks_sources results ;;
  Ok [ (py "success", VBool true);
       (py "scan_id", VStr scan_id);
       (py "similarity_percentage", similarity);
       (py "identical_percentage", identical);
       (py "minor_changes_percentage", minor);
       (py "sources", sources);
       (py "timestamp", VStr now) ].

(** The record for a scan whose result is not there yet. *)
Definition scan_in_progress (scan_id : pystr) : dict :=
  [ (py "success", VBool true);
    (py "scan_id", VStr scan_id);
    (py "similarity_percentage", VFloat 0.0);
    (py "status", VStr (py "processing"));
    (py "message", VStr (py "Scan in progress, results will be available shortly"));
    (py "timestamp", VStr now) ].

(** The [try] block of [detect_traditional_plagiarism]: the record it
    returns and the record to cache, if any. *)
Definition traditional_try (net : network) (email key : pystr) (text title : pystr)
  : result (dict * option dict) :=
  let auth_response := _get_copyleaks_token net email key in
  if negb (truthy (dict_get_default (py "success") VNone auth_response))
  then Ok (auth_response, None)
  else
    access_token <-
      match dict_get (py "access_token") auth_response with
      | Some t => Ok t
      | None => Raise (OtherError (py "'access_token'"))
      end ;;
    text_hash <- _generate_text_hash text ;;
    let scan_id := firstn 16 text_hash in
    base64 <- _encode_text_to_base64 text ;;
    submit_response <-
      copyleaks_submit net access_token scan_id base64 (title ++ py ".txt") ;;
    if (status_code submit_response =? 200)%Z || (status_code submit_response =? 201)%Z
    then
      results_response <- copyleaks_result net access_token scan_id ;;
      if (status_code results_response =? 200)%Z
      then
        reply <- json results_response ;;
        processed_result <- traditional_processed_result scan_id reply ;;
        Ok (processed_result, Some processed_result)
      else Ok (scan_in_progress scan_id, None)
    else Ok (traditional_failure
               (py "Submit error: " ++ decimal (status_code submit_response)),
             None).

Definition detect_traditional_plagiarism (self : PlagiarismDetector) (net : network)
           (clock : Z) (text title : pystr) (results_cache : cache)
  : result dict * cache :=
  match given (copyleaks_email self), given (copyleaks_api_key self) with
  | Some email, Some key =>
      match _generate_text_hash text with
      | Raise e => (Raise e, results_cache)
      | Ok text_hash =>
          let cache_key := py "copyleaks_" ++ text_hash in
          match cached_result cache_key results_cache clock with
          | Raise e => (Raise e, results_cache)
          | Ok (Some cached) => (Ok cached, results_cache)
          | Ok None =>
              match traditional_try net email key text title with
              | Ok (returned, Some processed_result) =>
                  (Ok returned,
                   cache_set cache_key (mkEntry processed_result now) results_cache)
              | Ok (returned, None) => (Ok returned, results_cache)
              | Raise e => (Ok (traditional_failure (str_exn e)), results_cache)
              end
          end
      end
  | _, _ =>
      (Ok [ (py "success", VBool false);
            (py "error", VStr (py "CopyLeaks credentials not provided"));
            (py "similarity_percentage", VFloat 0.0);
            (py "sources", VList []) ],
       results_cache)
  end.

(** [comprehensive_plagiarism_check] with its two detector calls.  The
    two tasks of [gather] read and write different keys of the cache, so
    the order in which they take their turns does not show. *)
Definition comprehensive_plagiarism_check_run
           (self : PlagiarismDetector) (net : network) (clock : Z)
           (text title : pystr) (reference_texts : option (list pystr))
           (results_cache : cache) : result PlagiarismResult * cache :=
  let (ai_result, results_cache) :=
    detect_ai_generated_content self net clock text results_cache in
  let (traditional_result, results_cache) :=
    detect_traditional_plagiarism self net clock text title results_cache in
  (comprehensive_plagiarism_check ai_result traditional_result text reference_texts,
   results_cache).

(* ================================================================== *)
(** ** Observations on results, and the rounding the specification names *)

(** [v[k]] when [v] is a dict that has the key. *)
Definition field (k : string) (v : value) : option value :=
  match v with
  | VDict d => dict_get (py k) d
  | _ => None
  end.

Definition int_field (k : string) (v : value) : option Z :=
  match field k v with
  | Some (VInt z) => Some z
  | _ => None
  end.

(** The [points] of the performance levels of a criterion, in order. *)
Definition level_points (criterion : value) : list (option Z) :=
  match field "performance_levels" criterion with
  | Some (VList levels) => map (int_field "points") levels
  | _ => []
  end.


(* ================================================================== *)
(** ** Sample data *)

(** The Unicode parameters on ASCII text. *)
Definition ascii_lower (s : pystr) : pystr :=
  map (fun c => if (65 <=? c)%N && (c <=? 90)%N then (c + 32)%N else c) s.

Definition ascii_isdecimal (c : codepoint) : bool := ((48 <=? c) && (c <=? 57))%N.

Definition ascii_isalnum (c : codepoint) : bool :=
  ((48 <=? c) && (c <=? 57) || (65 <=? c) && (c <=? 90)
   || (97 <=? c) && (c <=? 122))%N.

Definition sample_now : pystr := py "2025-03-01T09:30:00".

(** [s] between double quotes. *)
Definition quoted (s : string) : pystr := (34%N :: py s) ++ [34%N].

(** A JSON evaluation object: the text [{"total_score": 5}]. *)
Definition sample_object : pystr := py "{" ++ quoted "total_score" ++ py ": 5}".

(** A client whose call raises, and one that replies a JSON object. *)
Definition failing_client : client :=
  fun _ _ _ _ => Raise (OtherError (py "Connection error.")).

Definition replying_client : client :=
  fun _ _ _ _ => Ok sample_object.

Definition sample_evaluator (primary secondary : option client) : AIEvaluator :=
  mkEvaluator (py "claude-3-7-sonnet-20250219") (py "gpt-4-turbo-preview")
              primary secondary.

Definition sample_request (preferred : string) : dict :=
  [ (py "question", VStr (py "What is photosynthesis?"));
    (py "student_answer", VStr (py "Plants turn light into sugar."));
    (py "preferred_model", VStr (py preferred)) ].

(** Outcomes of the two network detectors: the AI
    detector reports probability 0.8, the similarity detector has no
    credentials. *)
Definition sample_ai_result : result dict :=
  Ok [ (py "success", VBool true); (py "ai_probability", VFloat 0.8) ].

Definition sample_traditional_result : result dict :=
  Ok [ (py "success", VBool false);
       (py "error", VStr (py "CopyLeaks credentials not provided"));
       (py "similarity_percentage", VFloat 0.0);
       (py "sources", VList []) ].

(** A text on which no pattern check fires: 26 words, one citation. *)
Definition plain_text : pystr :=
  py "The study of plants (Smith 2020) shows that growth depends on light and water in most cases observed by the team over many years of work.".

(** A text without citation. *)
Definition uncited_text : pystr := py "Plants turn light into sugar.".

(** The five-word phrases that [_check_repetitive_phrases] counts, one
    for each position a phrase can start at. *)
Definition five_word_phrases (words : list pystr) : list pystr :=
  map (fun i => join (py " ") (firstn 5 (skipn i words)))
      (seq 0 (List.length words + 1 - 5)).

(** The two texts have the same words. *)
Definition same_words (text1 text2 : pystr) : Prop :=
  forall w, In w (split_ws text1) <-> In w (split_ws text2).





(** The rubrics that [_format_rubric] formats: a rubric that counts as
    false, or a dict whose criteria are dicts whose performance levels,
    if there are any, are dicts. *)
Definition is_dict (v : value) : bool :=
  match v with VDict _ => true | _ => false end.

Definition levels_shape (levels : value) : bool :=
  negb (truthy levels)
  || match levels with
     | VList l => forallb is_dict l
     | _ => false
     end.

Definition criterion_shape (criterion : value) : bool :=
  match criterion with
  | VDict d => levels_shape (dict_get_default (py "performance_levels") (VList []) d)
  | _ => false
  end.

Definition criteria_shape (criteria : value) : bool :=
  match criteria with
  | VList l => forallb criterion_shape l
  | VDict [] | VStr [] => true
  | _ => false
  end.

Definition rubric_shape (rubric : value) : bool :=
  negb (truthy rubric)
  || match rubric with
     | VDict d => criteria_shape (dict_get_default (py "criteria") (VList []) d)
     | _ => false
     end.


(** A source that [_process_copyleaks_sources] can read: a dict whose
    introduction, if it has one, is a dict. *)
Definition source_shape (source : value) : bool :=
  match source with
  | VDict d => is_dict (dict_get_default (py "introduction") (VDict []) d)
  | _ => false
  end.


(** A code point of Unicode: every character of a Python string is one. *)
Definition is_code_point (c : codepoint) : Prop := (c < 1114112)%N.

(** The character that a UTF-8 sequence starts with, and the bytes behind
    it. *)
Definition utf8_decode_char (bytes : list N) : option (codepoint * list N) :=
  match bytes with
  | [] => None
  | b0 :: r =>
      (if b0 <? 128 then Some (b0, r)
       else if b0 <? 224
       then match r with
            | b1 :: r' => Some ((b0 - 192) * 64 + (b1 - 128), r')
            | _ => None
            end
       else if b0 <? 240
       then match r with
            | b1 :: b2 :: r' =>
                Some ((b0 - 224) * 4096 + (b1 - 128) * 64 + (b2 - 128), r')
            | _ => None
            end
       else match r with
            | b1 :: b2 :: b3 :: r' =>
                Some ((b0 - 240) * 262144 + (b1 - 128) * 4096 + (b2 - 128) * 64
                      + (b3 - 128), r')
            | _ => None
            end)%N
  end.

(** The place of a character in a string. *)
Fixpoint index_of (c : codepoint) (s : pystr) : N :=
  match s with
  | [] => 0%N
  | x :: s' => if N.eqb c x then 0%N else (1 + index_of c s')%N
  end.

Definition b64_index (c : codepoint) : N := index_of c b64_alphabet.

(** The bytes that a Base64 text stands for. *)
Fixpoint b64decode (s : pystr) : list N :=
  match s with
  | c1 :: c2 :: c3 :: c4 :: rest =>
      let i1 := b64_index c1 in
      let i2 := b64_index c2 in
      let i3 := b64_index c3 in
      let i4 := b64_index c4 in
      (if c3 =? b64_pad then [i1 * 4 + i2 / 16]
       else if c4 =? b64_pad then [i1 * 4 + i2 / 16; i2 mod 16 * 16 + i3 / 4]
       else (i1 * 4 + i2 / 16) :: (i2 mod 16 * 16 + i3 / 4)
            :: (i3 mod 4 * 64 + i4) :: b64decode rest)%N
  | _ => []
  end.


(** Every cached result is the result of a successful detection. *)
Definition cache_ok (results_cache : cache) : Prop :=
  forall k entry,
    cache_get k results_cache = Some entry ->
    dict_get (py "success") (ce_result entry) = Some (VBool true).

(** The write of a detector call to the cache, if it makes one. *)
Definition apply_update (update : option (pystr * cache_entry)) (c : cache) : cache :=
  match update with
  | Some (k, entry) => cache_set k entry c
  | None => c
  end.


(** A record of a failed detection: the flag is false and there is an
    error text. *)
Definition failure_record (d : dict) : Prop :=
  dict_get (py "success") d = Some (VBool false)
  /\ exists msg, dict_get (py "error") d = Some (VStr msg).


(** Instances of the hash and of the time parser: a digest that tells
    texts of different lengths apart, and a parser that knows the sample
    time (in microseconds since 1970). *)
Definition sample_digest : digest :=
  fun bytes => py "d41d8cd98f00b204e9800998ecf8" ++ decimal (Z.of_nat (List.length bytes)).

Definition sample_fromisoformat : time_parser :=
  fun s => if str_eqb s sample_now then Ok 1740821400000000%Z
           else Raise (ValueError (py "Invalid isoformat string")).

(** A detector with a GPTZero key only, and one without credentials. *)
Definition sample_detector : PlagiarismDetector :=
  mkDetector (Some (py "gz-key")) None None.

Definition bare_detector : PlagiarismDetector := mkDetector None None None.

(** A network whose AI service reports probability 0.8, and one on which
    every request fails. *)
Definition unreachable (A : Type) : result A :=
  Raise (OtherError (py "All connection attempts failed")).

Definition sample_network : network :=
  mkNetwork
    (fun _ _ =>
       Ok (mkResponse 200
             (Ok (VDict [ (py "documents",
                           VList [VDict [(py "average_generated_prob",
                                          VFloat 0.8)]]) ]))
             []))
    (fun _ _ => unreachable response)
    (fun _ _ _ _ => unreachable response)
    (fun _ _ => unreachable response).

Definition silent_network : network :=
  mkNetwork (fun _ _ => unreachable response) (fun _ _ => unreachable response)
            (fun _ _ _ _ => unreachable response) (fun _ _ => unreachable response).

(** Two sources of a scan: one with a URL and a count, one empty. *)
Definition sample_sources : list value :=
  [ VDict [ (py "url", VStr (py "https://example.org/a"));
            (py "matchedWords", VInt 12) ];
    VDict [] ].


(* ================================================================== *)
(** ** Notions used in the statements *)

(** The span of group 1 moved by [n] characters. *)
Definition shift_span (n : nat) (g : option (nat * nat)) : option (nat * nat) :=
  match g with
  | Some (a, b) => Some (n + a, n + b)%nat
  | None => None
  end.

Definition or_else (g g0 : option (nat * nat)) : option (nat * nat) :=
  match g with
  | Some _ => g
  | None => g0
  end.

(** [lang r w g]: the pattern [r] matches the string [w], with group 1
    at the span [g] of [w] when it takes part in the match. *)
Fixpoint lang (r : regex) (w : pystr) (g : option (nat * nat)) : Prop :=
  match r with
  | Eps => w = [] /\ g = None
  | Chr p => (exists c, w = [c] /\ p c = true) /\ g = None
  | Rep p lo hi _ =>
      (forallb p w = true /\ (lo <= List.length w)%nat
       /\ match hi with
          | Some h => (List.length w <= h)%nat
          | None => True
          end)
      /\ g = None
  | Seq r1 r2 =>
      exists w1 w2 g1 g2,
        w = w1 ++ w2 /\ lang r1 w1 g1 /\ lang r2 w2 g2
        /\ g = or_else (shift_span (List.length w1) g2) g1
  | Alt r1 r2 => lang r1 w g \/ lang r2 w g
  | Grp r1 => (exists g1, lang r1 w g1) /\ g = Some (0, List.length w)%nat
  end.

(** The text has an opening brace with a closing brace behind it. *)
Definition has_brace_pair (text : pystr) : Prop :=
  exists pre body post, text = pre ++ chr "{" :: body ++ chr "}" :: post.

(** The record the parser returns on a failure [e], field by field. *)
Definition fallback_record (d : dict) (e : exn) (response_text : pystr) : Prop :=
  dict_get (py "success") d = Some (VBool false)
  /\ dict_get (py "error") d
     = Some (VStr (py "Failed to parse response: " ++ str_exn e))
  /\ dict_get (py "total_score") d = Some (VInt 0)
  /\ dict_get (py "max_possible_score") d = Some (VInt 100)
  /\ dict_get (py "percentage") d = Some (VInt 0)
  /\ (exists feedback,
        dict_get (py "feedback") d = Some feedback
        /\ field "areas_for_improvement" feedback
           = Some (VList [VStr (py "Response parsing failed - manual review required")]))
  /\ dict_get (py "raw_response") d = Some (VStr response_text).

(** The continuation of [\{.*\}] behind the star: the closing brace, then
    the match object. *)
Definition closing (start : nat) : pystr -> nat -> option rematch :=
  fun s e =>
    match s with
    | c :: _ => if lit "}" c then Some (mkMatch start (S e) None) else None
    | [] => None
    end.




(** A result record as the callers read it: a [success] flag and, when
    the flag is false, an [error] string. *)
Definition flagged_result (d : dict) : Prop :=
  dict_get (py "success") d = Some (VBool true)
  \/ (dict_get (py "success") d = Some (VBool false)
      /\ exists msg, dict_get (py "error") d = Some (VStr msg)).

(* ================================================================== *)
(** ** Strings and dictionaries *)

Lemma str_eqb_refl : forall a, str_eqb a a = true.
Proof.
  induction a as [|x a IH]; simpl; [reflexivity|].
  now rewrite N.eqb_refl, IH.
Qed.

Lemma str_eqb_eq : forall a b, str_eqb a b = true <-> a = b.
Proof.
  induction a as [|x a IH]; destruct b as [|y b]; simpl; split; intro H;
    try reflexivity; try discriminate.
  - apply andb_true_iff in H as [Hx Hab].
    apply N.eqb_eq in Hx. apply IH in Hab. now subst.
  - inversion H; subst. now rewrite N.eqb_refl, str_eqb_refl.
Qed.

Lemma str_eqb_neq : forall a b, str_eqb a b = false <-> a <> b.
Proof.
  intros a b. split; intro H.
  - intro E. apply str_eqb_eq in E. congruence.
  - destruct (str_eqb a b) eqn:E; [|reflexivity].
    apply str_eqb_eq in E. contradiction.
Qed.

Lemma dict_get_set_same : forall k v d, dict_get k (dict_set k v d) = Some v.
Proof.
  intros k v d. induction d as [|[k' v'] d IH]; simpl.
  - now rewrite str_eqb_refl.
  - destruct (str_eqb k k') eqn:E; simpl; rewrite E; [reflexivity | exact IH].
Qed.

Lemma dict_get_set_other :
  forall k k' v d, k <> k' -> dict_get k (dict_set k' v d) = dict_get k d.
Proof.
  intros k k' v d Hne. induction d as [|[k0 v0] d IH]; simpl.
  - apply str_eqb_neq in Hne. now rewrite Hne.
  - destruct (str_eqb k' k0) eqn:E; simpl.
    + apply str_eqb_eq in E; subst k0.
      apply str_eqb_neq in Hne. now rewrite Hne.
    + destruct (str_eqb k k0); [reflexivity | exact IH].
Qed.

(** Two literal keys of the source are told apart by computation. *)
Ltac keys_differ := let E := fresh in intro E; vm_compute in E; discriminate E.

Ltac get_through_set :=
  repeat (rewrite dict_get_set_other by keys_differ);
  try rewrite dict_get_set_same.

(* ================================================================== *)
(** ** The JSON decoder *)

Ltac break_in H :=
  match type of H with
  | context [match ?x with _ => _ end] => destruct x eqn:?
  | context [if ?x then _ else _] => destruct x eqn:?
  end.

Ltac break_any :=
  match goal with
  | H : context [match ?x with _ => _ end] |- _ => destruct x eqn:?
  | H : context [if ?x then _ else _] |- _ => destruct x eqn:?
  end.

Lemma skip_ws_length : forall s, (List.length (skip_ws s) <= List.length s)%nat.
Proof.
  induction s as [|c s IH]; simpl; [lia|].
  destruct (is_json_ws c); simpl; lia.
Qed.

Lemma span_digits_length : forall s ds rest,
    span_digits s = (ds, rest) ->
    (List.length ds + List.length rest = List.length s)%nat.
Proof.
  induction s as [|c s IH]; simpl; intros ds rest H.
  - injection H as <- <-. reflexivity.
  - destruct (is_digit c).
    + destruct (span_digits s) as [ds' r'] eqn:E. injection H as <- <-.
      specialize (IH _ _ eq_refl). simpl. lia.
    + injection H as <- <-. reflexivity.
Qed.

Lemma strip_prefix_length : forall p s r,
    strip_prefix p s = Some r ->
    (List.length p + List.length r = List.length s)%nat.
Proof.
  induction p as [|x p IH]; simpl; intros s r H.
  - injection H as ->. reflexivity.
  - destruct s as [|y s]; [discriminate|].
    destruct (N.eqb x y); [|discriminate].
    apply IH in H. simpl. lia.
Qed.

(** A string literal ends behind its closing quote. *)
Lemma scanstring_length : forall n s acc str r,
    (List.length s <= n)%nat ->
    scanstring s acc = Ok (str, r) ->
    (List.length r < List.length s)%nat.
Proof.
  induction n as [|n IH]; intros s acc str r Hn H.
  - destruct s; [discriminate | simpl in Hn; lia].
  - destruct s as [|c s1]; [discriminate|]. simpl in H. unfold jerr in H.
    repeat (break_in H; try discriminate; subst);
      try (injection H as <- <-; simpl; lia);
      apply IH in H; simpl in *; lia.
Qed.

Lemma take_sign_length : forall s negative r,
    take_sign s = (negative, r) -> (List.length r <= List.length s)%nat.
Proof.
  intros [|c t] negative r H; simpl in H.
  - injection H as _ <-. lia.
  - destruct (c =? 45)%N; injection H as _ <-; simpl; lia.
Qed.

Lemma take_int_length : forall s int r,
    take_int s = Some (int, r) -> (List.length r < List.length s)%nat.
Proof.
  intros [|c t] int r H; simpl in H; [discriminate|].
  destruct (c =? 48)%N.
  - injection H as _ <-. simpl. lia.
  - destruct (is_digit c); [|discriminate].
    destruct (span_digits t) as [ds rest] eqn:E. injection H as _ <-.
    apply span_digits_length in E. simpl. lia.
Qed.

Lemma take_frac_length : forall s frac r,
    take_frac s = (frac, r) -> (List.length r <= List.length s)%nat.
Proof.
  intros [|c t] frac r H; simpl in H.
  - injection H as _ <-. lia.
  - destruct (c =? 46)%N; [|injection H as _ <-; lia].
    destruct (span_digits t) as [[|f fs] rest] eqn:E; injection H as _ <-; [lia|].
    apply span_digits_length in E. simpl in *. lia.
Qed.

Lemma take_exp_length : forall s exp r,
    take_exp s = (exp, r) -> (List.length r <= List.length s)%nat.
Proof.
  intros [|c t] exp r H; simpl in H.
  - injection H as _ <-. lia.
  - destruct ((c =? 101) || (c =? 69))%N; [|injection H as _ <-; lia].
    destruct t as [|d u].
    + simpl in H. injection H as _ <-. simpl. lia.
    + destruct (d =? 45)%N; [|destruct (d =? 43)%N];
        match type of H with
        | context [span_digits ?x] =>
            destruct (span_digits x) as [[|e es] rest] eqn:E
        end;
        injection H as _ <-; try lia;
        apply span_digits_length in E; simpl in *; lia.
Qed.

Lemma match_number_length : forall s v r,
    match_number s = Some (v, r) -> (List.length r < List.length s)%nat.
Proof.
  intros s v r H. unfold match_number in H.
  destruct (take_sign s) as [negative s1] eqn:E1.
  destruct (take_int s1) as [[int s2]|] eqn:E2; [|discriminate].
  destruct (take_frac s2) as [frac s3] eqn:E3.
  destruct (take_exp s3) as [exp s4] eqn:E4.
  injection H as _ <-.
  apply take_sign_length in E1. apply take_int_length in E2.
  apply take_frac_length in E3. apply take_exp_length in E4. lia.
Qed.

Lemma scan_atom_length : forall s v r,
    scan_atom s = Ok (v, r) -> (List.length r < List.length s)%nat.
Proof.
  intros s v r H. unfold scan_atom, jerr in H.
  repeat (break_in H; try discriminate); inversion H; subst; clear H;
    try match goal with
        | E : strip_prefix _ _ = Some _ |- _ =>
            apply strip_prefix_length in E; simpl in E; lia
        end.
  eapply match_number_length; eauto.
Qed.

Lemma scan_atom_budget : forall s, scan_atom s <> Raise out_of_fuel.
Proof.
  intros s H. unfold scan_atom, jerr in H.
  repeat (break_in H; try discriminate).
Qed.

Lemma scanstring_budget : forall n s acc,
    (List.length s <= n)%nat -> scanstring s acc <> Raise out_of_fuel.
Proof.
  induction n as [|n IH]; intros s acc Hn H.
  - destruct s; [discriminate | simpl in Hn; lia].
  - destruct s as [|c s1]; [discriminate|]. simpl in H. unfold jerr in H.
    repeat (break_in H; try discriminate; subst);
      (eapply IH; [|exact H]; simpl in *; lia).
Qed.

(** What a scan leaves is not longer than what it was given. *)
Lemma scan_rest_length : forall fuel,
    (forall s v r, scan_once fuel s = Ok (v, r) ->
                   (List.length r <= List.length s)%nat)
    /\ (forall s pairs v r, object_pairs fuel s pairs = Ok (v, r) ->
                           (List.length r <= List.length s)%nat)
    /\ (forall s acc v r, array_elems fuel s acc = Ok (v, r) ->
                         (List.length r <= List.length s)%nat).
Proof.
  induction fuel as [|fuel (IHs & IHo & IHa)].
  - repeat split; intros; discriminate.
  - split; [|split].
    + intros [|c s'] v r H; simpl in H; unfold jerr in H; [discriminate|].
      destruct (c =? 34)%N.
      { destruct (scanstring s' []) as [[str r']|e] eqn:E; simpl in H;
          [|discriminate].
        injection H as _ <-.
        apply scanstring_length with (n := List.length s') in E; simpl; lia. }
      destruct (c =? 123)%N.
      { pose proof (skip_ws_length s') as Hw.
        destruct (skip_ws s') as [|q s1]; [discriminate|].
        destruct (q =? 34)%N.
        - apply IHo in H. simpl in *. lia.
        - destruct (q =? 125)%N; [|discriminate].
          injection H as _ <-. simpl in *. lia. }
      destruct (c =? 91)%N.
      { pose proof (skip_ws_length s') as Hw.
        destruct (skip_ws s') as [|q s1]; [discriminate|].
        destruct (q =? 93)%N.
        - injection H as _ <-. simpl in *. lia.
        - apply IHa in H. simpl in *. lia. }
      apply scan_atom_length in H. lia.
    + intros s pairs v r H; simpl in H; unfold jerr in H.
      destruct (scanstring s []) as [[key s1]|e] eqn:E; simpl in H;
        [|discriminate].
      apply scanstring_length with (n := List.length s) in E; [|lia].
      pose proof (skip_ws_length s1) as Hw1.
      destruct (skip_ws s1) as [|c s3]; [discriminate|].
      destruct (c =? 58)%N; [|discriminate].
      pose proof (skip_ws_length s3) as Hw3.
      destruct (scan_once fuel (skip_ws s3)) as [[v' s5]|e] eqn:Ev; simpl in H;
        [|discriminate].
      apply IHs in Ev.
      pose proof (skip_ws_length s5) as Hw5.
      destruct (skip_ws s5) as [|d s6]; [discriminate|].
      destruct (d =? 125)%N.
      { injection H as _ <-. simpl in *. lia. }
      destruct (d =? 44)%N; [|discriminate].
      pose proof (skip_ws_length s6) as Hw6.
      destruct (skip_ws s6) as [|q s7]; [discriminate|].
      destruct (q =? 34)%N; [|discriminate].
      apply IHo in H. simpl in *. lia.
    + intros s acc v r H; simpl in H; unfold jerr in H.
      destruct (scan_once fuel s) as [[v' s1]|e] eqn:Ev; simpl in H;
        [|discriminate].
      apply IHs in Ev.
      pose proof (skip_ws_length s1) as Hw1.
      destruct (skip_ws s1) as [|d s2]; [discriminate|].
      destruct (d =? 93)%N.
      { injection H as _ <-. simpl in *. lia. }
      destruct (d =? 44)%N; [|discriminate].
      pose proof (skip_ws_length s2) as Hw2.
      apply IHa in H. simpl in *. lia.
Qed.

(** A budget of twice the length of the text and one is never used up. *)
Lemma scan_budget : forall fuel,
    (forall s, (2 * List.length s + 1 <= fuel)%nat ->
               scan_once fuel s <> Raise out_of_fuel)
    /\ (forall s pairs, (2 * List.length s + 1 <= fuel)%nat ->
                       object_pairs fuel s pairs <> Raise out_of_fuel)
    /\ (forall s acc, (2 * List.length s + 2 <= fuel)%nat ->
                     array_elems fuel s acc <> Raise out_of_fuel).
Proof.
  induction fuel as [|fuel (IHs & IHo & IHa)].
  - repeat split; intros; lia.
  - split; [|split].
    + intros [|c s'] Hf H; simpl in H; unfold jerr in H; [discriminate|].
      simpl in Hf.
      destruct (c =? 34)%N.
      { destruct (scanstring s' []) as [[str r']|e] eqn:E; simpl in H;
          [discriminate|].
        injection H as ->.
        eapply (@scanstring_budget (List.length s')); [|exact E]. lia. }
      destruct (c =? 123)%N.
      { pose proof (skip_ws_length s') as Hw.
        destruct (skip_ws s') as [|q s1]; [discriminate|].
        destruct (q =? 34)%N.
        - eapply IHo; [|exact H]. simpl in *. lia.
        - destruct (q =? 125)%N; discriminate. }
      destruct (c =? 91)%N.
      { pose proof (skip_ws_length s') as Hw.
        destruct (skip_ws s') as [|q s1]; [discriminate|].
        destruct (q =? 93)%N; [discriminate|].
        eapply IHa; [|exact H]. simpl in *. lia. }
      eapply scan_atom_budget; eauto.
    + intros s pairs Hf H; simpl in H; unfold jerr in H.
      destruct (scanstring s []) as [[key s1]|e] eqn:E; simpl in H.
      2:{ injection H as ->.
          eapply (@scanstring_budget (List.length s)); [|exact E]. lia. }
      apply scanstring_length with (n := List.length s) in E; [|lia].
      pose proof (skip_ws_length s1) as Hw1.
      destruct (skip_ws s1) as [|c s3]; [discriminate|].
      destruct (c =? 58)%N; [|discriminate].
      pose proof (skip_ws_length s3) as Hw3.
      destruct (scan_once fuel (skip_ws s3)) as [[v' s5]|e] eqn:Ev; simpl in H.
      2:{ injection H as ->. eapply IHs; [|exact Ev]. simpl in *. lia. }
      apply (proj1 (scan_rest_length fuel)) in Ev.
      pose proof (skip_ws_length s5) as Hw5.
      destruct (skip_ws s5) as [|d s6]; [discriminate|].
      destruct (d =? 125)%N; [discriminate|].
      destruct (d =? 44)%N; [|discriminate].
      pose proof (skip_ws_length s6) as Hw6.
      destruct (skip_ws s6) as [|q s7]; [discriminate|].
      destruct (q =? 34)%N; [|discriminate].
      eapply IHo; [|exact H]. simpl in *. lia.
    + intros s acc Hf H; simpl in H; unfold jerr in H.
      destruct (scan_once fuel s) as [[v' s1]|e] eqn:Ev; simpl in H.
      2:{ injection H as ->. eapply IHs; [|exact Ev]. lia. }
      apply (proj1 (scan_rest_length fuel)) in Ev.
      pose proof (skip_ws_length s1) as Hw1.
      destruct (skip_ws s1) as [|d s2]; [discriminate|].
      destruct (d =? 93)%N; [discriminate|].
      destruct (d =? 44)%N; [|discriminate].
      pose proof (skip_ws_length s2) as Hw2.
      eapply IHa; [|exact H]. simpl in *. lia.
Qed.

Lemma decode_budget : forall s, decode s <> Raise out_of_fuel.
Proof.
  intros s H. unfold decode, jerr in H.
  destruct (scan_once (S (2 * List.length s)) (skip_ws s)) as [[v r]|e] eqn:E;
    simpl in H.
  - destruct (skip_ws r); discriminate.
  - injection H as ->.
    eapply (proj1 (scan_budget _)); [|exact E].
    pose proof (skip_ws_length s). lia.
Qed.

(** [json_loads] gives its scan a budget that is not used up: the model
    returns what the decoder returns. *)
Lemma json_loads_budget : forall s, json_loads s <> Raise out_of_fuel.
Proof.
  intros [|c s]; simpl; [apply decode_budget|].
  destruct (c =? 65279)%N; [discriminate | apply decode_budget].
Qed.

Lemma object_pairs_dict : forall fuel s pairs v r,
    object_pairs fuel s pairs = Ok (v, r) -> exists d, v = VDict d.
Proof.
  induction fuel as [|fuel IH]; intros s pairs v r H; simpl in H;
    [discriminate|].
  unfold jerr in H.
  destruct (scanstring s []) as [[key s1]|e]; simpl in H; [|discriminate].
  destruct (skip_ws s1) as [|c s3]; [discriminate|].
  destruct (c =? 58)%N; [|discriminate].
  destruct (scan_once fuel (skip_ws s3)) as [[v' s5]|e]; simpl in H;
    [|discriminate].
  destruct (skip_ws s5) as [|d s6]; [discriminate|].
  destruct (d =? 125)%N; [injection H as <- _; eauto|].
  destruct (d =? 44)%N; [|discriminate].
  destruct (skip_ws s6) as [|q s7]; [discriminate|].
  destruct (q =? 34)%N; [|discriminate].
  eapply IH; eauto.
Qed.

Lemma scan_once_object : forall fuel s v r,
    scan_once fuel (chr "{" :: s) = Ok (v, r) -> exists d, v = VDict d.
Proof.
  intros [|fuel] s v r H; simpl in H; [discriminate|]. unfold jerr in H.
  destruct (skip_ws s) as [|q s1]; [discriminate|].
  destruct (q =? 34)%N.
  - eapply object_pairs_dict; eauto.
  - destruct (q =? 125)%N; [|discriminate]. injection H as <- _. eauto.
Qed.

(** A JSON text that starts with an opening brace decodes to a dict. *)
Lemma json_loads_object : forall s v,
    json_loads (chr "{" :: s) = Ok v -> exists d, v = VDict d.
Proof.
  intros s v H.
  change (json_loads (chr "{" :: s)) with (decode (chr "{" :: s)) in H.
  unfold decode, jerr in H.
  change (skip_ws (chr "{" :: s)) with (chr "{" :: s) in H.
  destruct (scan_once _ (chr "{" :: s)) as [[v' r]|e] eqn:E; simpl in H;
    [|discriminate].
  destruct (skip_ws r); [|discriminate]. injection H as <-.
  eapply scan_once_object; eauto.
Qed.

(* ================================================================== *)
(** ** The response parser and the backend calls *)

Lemma parse_try_success : forall response_text evaluation,
    parse_evaluation_try response_text = Ok evaluation ->
    dict_get (py "success") evaluation = Some (VBool true)
    /\ dict_get (py "raw_response") evaluation = Some (VStr response_text).
Proof.
  intros text evaluation H. unfold parse_evaluation_try in H.
  destruct (extract_json text) as [json_str|e]; simpl in H; [|discriminate].
  destruct (json_loads json_str) as [v|e]; simpl in H; [|discriminate].
  destruct (setitem (py "success") (VBool true) v) as [d|e] eqn:Hset;
    simpl in H; [|discriminate].
  injection H as <-.
  destruct v; simpl in Hset; try discriminate. injection Hset as <-.
  split; get_through_set; reflexivity.
Qed.

Lemma parse_flagged : forall response_text,
    flagged_result (_parse_evaluation_response response_text).
Proof.
  intro text. unfold _parse_evaluation_response.
  destruct (parse_evaluation_try text) as [d|e] eqn:H.
  - left. now apply parse_try_success in H.
  - right. split; [reflexivity|]. eexists. reflexivity.
Qed.

Lemma backend_success_flagged : forall response_text model,
    flagged_result (backend_success response_text model).
Proof.
  intros text model. unfold backend_success, flagged_result.
  get_through_set. apply parse_flagged.
Qed.

Lemma backend_success_model : forall response_text model,
    dict_get (py "model_used") (backend_success response_text model)
    = Some (VStr model).
Proof. intros. unfold backend_success. now get_through_set. Qed.

Lemma backend_failure_flagged : forall e model,
    flagged_result (backend_failure e model).
Proof.
  intros e model. right. split; [reflexivity|]. eexists. reflexivity.
Qed.

(** With a client configured a backend call returns a record; it does
    not raise, whatever the client does. *)
Lemma with_claude_returns : forall self call q a r c,
    anthropic_client self = Some call ->
    exists d, evaluate_answer_with_claude self q a r c = Ok d
              /\ flagged_result d
              /\ dict_get (py "model_used") d = Some (VStr (claude_model self)).
Proof.
  intros self call q a r c Hc. unfold evaluate_answer_with_claude. rewrite Hc.
  destruct (call q a r c) as [text|e]; eexists; split; try reflexivity; split.
  - apply backend_success_flagged.
  - apply backend_success_model.
  - apply backend_failure_flagged.
  - reflexivity.
Qed.

Lemma with_gpt_returns : forall self call q a r c,
    openai_client self = Some call ->
    exists d, evaluate_answer_with_gpt self q a r c = Ok d
              /\ flagged_result d
              /\ dict_get (py "model_used") d = Some (VStr (gpt_model self)).
Proof.
  intros self call q a r c Hc. unfold evaluate_answer_with_gpt. rewrite Hc.
  destruct (call q a r c) as [text|e]; eexists; split; try reflexivity; split.
  - apply backend_success_flagged.
  - apply backend_success_model.
  - apply backend_failure_flagged.
  - reflexivity.
Qed.

(** A failure of the primary call is caught inside
    [evaluate_answer_with_claude]: [evaluate_answer] returns the failure
    record of the primary and does not reach the secondary. *)
Lemma evaluate_answer_primary_failure :
  forall self call e q a r c preferred_model,
    str_eqb (str_lower preferred_model) (py "claude") = true ->
    anthropic_client self = Some call ->
    call q a r c = Raise e ->
    evaluate_answer self q a r c (VStr preferred_model)
    = Ok (backend_failure e (claude_model self)).
Proof.
  intros self call e q a r c pm Hpm Hc He.
  unfold evaluate_answer, evaluate_answer_with_claude. simpl.
  now rewrite Hpm, Hc, He.
Qed.

(** C2 (as amended): for every question, answer, rubric, context, client
    configuration and preferred model name, [evaluate_answer] returns a
    record with a success flag (and an error string when the flag is
    false) when a client it can use is configured - the Anthropic client
    under the preference claude, or the OpenAI client - and raises
    [ValueError("No AI client available for evaluation")] when none is. *)
Theorem evaluate_answer_returns_or_no_client :
  forall self question student_answer rubric context (preferred_model : pystr),
    let outcome := evaluate_answer self question student_answer rubric context
                                   (VStr preferred_model) in
    if str_eqb (str_lower preferred_model) (py "claude")
       && is_configured (anthropic_client self)
       || is_configured (openai_client self)
    then exists d, outcome = Ok d /\ flagged_result d
    else outcome = Raise (ValueError (py "No AI client available for evaluation")).
Proof.
  intros self q a r c pm. unfold evaluate_answer. simpl.
  destruct (str_eqb (str_lower pm) (py "claude")); simpl;
    destruct (anthropic_client self) as [primary|] eqn:Hp; simpl;
    destruct (openai_client self) as [secondary|] eqn:Hs; simpl;
    try reflexivity.
  all: try (destruct (with_claude_returns self q a r c Hp) as (d & -> & Hd & _);
            exists d; split; [reflexivity | exact Hd]).
  all: destruct (with_gpt_returns self q a r c Hs) as (d & Hg & Hd & _);
    exists d; split; [exact Hg | exact Hd].
Qed.

(* ================================================================== *)
(** ** Batch evaluation *)

Lemma process_results_length : forall results i,
    List.length (process_results i results) = List.length results.
Proof.
  induction results as [|r rest IH]; intro i; simpl; [reflexivity|].
  now rewrite IH.
Qed.

Lemma process_results_nth : forall results k i,
    nth_error (process_results k results) i
    = option_map (processed_result (k + i)) (nth_error results i).
Proof.
  induction results as [|r rest IH]; intros k i.
  - now destruct i.
  - destruct i as [|i]; simpl.
    + now rewrite Nat.add_0_r.
    + rewrite IH. now rewrite Nat.add_succ_r.
Qed.

Lemma processed_result_index : forall i r,
    dict_get (py "request_index") (processed_result i r)
    = Some (VInt (Z.of_nat i)).
Proof.
  intros i [d|e]; simpl; [apply dict_get_set_same | reflexivity].
Qed.

Lemma batch_nth : forall self requests i,
    nth_error (batch_evaluate_answers self requests) i
    = option_map (fun request => processed_result i (batch_task self request))
                 (nth_error requests i).
Proof.
  intros self requests i. unfold batch_evaluate_answers, gather.
  rewrite process_results_nth, nth_error_map. simpl.
  now destruct (nth_error requests i).
Qed.

(** C8: a batch of N requests gives N results in the order of the
    requests; the i-th result carries [request_index] i; it is the record
    of the i-th request with the index set, or, when that request raised,
    a record with success false and the error string; and it is the same
    in every batch that has this request at position i. *)
Theorem batch_evaluate_answers_isolated :
  forall self (requests : list dict),
    List.length (batch_evaluate_answers self requests) = List.length requests
    /\ forall i request,
        nth_error requests i = Some request ->
        exists d,
          nth_error (batch_evaluate_answers self requests) i = Some d
          /\ dict_get (py "request_index") d = Some (VInt (Z.of_nat i))
          /\ match batch_task self request with
             | Ok r => d = dict_set (py "request_index") (VInt (Z.of_nat i)) r
             | Raise e =>
                 d = [ (py "success", VBool false);
                       (py "error", VStr (str_exn e));
                       (py "request_index", VInt (Z.of_nat i));
                       (py "timestamp", VStr now) ]
             end
          /\ forall others,
              nth_error others i = Some request ->
              nth_error (batch_evaluate_answers self others) i = Some d.
Proof.
  intros self requests. split.
  - unfold batch_evaluate_answers, gather.
    now rewrite process_results_length, length_map.
  - intros i request Hi.
    exists (processed_result i (batch_task self request)).
    repeat split.
    + now rewrite batch_nth, Hi.
    + apply processed_result_index.
    + now destruct (batch_task self request).
    + intros others Ho. now rewrite batch_nth, Ho.
Qed.

(* ================================================================== *)
(** ** The matcher *)

Lemma rep_greedy_sound : forall A p s lo hi pos (k : pystr -> nat -> option A) x,
    rep_greedy p lo hi s pos k = Some x ->
    exists w s', s = w ++ s' /\ lang (Rep p lo hi true) w None
                 /\ k s' (pos + List.length w)%nat = Some x.
Proof.
  intros A p s. induction s as [|c s IH]; intros lo hi pos k x H; simpl in H.
  - destruct lo; [|discriminate]. exists [], []. simpl.
    rewrite Nat.add_0_r. repeat split; auto. destruct hi; [lia|exact I].
  - assert (Hstop : match lo with O => k (c :: s) pos | S _ => None end = Some x ->
                    exists w s', c :: s = w ++ s' /\ lang (Rep p lo hi true) w None
                                 /\ k s' (pos + List.length w)%nat = Some x).
    { intro Hs. destruct lo; [|discriminate]. exists [], (c :: s). simpl.
      rewrite Nat.add_0_r. repeat split; auto. destruct hi; [lia|exact I]. }
    destruct (p c && can_more hi) eqn:Hpc; [|auto].
    destruct (rep_greedy p (pred lo) (one_less hi) s (S pos) k) as [m|] eqn:Hrec;
      [|auto].
    injection H as ->. apply andb_true_iff in Hpc as [Hp Hmore].
    apply IH in Hrec as (w & s' & -> & ((Hall & Hlo & Hhi) & _) & Hk).
    exists (c :: w), s'. simpl. rewrite Hp, Hall.
    replace (pos + S (List.length w))%nat with (S pos + List.length w)%nat by lia.
    repeat split; auto; [lia|].
    destruct hi as [[|h]|]; simpl in *; try discriminate; try lia; exact I.
Qed.

Lemma rep_lazy_sound : forall A p s lo hi pos (k : pystr -> nat -> option A) x,
    rep_lazy p lo hi s pos k = Some x ->
    exists w s', s = w ++ s' /\ lang (Rep p lo hi false) w None
                 /\ k s' (pos + List.length w)%nat = Some x.
Proof.
  intros A p s. induction s as [|c s IH]; intros lo hi pos k x H; simpl in H.
  - destruct lo; [|discriminate]. exists [], []. simpl.
    rewrite Nat.add_0_r. repeat split; auto. destruct hi; [lia|exact I].
  - assert (Hmore : (if p c && can_more hi
                     then rep_lazy p (pred lo) (one_less hi) s (S pos) k
                     else None) = Some x ->
                    exists w s', c :: s = w ++ s' /\ lang (Rep p lo hi false) w None
                                 /\ k s' (pos + List.length w)%nat = Some x).
    { intro Hm. destruct (p c && can_more hi) eqn:Hpc; [|discriminate].
      apply andb_true_iff in Hpc as [Hp Hcan].
      apply IH in Hm as (w & s' & -> & ((Hall & Hlo & Hhi) & _) & Hk).
      exists (c :: w), s'. simpl. rewrite Hp, Hall.
      replace (pos + S (List.length w))%nat with (S pos + List.length w)%nat by lia.
      repeat split; auto; [lia|].
      destruct hi as [[|h]|]; simpl in *; try discriminate; try lia; exact I. }
    destruct lo; [|auto].
    destruct (k (c :: s) pos) as [m|] eqn:Hk; [|auto].
    injection H as ->. exists [], (c :: s). simpl. rewrite Nat.add_0_r.
    repeat split; auto. destruct hi; [lia|exact I].
Qed.

(** Soundness of the matcher: a match consumes a string of the language
    of the pattern, and the continuation ran on what is left, with the
    span of group 1 counted from the start of the text. *)
Lemma rmatch_sound :
  forall A r s pos g0 (k : pystr -> nat -> option (nat * nat) -> option A) x,
    rmatch r s pos g0 k = Some x ->
    exists w s' g,
      s = w ++ s' /\ lang r w g
      /\ k s' (pos + List.length w)%nat (or_else (shift_span pos g) g0) = Some x.
Proof.
  intros A r. induction r as [|p|p lo hi gr|r1 IH1 r2 IH2|r1 IH1 r2 IH2|r1 IH1];
    intros s pos g0 k x H; simpl in H.
  - exists [], s, None. simpl. rewrite Nat.add_0_r. auto.
  - destruct s as [|c s]; [discriminate|].
    destruct (p c) eqn:Hp; [|discriminate].
    exists [c], s, None. simpl. rewrite Nat.add_1_r. repeat split; eauto.
  - destruct gr.
    + apply rep_greedy_sound in H as (w & s' & -> & Hl & Hk).
      exists w, s', None. auto.
    + apply rep_lazy_sound in H as (w & s' & -> & Hl & Hk).
      exists w, s', None. auto.
  - apply IH1 in H as (w1 & s1 & g1 & -> & Hl1 & H).
    apply IH2 in H as (w2 & s2 & g2 & -> & Hl2 & H).
    exists (w1 ++ w2), s2, (or_else (shift_span (List.length w1) g2) g1).
    rewrite <- app_assoc, length_app, Nat.add_assoc.
    split; [reflexivity|]. split.
    + simpl. exists w1, w2, g1, g2. auto.
    + destruct g2 as [[a b]|]; simpl in *; [|exact H].
      now rewrite !Nat.add_assoc.
  - destruct (rmatch r1 s pos g0 k) as [m|] eqn:H1.
    + injection H as ->. apply IH1 in H1 as (w & s' & g & -> & Hl & Hk).
      exists w, s', g. simpl. auto.
    + apply IH2 in H as (w & s' & g & -> & Hl & Hk).
      exists w, s', g. simpl. auto.
  - apply IH1 in H as (w & s' & g & -> & Hl & Hk).
    exists w, s', (Some (0, List.length w)%nat). simpl.
    rewrite Nat.add_0_r. eauto.
Qed.

Lemma match_here_sound : forall r s pos m,
    match_here r s pos = Some m ->
    exists w s' g,
      s = w ++ s' /\ lang r w g
      /\ m_start m = pos /\ m_end m = (pos + List.length w)%nat
      /\ m_group1 m = shift_span pos g.
Proof.
  intros r s pos m H. unfold match_here in H.
  apply rmatch_sound in H as (w & s' & g & -> & Hl & Hk).
  injection Hk as <-. exists w, s', g. simpl. repeat split; auto.
  now destruct (shift_span pos g).
Qed.

(** The leftmost match is a substring of the text, in the language of the
    pattern. *)
Lemma search_from_sound : forall r s pos m,
    search_from r s pos = Some m ->
    exists pre w post g,
      s = pre ++ w ++ post /\ lang r w g
      /\ m_start m = (pos + List.length pre)%nat
      /\ m_end m = (m_start m + List.length w)%nat
      /\ m_group1 m = shift_span (pos + List.length pre) g.
Proof.
  intros r s. induction s as [|c s IH]; intros pos m H; simpl in H.
  - destruct (match_here r [] pos) as [m'|] eqn:Hm; [|discriminate].
    injection H as ->.
    apply match_here_sound in Hm as (w & s' & g & E & Hl & Hs & He & Hg).
    exists [], w, s', g. simpl. rewrite Nat.add_0_r. repeat split; auto; lia.
  - destruct (match_here r (c :: s) pos) as [m'|] eqn:Hm.
    + injection H as ->.
      apply match_here_sound in Hm as (w & s' & g & E & Hl & Hs & He & Hg).
      exists [], w, s', g. simpl. rewrite Nat.add_0_r. repeat split; auto; lia.
    + apply IH in H as (pre & w & post & g & -> & Hl & Hs & He & Hg).
      exists (c :: pre), w, post, g. simpl.
      rewrite Nat.add_succ_r. repeat split; auto; lia.
Qed.

Lemma substr_middle : forall (pre w post : pystr),
    substr (pre ++ w ++ post) (List.length pre) (List.length pre + List.length w) = w.
Proof.
  intros pre w post. unfold substr.
  replace (List.length pre + List.length w - List.length pre)%nat
    with (List.length w) by lia.
  rewrite skipn_app, skipn_all, Nat.sub_diag. simpl.
  rewrite firstn_app, firstn_all, Nat.sub_diag. simpl. apply app_nil_r.
Qed.

(** [m.group(0)] of [re.search] is in the language of the pattern and is
    a substring of the text. *)
Lemma re_search_group0 : forall r text m,
    re_search r text = Some m ->
    (exists g, lang r (group0 text m) g)
    /\ exists pre post, text = pre ++ group0 text m ++ post.
Proof.
  intros r text m H.
  apply search_from_sound in H as (pre & w & post & g & -> & Hl & Hs & He & _).
  unfold group0. rewrite He, Hs. simpl. rewrite substr_middle. eauto.
Qed.

(* ================================================================== *)
(** ** The two patterns of the response parser *)

Lemma split_first : forall (x : codepoint) l,
    In x l -> exists l1 l2, l = l1 ++ x :: l2 /\ ~ In x l1.
Proof.
  intros x l. induction l as [|a l IH]; intro H; [contradiction|].
  destruct (N.eq_dec a x) as [->|Hne].
  - exists [], l. auto.
  - destruct H as [H|H]; [contradiction|].
    destruct (IH H) as (l1 & l2 & -> & Hn).
    exists (a :: l1), l2. split; [reflexivity|].
    intros [E|E]; auto.
Qed.

Lemma split_last : forall (x : codepoint) l,
    In x l -> exists l1 l2, l = l1 ++ x :: l2 /\ ~ In x l2.
Proof.
  intros x l. induction l as [|a l IH]; intro H; [contradiction|].
  destruct (in_dec N.eq_dec x l) as [Hin|Hout].
  - destruct (IH Hin) as (l1 & l2 & -> & Hn).
    exists (a :: l1), l2. auto.
  - destruct H as [->|H]; [|contradiction].
    exists [], l. auto.
Qed.

Lemma first_occurrence_rest : forall (x : codepoint) pre rest p0 r0,
    pre ++ x :: rest = p0 ++ x :: r0 -> ~ In x pre ->
    exists m, rest = m ++ r0.
Proof.
  intros x pre. induction pre as [|a pre IH]; intros rest p0 r0 E Hn.
  - destruct p0 as [|b p0]; simpl in E.
    + injection E as ->. now exists [].
    + injection E as _ ->. exists (p0 ++ [x]). now rewrite <- app_assoc.
  - destruct p0 as [|b p0]; simpl in E.
    + injection E as -> _. exfalso. apply Hn. now left.
    + injection E as _ E. apply IH in E; [exact E|].
      intro Hin. apply Hn. now right.
Qed.

(** A brace pair can be taken from the first opening brace to the last
    closing brace. *)
Lemma brace_pair_canonical : forall text,
    has_brace_pair text ->
    exists pre body post,
      text = pre ++ chr "{" :: body ++ chr "}" :: post
      /\ ~ In (chr "{") pre /\ ~ In (chr "}") post.
Proof.
  intros text (p0 & b0 & q0 & E).
  assert (Hin : In (chr "{") text) by (rewrite E; apply in_elt).
  destruct (split_first _ _ Hin) as (pre & rest & E1 & Hpre).
  rewrite E1 in E.
  destruct (first_occurrence_rest _ _ _ _ _ E Hpre) as (m & Hrest).
  assert (Hin2 : In (chr "}") rest).
  { rewrite Hrest. apply in_or_app. right. apply in_elt. }
  destruct (split_last _ _ Hin2) as (body & post & E2 & Hpost).
  exists pre, body, post. rewrite E1, E2. auto.
Qed.

Lemma bare_match_here : forall s pos,
    match_here bare_json_re s pos
    = match s with
      | c :: s' =>
          if lit "{" c
          then rep_greedy any_char 0 None s' (S pos) (closing pos)
          else None
      | [] => None
      end.
Proof. intros [|c s] pos; reflexivity. Qed.

Lemma greedy_closing_none : forall post start pos,
    ~ In (chr "}") post ->
    rep_greedy any_char 0 None post pos (closing start) = None.
Proof.
  induction post as [|c post IH]; intros start pos Hn; simpl; [reflexivity|].
  rewrite IH by (intro; apply Hn; now right).
  unfold lit. destruct (N.eqb_spec (chr "}") c) as [E|]; [|reflexivity].
  exfalso. apply Hn. left. now symmetry.
Qed.

Lemma greedy_closing_last : forall body post start pos,
    ~ In (chr "}") post ->
    rep_greedy any_char 0 None (body ++ chr "}" :: post) pos (closing start)
    = Some (mkMatch start (S (pos + List.length body)) None).
Proof.
  induction body as [|b body IH]; intros post start pos Hn; simpl.
  - rewrite greedy_closing_none by exact Hn. now rewrite Nat.add_0_r.
  - rewrite IH by exact Hn. now rewrite Nat.add_succ_r.
Qed.

Lemma bare_search_skip : forall pre s pos,
    ~ In (chr "{") pre ->
    search_from bare_json_re (pre ++ s) pos
    = search_from bare_json_re s (pos + List.length pre).
Proof.
  induction pre as [|c pre IH]; intros s pos Hn; simpl app.
  - now rewrite Nat.add_0_r.
  - simpl search_from. rewrite bare_match_here. unfold lit at 1.
    destruct (N.eqb_spec (chr "{") c) as [E|_].
    + exfalso. apply Hn. left. now symmetry.
    + rewrite IH by (intro; apply Hn; now right).
      simpl. now rewrite Nat.add_succ_r.
Qed.

(** Completeness for the bare pattern: the match runs from the first
    opening brace to the last closing brace. *)
Lemma bare_search_span : forall pre body post,
    ~ In (chr "{") pre -> ~ In (chr "}") post ->
    let text := pre ++ chr "{" :: body ++ chr "}" :: post in
    exists m, re_search bare_json_re text = Some m
              /\ group0 text m = chr "{" :: body ++ [chr "}"].
Proof.
  intros pre body post Hpre Hpost text.
  exists (mkMatch (List.length pre) (List.length pre + (2 + List.length body)) None).
  split.
  - unfold re_search, text. rewrite bare_search_skip by exact Hpre.
    simpl search_from. rewrite bare_match_here. unfold lit at 1.
    rewrite N.eqb_refl, greedy_closing_last by exact Hpost.
    do 3 f_equal. simpl. lia.
  - unfold group0, text. simpl m_start. simpl m_end.
    replace (chr "{" :: body ++ chr "}" :: post)
      with ((chr "{" :: body ++ [chr "}"]) ++ post)
      by (simpl; now rewrite <- app_assoc).
    assert (L : List.length (chr "{" :: body ++ [chr "}"])
                = S (S (List.length body)))
      by (simpl; rewrite length_app; simpl; lia).
    simpl Nat.add. rewrite <- L. apply substr_middle.
Qed.

Lemma lang_lits_eq : forall s w g, lang (lits s) w g -> w = py s /\ g = None.
Proof.
  induction s as [|a s IH]; intros w g H; simpl in H.
  - exact H.
  - destruct H as (w1 & w2 & g1 & g2 & -> & ((c & -> & Hc) & ->) & H2 & ->).
    apply N.eqb_eq in Hc. subst c. apply IH in H2 as [-> ->]. auto.
Qed.

Lemma lang_bare : forall w g,
    lang bare_json_re w g -> exists mid, w = chr "{" :: mid ++ [chr "}"].
Proof.
  intros w g (w1 & w2 & g1 & g2 & -> & ((c & -> & Hc) & _)
              & (w3 & w4 & g3 & g4 & -> & _ & ((d & -> & Hd) & _) & _) & _).
  apply N.eqb_eq in Hc, Hd. subst. now exists w3.
Qed.

(** A match of the fenced pattern: the fence, spaces, a text in braces
    that is group 1, spaces, the closing fence. *)
Lemma lang_fenced : forall w g,
    lang fenced_json_re w g ->
    exists ws1 mid ws2,
      w = (py "```json" ++ ws1) ++ (chr "{" :: mid ++ [chr "}"]) ++ ws2 ++ py "```"
      /\ g = Some (List.length (py "```json" ++ ws1),
                   List.length (py "```json" ++ ws1)
                   + List.length (chr "{" :: mid ++ [chr "}"]))%nat.
Proof.
  intros w g (w1 & w2 & g1 & g2 & -> & H1
              & (w3 & w4 & g3 & g4 & -> & (H3 & ->)
                 & (w5 & w6 & g5 & g6 & -> & ((g7 & H5) & ->)
                    & (w7 & w8 & g8 & g9 & -> & (H7 & ->) & H8 & ->) & ->) & ->)
              & ->).
  apply lang_lits_eq in H1 as [-> ->]. apply lang_lits_eq in H8 as [-> ->].
  destruct H5 as (x1 & x2 & h1 & h2 & -> & ((c & -> & Hc) & _)
                  & (x3 & x4 & h3 & h4 & -> & _ & ((d & -> & Hd) & _) & _) & _).
  apply N.eqb_eq in Hc, Hd. subst.
  exists w3, x3, w7. split.
  - rewrite <- (app_assoc (py "```json") w3). reflexivity.
  - cbn [or_else shift_span]. simpl. rewrite ?length_app. simpl.
    do 2 f_equal; lia.
Qed.

Lemma brace_pair_inside : forall pre w post,
    has_brace_pair w -> has_brace_pair (pre ++ w ++ post).
Proof.
  intros pre w post (a & b & c & ->).
  exists (pre ++ a), b, (c ++ post).
  rewrite <- !app_assoc. simpl. now rewrite <- !app_assoc.
Qed.

Lemma bare_search_pair : forall text m,
    re_search bare_json_re text = Some m -> has_brace_pair text.
Proof.
  intros text m H.
  apply search_from_sound in H as (pre & w & post & g & -> & Hl & _).
  apply brace_pair_inside. apply lang_bare in Hl as (mid & ->).
  now exists [], mid, [].
Qed.

Lemma fenced_search_pair : forall text m,
    re_search fenced_json_re text = Some m -> has_brace_pair text.
Proof.
  intros text m H.
  apply search_from_sound in H as (pre & w & post & g & -> & Hl & _).
  apply brace_pair_inside. apply lang_fenced in Hl as (ws1 & mid & ws2 & -> & _).
  exists (py "```json" ++ ws1), mid, (ws2 ++ py "```").
  rewrite <- !app_assoc. simpl. now rewrite <- !app_assoc.
Qed.

Lemma substr_inside : forall (a w b : pystr),
    substr (a ++ w ++ b) (0 + List.length a) (0 + List.length a + List.length w) = w.
Proof. intros. simpl. apply substr_middle. Qed.

(** Group 1 of a fenced match is a text in braces. *)
Lemma fenced_group1_braces : forall text m,
    re_search fenced_json_re text = Some m ->
    exists mid, group1 text m = chr "{" :: mid ++ [chr "}"].
Proof.
  intros text m H.
  apply search_from_sound in H as (pre & w & post & g & -> & Hl & _ & _ & Hg).
  apply lang_fenced in Hl as (ws1 & mid & ws2 & -> & ->).
  exists mid. unfold group1. rewrite Hg. unfold shift_span.
  set (obj := chr "{" :: mid ++ [chr "}"]).
  replace (pre ++ ((py "```json" ++ ws1) ++ obj ++ ws2 ++ py "```") ++ post)
    with ((pre ++ py "```json" ++ ws1) ++ obj ++ (ws2 ++ py "```" ++ post))
    by (now rewrite <- !app_assoc).
  replace (0 + List.length pre + List.length (py "```json" ++ ws1))%nat
    with (List.length (pre ++ py "```json" ++ ws1))
    by (rewrite !length_app; simpl; lia).
  replace (0 + List.length pre
           + (List.length (py "```json" ++ ws1) + List.length obj))%nat
    with (List.length (pre ++ py "```json" ++ ws1) + List.length obj)%nat
    by (rewrite !length_app; simpl; lia).
  apply substr_middle.
Qed.

(** The JSON text taken from a response is a text in braces. *)
Lemma extract_json_braces : forall response_text json_str,
    extract_json response_text = Ok json_str ->
    exists mid, json_str = chr "{" :: mid ++ [chr "}"].
Proof.
  intros text json_str H. unfold extract_json in H.
  destruct (re_search fenced_json_re text) as [m|] eqn:Hf.
  - injection H as <-. eapply fenced_group1_braces; eauto.
  - destruct (re_search bare_json_re text) as [m|] eqn:Hb; [|discriminate].
    injection H as <-.
    apply re_search_group0 in Hb as [[g Hl] _].
    eapply lang_bare; eauto.
Qed.

(** *** Completeness for the fenced pattern *)










(** No JSON text can be taken from a response exactly when the response
    has no opening brace with a closing brace behind it. *)
Lemma extract_json_raises_iff : forall response_text,
    (exists e, extract_json response_text = Raise e)
    <-> ~ has_brace_pair response_text.
Proof.
  intro text. unfold extract_json. split.
  - intros [e H] Hpair.
    destruct (re_search fenced_json_re text); [discriminate|].
    apply brace_pair_canonical in Hpair as (pre & body & post & E & Hpre & Hpost).
    destruct (bare_search_span pre body post Hpre Hpost) as (m & Hm & _).
    rewrite <- E in Hm. rewrite Hm in H. discriminate.
  - intro Hn.
    destruct (re_search fenced_json_re text) as [m|] eqn:Hf.
    + exfalso. eauto using fenced_search_pair.
    + destruct (re_search bare_json_re text) as [m|] eqn:Hb.
      * exfalso. eauto using bare_search_pair.
      * eauto.
Qed.


Lemma parse_except_is_fallback : forall e response_text,
    fallback_record (parse_evaluation_except e response_text) e response_text.
Proof.
  intros e text. unfold fallback_record.
  repeat split; try reflexivity. eexists. split; reflexivity.
Qed.

(** C3: when no JSON text can be taken from the response (it has no
    opening brace with a closing brace behind it), and when the text taken
    is rejected by [json.loads], [_parse_evaluation_response] returns the
    fallback record: success false, the error string of the failure,
    total_score 0, max_possible_score 100, percentage 0, the manual review
    note as the only area for improvement, and the response kept in
    raw_response. *)
Theorem parse_failure_gives_fallback :
  forall response_text,
    (~ has_brace_pair response_text ->
     fallback_record (_parse_evaluation_response response_text)
                     (ValueError (py "No JSON found in response")) response_text)
    /\ (forall json_str e,
           extract_json response_text = Ok json_str ->
           json_loads json_str = Raise e ->
           fallback_record (_parse_evaluation_response response_text)
                           e response_text).
Proof.
  intro text. unfold _parse_evaluation_response, parse_evaluation_try. split.
  - intro Hn. apply extract_json_raises_iff in Hn as [e He].
    rewrite He. simpl.
    unfold extract_json in He.
    destruct (re_search fenced_json_re text); [discriminate|].
    destruct (re_search bare_json_re text); [discriminate|].
    injection He as <-. apply parse_except_is_fallback.
  - intros json_str e He Hl. rewrite He. simpl. rewrite Hl. simpl.
    apply parse_except_is_fallback.
Qed.


(** The parser fails only in the two ways of C3: the text taken from a
    response starts with a brace, so what [json.loads] returns for it is
    a dict and the two assignments go through. *)
Lemma parse_try_raises : forall response_text e,
    parse_evaluation_try response_text = Raise e ->
    (~ has_brace_pair response_text
     /\ e = ValueError (py "No JSON found in response"))
    \/ (exists json_str, extract_json response_text = Ok json_str
                         /\ json_loads json_str = Raise e).
Proof.
  intros text e H. unfold parse_evaluation_try in H.
  destruct (extract_json text) as [json_str|e0] eqn:He; simpl in H.
  - right. exists json_str. split; [reflexivity|].
    destruct (json_loads json_str) as [v|e1] eqn:Hl; simpl in H.
    + apply extract_json_braces in He as (mid & ->).
      apply json_loads_object in Hl as (d & ->). discriminate H.
    + congruence.
  - left. injection H as <-. split.
    + apply extract_json_raises_iff. eauto.
    + unfold extract_json in He.
      destruct (re_search fenced_json_re text); [discriminate|].
      destruct (re_search bare_json_re text); [discriminate|].
      now injection He as <-.
Qed.


(* ================================================================== *)
(** ** Rubric generation *)













(* ================================================================== *)
(** ** The pattern heuristics *)

(** A citation density of zero is below the lower bound. *)
Lemma zero_density_detected : forall y : Q, Qltb (Qnat 0 / y) 0.5 = true.
Proof. intros [[|n|n] d]; reflexivity. Qed.

(** The score when the citation check fires: whatever the other three
    checks say, it is at least 0.1. *)
Lemma score_with_citation_flag : forall quotes phrases formatting : bool,
    0.1 <= min_one
             (let s := 0.0 in
              let s := if quotes then s + 0.3 else s in
              let s := if phrases then s + 0.4 else s in
              let s := if formatting then s + 0.2 else s in
              s + 0.1).
Proof. intros [|] [|] [|]; vm_compute; discriminate. Qed.

(** C9: a text with at least one word and no match of the citation
    patterns has citation density 0, so [_check_citation_patterns] reports
    detected, and [detect_pattern_based_plagiarism] gives it a suspicion
    score of at least 0.1, whatever the other checks report. *)
Theorem uncited_text_scores_at_least_a_tenth :
  forall text reference_texts,
    (0 < List.length (split_ws text))%nat ->
    find_citations text = [] ->
    citation_detected (_check_citation_patterns text) = true
    /\ citation_density (_check_citation_patterns text) == 0
    /\ pr_success (detect_pattern_based_plagiarism text reference_texts) = true
    /\ 0.1 <= suspicion_score (detect_pattern_based_plagiarism text reference_texts).
Proof.
  intros text refs Hwords Hnone.
  assert (Hflag : citation_detected (_check_citation_patterns text) = true).
  { unfold _check_citation_patterns. rewrite Hnone.
    apply Nat.ltb_lt in Hwords. rewrite Hwords. simpl citation_detected.
    simpl List.length. apply zero_density_detected. }
  split; [exact Hflag|]. split; [|split].
  - unfold _check_citation_patterns. rewrite Hnone.
    apply Nat.ltb_lt in Hwords. rewrite Hwords. simpl.
    destruct (Qnat (List.length (split_ws text)) / 100) as [[|n|n] d]; reflexivity.
  - reflexivity.
  - unfold detect_pattern_based_plagiarism.
    cbn [suspicion_score citation_inconsistencies excessive_quotes
         repetitive_phrases unusual_formatting].
    rewrite Hflag. apply score_with_citation_flag.
Qed.

(* ================================================================== *)
(** ** The aggregator *)

Lemma Qltb_lt : forall x y, Qltb x y = true <-> x < y.
Proof.
  intros x y. unfold Qltb. rewrite negb_true_iff. split; intro H.
  - apply Qnot_le_lt. intro Hle. apply Qle_bool_iff in Hle. congruence.
  - destruct (Qle_bool y x) eqn:E; [|reflexivity].
    apply Qle_bool_iff in E. exfalso. exact (Qlt_not_le _ _ H E).
Qed.

Lemma Qltb_comp : forall x x' y y', x == x' -> y == y' -> Qltb x y = Qltb x' y'.
Proof. intros x x' y y' Hx Hy. unfold Qltb. now rewrite Hx, Hy. Qed.

Lemma detect_pattern_succeeds : forall text reference_texts,
    pr_success (detect_pattern_based_plagiarism text reference_texts) = true.
Proof. reflexivity. Qed.

Lemma mean_of_three : forall a b c, mean [a; b; c] == (a + b + c) / 3.
Proof. intros. unfold mean, Qnat. simpl. field. Qed.

(** C7: for the triple (ai_probability, similarity_percentage,
    pattern_suspicion) taken from the three detector results,
    [comprehensive_plagiarism_check] returns is_plagiarized =
    (ai > 0.7) or (similarity > 25) or (pattern > 0.6), and as
    confidence_score the mean of the three bucketed contributions; for the
    triple (0.8, 0, 0) the verdict is true with confidence
    (0.9 + 0.3 + 0.4) / 3. *)
Theorem plagiarism_verdict :
  forall ai_result traditional_result text reference_texts (ai sim : Q),
    as_number (field_or ai_result "ai_probability" (VFloat 0.0)) = Ok (PFin ai) ->
    as_number (field_or traditional_result "similarity_percentage" (VFloat 0.0))
    = Ok (PFin sim) ->
    let pat := suspicion_score (detect_pattern_based_plagiarism text reference_texts) in
    exists r,
      comprehensive_plagiarism_check ai_result traditional_result text reference_texts
      = Ok r
      /\ is_plagiarized r = Qltb 0.7 ai || Qltb 25 sim || Qltb 0.6 pat
      /\ confidence_score r
         == ((if Qltb 0.7 ai then 0.9 else if Qltb 0.5 ai then 0.7 else 0.3)
             + (if Qltb 30 sim then 0.9 else if Qltb 15 sim then 0.7 else 0.3)
             + (if Qltb 0.6 pat then 0.8 else if Qltb 0.3 pat then 0.6 else 0.4)) / 3
      /\ (ai == 0.8 -> sim == 0 -> pat == 0 ->
          is_plagiarized r = true /\ confidence_score r == (0.9 + 0.3 + 0.4) / 3).
Proof.
  intros ai_result trad text refs ai sim Hai Hsim pat.
  unfold comprehensive_plagiarism_check. cbv zeta.
  rewrite detect_pattern_succeeds, Hai. cbn [bind]. rewrite Hsim. cbn [bind].
  eexists. split; [reflexivity|].
  cbn [is_plagiarized confidence_score num_gt]. fold pat.
  split; [reflexivity|]. split; [apply mean_of_three|].
  intros Ea Es Ep.
  rewrite (Qltb_comp (Qeq_refl 0.7) Ea), (Qltb_comp (Qeq_refl 0.5) Ea),
    (Qltb_comp (Qeq_refl 30) Es), (Qltb_comp (Qeq_refl 15) Es),
    (Qltb_comp (Qeq_refl 25) Es),
    (Qltb_comp (Qeq_refl 0.6) Ep), (Qltb_comp (Qeq_refl 0.3) Ep).
  split; [reflexivity | apply mean_of_three].
Qed.

Lemma mean_bucket_range : forall b1 b2 b3 b4 b5 b6 : bool,
    let a := if b1 then 0.9 else if b2 then 0.7 else 0.3 in
    let b := if b3 then 0.9 else if b4 then 0.7 else 0.3 in
    let c := if b5 then 0.8 else if b6 then 0.6 else 0.4 in
    In a [0.3; 0.7; 0.9] /\ In b [0.3; 0.7; 0.9] /\ In c [0.4; 0.6; 0.8]
    /\ (1 # 3) <= mean [a; b; c] /\ mean [a; b; c] <= (13 # 15)
    /\ ~ mean [a; b; c] == 0 /\ ~ mean [a; b; c] == 1.
Proof.
  intros [|] [|] [|] [|] [|] [|]; simpl;
    (repeat split; [tauto | tauto | tauto | vm_compute; discriminate
                    | vm_compute; discriminate | vm_compute; discriminate
                    | vm_compute; discriminate]).
Qed.

(** C10: whenever [comprehensive_plagiarism_check] returns, its
    confidence_score is the mean of one value of {0.3, 0.7, 0.9}, one of
    {0.3, 0.7, 0.9} and one of {0.4, 0.6, 0.8}; it lies in [1/3, 13/15]
    and is neither 0 nor 1. *)
Theorem confidence_score_range :
  forall ai_result traditional_result text reference_texts r,
    comprehensive_plagiarism_check ai_result traditional_result text reference_texts
    = Ok r ->
    (exists a b c,
        In a [0.3; 0.7; 0.9] /\ In b [0.3; 0.7; 0.9] /\ In c [0.4; 0.6; 0.8]
        /\ confidence_score r == (a + b + c) / 3)
    /\ (1 # 3) <= confidence_score r /\ confidence_score r <= (13 # 15)
    /\ ~ confidence_score r == 0 /\ ~ confidence_score r == 1.
Proof.
  intros ai_result trad text refs r H.
  unfold comprehensive_plagiarism_check in H.
  destruct (as_number (field_or ai_result "ai_probability" (VFloat 0.0)))
    as [ai|e]; simpl in H; [|discriminate].
  destruct (as_number (field_or trad "similarity_percentage" (VFloat 0.0)))
    as [sim|e]; simpl in H; [|discriminate].
  injection H as <-. cbn [confidence_score].
  match goal with
  | |- context [mean [ (if ?b1 then _ else if ?b2 then _ else _);
                       (if ?b3 then _ else if ?b4 then _ else _);
                       (if ?b5 then _ else if ?b6 then _ else _) ]] =>
      destruct (mean_bucket_range b1 b2 b3 b4 b5 b6)
        as (Ha & Hb & Hc & Hlo & Hhi & H0 & H1)
  end.
  split; [|auto].
  do 3 eexists. split; [exact Ha|]. split; [exact Hb|]. split; [exact Hc|].
  apply mean_of_three.
Qed.

(* ================================================================== *)
(** ** [re.findall]: what the list of matches says about the text *)

(** A proof that does not speak of a parameter of the development does
    not depend on it. *)
Ltac forget_parameters := repeat match goal with H : _ |- _ => clear H end.

Lemma total_len_from : forall l n,
    fold_left (fun acc q => acc + List.length q)%nat l n = (n + total_len l)%nat.
Proof.
  unfold total_len. induction l as [|q l IH]; intro n; simpl.
  - lia.
  - rewrite IH, (IH (List.length q)). lia.
Qed.

Lemma total_len_cons : forall q l,
    total_len (q :: l) = (List.length q + total_len l)%nat.
Proof. intros. unfold total_len at 1. simpl. apply total_len_from. Qed.

Lemma match_here_end : forall r s m,
    match_here r s 0 = Some m -> (m_end m <= List.length s)%nat.
Proof.
  intros r s m H. apply match_here_sound in H.
  destruct H as (w & s' & g & -> & _ & _ & -> & _).
  rewrite length_app. simpl. lia.
Qed.

(** The matches do not overlap: together they are no longer than the
    text. *)
Lemma findall_from_total : forall r s skip,
    (skip <= List.length s)%nat ->
    (total_len (findall_from r s skip) + skip <= List.length s)%nat.
Proof.
  intros r. induction s as [|c s IH]; intros skip Hskip.
  - simpl in *. destruct skip; [|lia].
    destruct (match_here r [] 0); cbv; lia.
  - cbn [findall_from]. destruct skip as [|n].
    + destruct (match_here r (c :: s) 0) as [m|] eqn:E.
      * apply match_here_end in E. rewrite total_len_cons, length_firstn.
        simpl List.length in *.
        assert (Hp : (pred (m_end m) <= List.length s)%nat) by lia.
        specialize (IH _ Hp). lia.
      * specialize (IH 0%nat (Nat.le_0_l _)). simpl List.length. lia.
    + simpl List.length in *.
      assert (Hp : (n <= List.length s)%nat) by lia.
      specialize (IH _ Hp). lia.
Qed.

(** There is a match in the list exactly when the pattern matches at the
    head of some suffix of the text. *)
Lemma findall_from_nonempty : forall r s skip,
    findall_from r s skip <> [] ->
    exists pre t, s = pre ++ t /\ match_here r t 0 <> None.
Proof.
  intros r. induction s as [|c s IH]; intros skip H.
  - exists [], []. split; [reflexivity|].
    simpl in H. destruct skip; [|congruence].
    destruct (match_here r [] 0); congruence.
  - cbn [findall_from] in H. destruct skip as [|n].
    + destruct (match_here r (c :: s) 0) as [m|] eqn:E.
      * exists [], (c :: s). split; [reflexivity|]. congruence.
      * destruct (IH _ H) as (pre & t & -> & Ht).
        exists (c :: pre), t. split; [reflexivity | exact Ht].
    + destruct (IH _ H) as (pre & t & -> & Ht).
      exists (c :: pre), t. split; [reflexivity | exact Ht].
Qed.

Lemma findall_match_nonempty : forall r pre t,
    match_here r t 0 <> None -> findall_from r (pre ++ t) 0 <> [].
Proof.
  intros r. induction pre as [|c pre IH]; intros t Ht.
  - simpl app. destruct t as [|c t].
    + simpl. destruct (match_here r [] 0); congruence.
    + cbn [findall_from]. destruct (match_here r (c :: t) 0); congruence.
  - simpl app. cbn [findall_from].
    destruct (match_here r (c :: pre ++ t) 0); [discriminate|].
    now apply IH.
Qed.

Lemma re_findall_nonempty_iff : forall r text,
    (0 <? List.length (re_findall r text))%nat = true
    <-> exists pre t, text = pre ++ t /\ match_here r t 0 <> None.
Proof.
  intros r text. unfold re_findall. rewrite Nat.ltb_lt. split.
  - intro H. apply (@findall_from_nonempty r text 0%nat).
    intro E. rewrite E in H. simpl in H. lia.
  - intros (pre & t & -> & Ht).
    pose proof (@findall_match_nonempty r pre t Ht) as Hne.
    destruct (findall_from r (pre ++ t) 0); [congruence | simpl; lia].
Qed.

(** [p{n,}] matches at the head of [s] exactly when the first [n]
    characters of [s] are in the class. *)
Lemma rep_greedy_at_least : forall A p s lo pos (k : pystr -> nat -> option A),
    (forall s' e, k s' e <> None) ->
    rep_greedy p lo None s pos k <> None
    <-> ((lo <= List.length s)%nat /\ forallb p (firstn lo s) = true).
Proof.
  forget_parameters.
  intros A p s. induction s as [|c s IH]; intros lo pos k Hk.
  - destruct lo; simpl.
    + split; [intros _; split; [lia | reflexivity] | intros _; apply Hk].
    + split; [congruence | intros [H _]; lia].
  - cbn [rep_greedy can_more one_less option_map]. rewrite andb_true_r.
    destruct lo as [|lo].
    + split; [intros _; simpl; split; [lia | reflexivity]|].
      intros _. destruct (p c); [|apply Hk].
      destruct (rep_greedy p (pred 0) None s (S pos) k); [discriminate | apply Hk].
    + cbn [pred firstn forallb List.length]. destruct (p c); simpl.
      * specialize (IH lo (S pos) k Hk).
        destruct (rep_greedy p lo None s (S pos) k).
        -- split; [intros _ | discriminate].
           assert (Hs : Some a <> None) by discriminate.
           apply IH in Hs. split; [lia | tauto].
        -- split; [congruence|]. intros [Hl Hf]. apply IH. split; [lia | exact Hf].
      * split; [congruence | intros [_ Hf]; discriminate].
Qed.

Lemma match_here_at_least : forall n p t,
    match_here (at_least n p) t 0 <> None
    <-> exists w rest, t = w ++ rest /\ List.length w = n /\ forallb p w = true.
Proof.
  forget_parameters.
  intros n p t. unfold match_here, at_least. cbn [rmatch].
  rewrite rep_greedy_at_least by discriminate. split.
  - intros [Hl Hf]. exists (firstn n t), (skipn n t).
    split; [now rewrite firstn_skipn|]. split; [|exact Hf].
    rewrite length_firstn. lia.
  - intros (w & rest & -> & <- & Hf). split.
    + rewrite length_app. lia.
    + rewrite firstn_app, Nat.sub_diag, firstn_all. simpl. now rewrite app_nil_r.
Qed.

Lemma match_here_alt : forall r1 r2 t,
    match_here (Alt r1 r2) t 0 <> None
    <-> (match_here r1 t 0 <> None \/ match_here r2 t 0 <> None).
Proof.
  forget_parameters.
  intros r1 r2 t. unfold match_here. cbn [rmatch].
  destruct (rmatch r1 t 0 None _); [|tauto].
  split; [left|]; discriminate.
Qed.


(* ================================================================== *)
(** ** The quotation and formatting checks *)

Lemma Qnat_ratio_range : forall a b,
    (a <= b)%nat -> (0 < b)%nat -> 0 <= Qnat a / Qnat b /\ Qnat a / Qnat b <= 1.
Proof.
  intros a b Hab Hb. unfold Qnat.
  assert (Hpos : 0 < inject_Z (Z.of_nat b)).
  { rewrite <- (Zlt_Qlt 0). lia. }
  split.
  - apply Qle_shift_div_l; [exact Hpos|]. rewrite Qmult_0_l.
    rewrite <- (Zle_Qle 0). lia.
  - apply Qle_shift_div_r; [exact Hpos|]. rewrite Qmult_1_l.
    rewrite <- Zle_Qle. lia.
Qed.

Lemma nothing_quoted : forall y : Q, Qltb 0.4 (Qnat 0 / y) = false.
Proof. intros [[|n|n] d]; reflexivity. Qed.

(** A match of the quotation pattern holds two double quotes. *)
Lemma quotation_two_quotes : forall w g,
    lang (Chr dquote ++ star (not_in dquote) ++ Chr dquote)%re w g ->
    (2 <= count_occ N.eq_dec w 34%N)%nat.
Proof.
  intros w g H. simpl in H.
  destruct H as (w1 & w2 & g1 & g2 & -> & ((c1 & -> & Hc1) & _) & H & _).
  destruct H as (w3 & w4 & g3 & g4 & -> & _ & ((c2 & -> & Hc2) & _) & _).
  unfold dquote in Hc1, Hc2. apply N.eqb_eq in Hc1, Hc2. subst c1 c2.
  simpl app. rewrite count_occ_cons_eq, count_occ_app, count_occ_cons_eq by reflexivity.
  lia.
Qed.

(** X1: [_check_excessive_quotes]: the reported percentage is a share of the
    text, between 0 and 1 (0 on the empty text); a text with fewer than
    two double quotes has no quotation and is not reported. *)
Theorem excessive_quotes_share :
  forall text,
    let check := _check_excessive_quotes text in
    0 <= quotes_percentage check /\ quotes_percentage check <= 1
    /\ ((count_occ N.eq_dec text 34%N < 2)%nat ->
        quote_count check = 0%nat
        /\ quotes_percentage check == 0
        /\ quotes_detected check = false).
Proof.
  intros text check. subst check. unfold _check_excessive_quotes.
  cbn [quotes_percentage quote_count quotes_detected].
  set (pat := (Chr dquote ++ star (not_in dquote) ++ Chr dquote)%re).
  split; [|split].
  - destruct text as [|c text]; [discriminate|].
    apply Qnat_ratio_range; [|simpl; lia].
    pose proof (@findall_from_total pat (c :: text) 0 (Nat.le_0_l _)) as H.
    unfold re_findall. lia.
  - destruct text as [|c text]; [discriminate|].
    apply Qnat_ratio_range; [|simpl; lia].
    pose proof (@findall_from_total pat (c :: text) 0 (Nat.le_0_l _)) as H.
    unfold re_findall. lia.
  - intro Hfew.
    assert (Hnone : re_findall pat text = []).
    { destruct (re_findall pat text) as [|q qs] eqn:E; [reflexivity|]. exfalso.
      assert (Hlen : (0 <? List.length (re_findall pat text))%nat = true)
        by (rewrite E; reflexivity).
      apply re_findall_nonempty_iff in Hlen. destruct Hlen as (pre & t & -> & Ht).
      destruct (match_here pat t 0) as [m|] eqn:Em; [|congruence].
      apply match_here_sound in Em.
      destruct Em as (w & s' & g & -> & Hw & _).
      apply quotation_two_quotes in Hw.
      rewrite !count_occ_app in Hfew. unfold codepoint in *. lia. }
    rewrite Hnone. split; [reflexivity|].
    destruct text as [|c text]; [repeat split; reflexivity|].
    split; [|apply nothing_quoted].
    unfold total_len. simpl fold_left.
    destruct (Qnat (List.length (c :: text))) as [[|n|n] d]; reflexivity.
Qed.

Lemma doubled_literal : forall (x : string) (w : pystr),
    List.length w = 2%nat -> forallb (lit x) w = true -> w = [chr x; chr x].
Proof.
  intros x [|a [|b [|? ?]]] Hl Hf; try discriminate Hl.
  simpl in Hf. unfold lit in Hf.
  destruct (N.eqb_spec (chr x) a), (N.eqb_spec (chr x) b); try discriminate Hf.
  now subst.
Qed.

(** X2: [_check_unusual_formatting]: the spacing indicator is set exactly when
    the text has three whitespace characters in a row, the punctuation
    indicator exactly when it has a doubled full stop, exclamation mark or
    question mark; the check reports detected only when one of these two
    occurs. *)
Theorem unusual_formatting_indicators :
  forall text,
    let check := _check_unusual_formatting text in
    (inconsistent_spacing check = true
     <-> exists pre ws post,
          text = pre ++ ws ++ post /\ List.length ws = 3%nat
          /\ forallb is_space ws = true)
    /\ (unusual_punctuation check = true
        <-> exists pre x post,
             text = pre ++ x :: x :: post /\ In x (py ".!?"))
    /\ (formatting_detected check = true ->
        inconsistent_spacing check = true \/ unusual_punctuation check = true).
Proof.
  forget_parameters.
  intros text check. subst check. unfold _check_unusual_formatting.
  cbn [inconsistent_spacing unusual_punctuation formatting_detected].
  split; [|split].
  - rewrite re_findall_nonempty_iff. split.
    + intros (pre & t & -> & Ht). apply match_here_at_least in Ht.
      destruct Ht as (w & rest & -> & Hl & Hf). now exists pre, w, rest.
    + intros (pre & ws & post & -> & Hl & Hf). exists pre, (ws ++ post).
      split; [reflexivity|]. apply match_here_at_least. now exists ws, post.
  - rewrite re_findall_nonempty_iff. split.
    + intros (pre & t & -> & Ht).
      apply match_here_alt in Ht. destruct Ht as [Ht|Ht];
        [apply match_here_alt in Ht; destruct Ht as [Ht|Ht]|];
        apply match_here_at_least in Ht;
        destruct Ht as (w & rest & -> & Hl & Hf);
        (apply doubled_literal in Hf; [|exact Hl]); subst w;
        exists pre; eexists; exists rest; (split; [reflexivity|]);
        simpl; tauto.
    + intros (pre & x & post & -> & Hx). exists pre, (x :: x :: post).
      split; [reflexivity|].
      simpl in Hx. destruct Hx as [<-|[<-|[<-|[]]]].
      * apply match_here_alt. left. apply match_here_alt. left.
        apply match_here_at_least. now exists (py ".."), post.
      * apply match_here_alt. left. apply match_here_alt. right.
        apply match_here_at_least. now exists (py "!!"), post.
      * apply match_here_alt. right.
        apply match_here_at_least. now exists (py "??"), post.
  - destruct (0 <? List.length (re_findall (at_least 3 is_space) text))%nat;
      [now left|].
    destruct (0 <? List.length (re_findall _ text))%nat; [now right|].
    destruct (Qltb _ _); discriminate.
Qed.


(* ================================================================== *)
(** ** The phrase count *)

(** The count kept for a phrase. *)
Lemma count_phrase_keys : forall phrase phrases,
    NoDup (map fst phrases) -> NoDup (map fst (count_phrase phrase phrases)).
Proof.
  intros phrase. induction phrases as [|[k v] rest IH]; intro H; simpl.
  - constructor; [intros [] | constructor].
  - inversion H as [|? ? Hk Hrest]; subst.
    destruct (str_eqb phrase k) eqn:E; simpl; [exact H|].
    constructor; [|now apply IH].
    intro Hin. apply Hk. clear IH H Hk Hrest.
    induction rest as [|[k' v'] rest IH]; simpl in *.
    + destruct Hin as [<-|[]]. rewrite str_eqb_refl in E. discriminate.
    + destruct (str_eqb phrase k') eqn:E'; simpl in Hin; [exact Hin|].
      destruct Hin as [<-|Hin]; [now left | right; now apply IH].
Qed.

Lemma count_phrase_entry : forall phrase phrases k v,
    NoDup (map fst phrases) ->
    In (k, v) (count_phrase phrase phrases)
    <-> (k = phrase /\ (exists v0, v = S v0 /\ In (k, v0) phrases)
         \/ k = phrase /\ v = 1%nat /\ ~ In k (map fst phrases)
         \/ k <> phrase /\ In (k, v) phrases).
Proof.
  forget_parameters.
  intros phrase. induction phrases as [|[k0 v0] rest IH]; intros k v Hnd; simpl.
  - split.
    + intros [E|[]]. injection E as <- <-. right. left. tauto.
    + intros [(_ & v0 & _ & [])|[(-> & -> & _)|(_ & [])]]. now left.
  - inversion Hnd as [|? ? Hk Hrest]; subst.
    destruct (str_eqb phrase k0) eqn:E.
    + apply str_eqb_eq in E. subst k0. simpl. split.
      * intros [H|H].
        -- injection H as <- <-. left. split; [reflexivity|]. exists v0. auto.
        -- right. right. split; [|now right].
           intros ->. apply Hk. apply (in_map fst) in H. exact H.
      * intros [(-> & v1 & -> & [H|H])|[(-> & -> & H)|(Hne & [H|H])]].
        -- injection H as <-. now left.
        -- exfalso. apply Hk. apply (in_map fst) in H. exact H.
        -- exfalso. apply H. now left.
        -- injection H as <- <-. congruence.
        -- now right.
    + apply str_eqb_neq in E. simpl. rewrite (IH k v Hrest). split.
      * intros [H|[(-> & v1 & -> & H)|[(-> & -> & H)|(Hne & H)]]].
        -- injection H as <- <-. right. right. split; [congruence | now left].
        -- left. split; [reflexivity|]. exists v1. auto.
        -- right. left. repeat split. intros [H'|H']; [congruence | tauto].
        -- right. right. auto.
      * intros [(-> & v1 & -> & [H|H])|[(-> & -> & H)|(Hne & [H|H])]].
        -- injection H as <- <-. congruence.
        -- right. left. split; [reflexivity|]. exists v1. auto.
        -- right. right. left. repeat split. tauto.
        -- now left.
        -- right. right. right. auto.
Qed.

(** After the loop every entry holds the number of positions at which
    its phrase starts. *)
Lemma phrase_counts : forall (windows : list pystr) phrases,
    NoDup (map fst phrases) ->
    (forall k v, In (k, v) phrases -> (0 < v)%nat) ->
    let final := fold_left (fun phrases w => count_phrase w phrases) windows phrases in
    NoDup (map fst final)
    /\ forall k v,
        In (k, v) final
        <-> (0 < v)%nat
            /\ ((exists v0, In (k, v0) phrases
                            /\ v = (v0 + count_occ pystr_eq_dec windows k)%nat)
                \/ ~ In k (map fst phrases)
                   /\ v = count_occ pystr_eq_dec windows k).
Proof.
  forget_parameters.
  induction windows as [|w windows IH]; intros phrases Hnd Hpos; cbn [fold_left].
  - split; [exact Hnd|]. intros k v. simpl. split.
    + intro H. split; [eauto|]. left. exists v. split; [exact H | lia].
    + intros (Hv & [(v0 & H & ->)|(_ & ->)]); [|lia].
      now rewrite Nat.add_0_r.
  - assert (Hnd' := @count_phrase_keys w phrases Hnd).
    assert (Hpos' : forall k v, In (k, v) (count_phrase w phrases) -> (0 < v)%nat).
    { intros k v H. apply count_phrase_entry in H; [|exact Hnd].
      destruct H as [(_ & v0 & -> & _)|[(_ & -> & _)|(_ & H)]]; [lia | lia | eauto]. }
    destruct (IH _ Hnd' Hpos') as (Hfinal & Hentries). split; [exact Hfinal|].
    intros k v. rewrite Hentries. clear Hentries IH.
    assert (Hkeys : In k (map fst (count_phrase w phrases))
                    <-> k = w \/ In k (map fst phrases)).
    { split.
      - intro H. apply in_map_iff in H. destruct H as ([k' v'] & <- & H).
        apply count_phrase_entry in H; [|exact Hnd]. simpl.
        destruct H as [(-> & _)|[(-> & _)|(_ & H)]]; [now left | now left|].
        right. apply (in_map fst) in H. exact H.
      - intros [->|H].
        + destruct (in_dec pystr_eq_dec w (map fst phrases)) as [Hin|Hout].
          * apply in_map_iff in Hin. destruct Hin as ([k' v'] & Ek & Hin).
            simpl in Ek. subst k'.
            apply (in_map_iff fst). exists (w, S v'). split; [reflexivity|].
            apply count_phrase_entry; [exact Hnd|]. left. eauto.
          * apply (in_map_iff fst). exists (w, 1%nat). split; [reflexivity|].
            apply count_phrase_entry; [exact Hnd|]. right. left. auto.
        + apply in_map_iff in H. destruct H as ([k' v'] & Ek & Hin).
          simpl in Ek. subst k'.
          destruct (pystr_eq_dec k w) as [->|Hne].
          * apply (in_map_iff fst). exists (w, S v'). split; [reflexivity|].
            apply count_phrase_entry; [exact Hnd|]. left. eauto.
          * apply (in_map_iff fst). exists (k, v'). split; [reflexivity|].
            apply count_phrase_entry; [exact Hnd|]. right. right. auto. }
    rewrite Hkeys. clear Hkeys. cbn [count_occ].
    destruct (pystr_eq_dec w k) as [->|Hne].
    + split.
      * intros (Hv & [(v0 & H & ->)|(Hout & ->)]); [|tauto].
        split; [exact Hv|].
        apply count_phrase_entry in H; [|exact Hnd].
        destruct H as [(_ & v1 & -> & H)|[(_ & -> & H)|(Hk & _)]]; [| |congruence].
        -- left. exists v1. split; [exact H | lia].
        -- right. split; [exact H | lia].
      * intros (Hv & [(v0 & H & ->)|(Hout & ->)]); (split; [exact Hv|]); left.
        -- exists (S v0). split; [|lia].
           apply count_phrase_entry; [exact Hnd|]. left. eauto.
        -- exists 1%nat. split; [|lia].
           apply count_phrase_entry; [exact Hnd|]. right. left. auto.
    + split.
      * intros (Hv & [(v0 & H & ->)|(Hout & ->)]); (split; [exact Hv|]).
        -- apply count_phrase_entry in H; [|exact Hnd].
           destruct H as [(-> & _)|[(-> & _)|(_ & H)]]; [congruence | congruence|].
           left. eauto.
        -- right. split; [|reflexivity]. tauto.
      * intros (Hv & [(v0 & H & ->)|(Hout & ->)]); (split; [exact Hv|]).
        -- left. exists v0. split; [|reflexivity].
           apply count_phrase_entry; [exact Hnd|]. right. right.
           split; [congruence | exact H].
        -- right. split; [|reflexivity]. intros [->|H]; [congruence | tauto].
Qed.

Lemma fold_max_bound : forall l a b,
    (b <= fold_left Nat.max l a)%nat <-> (b <= a)%nat \/ exists v, In v l /\ (b <= v)%nat.
Proof.
  induction l as [|x l IH]; intros a b; simpl.
  - split; [auto | intros [H|(v & [] & _)]; exact H].
  - rewrite IH. split.
    + intros [H|(v & Hv & Hb)]; [|right; eauto].
      destruct (Nat.max_spec a x) as [[_ E]|[_ E]]; rewrite E in H; [|now left].
      right. eauto.
    + intros [H|(v & [->|Hv] & Hb)]; [left; lia | left; lia | right; eauto].
Qed.

Lemma phrases_fold_windows : forall (words : list pystr) init,
    fold_left (fun phrases i =>
                 count_phrase (join (py " ") (firstn 5 (skipn i words))) phrases)
              (seq 0 (List.length words + 1 - 5)) init
    = fold_left (fun phrases w => count_phrase w phrases)
                (five_word_phrases words) init.
Proof.
  intros words init. unfold five_word_phrases.
  generalize (seq 0 (List.length words + 1 - 5)) init.
  induction l as [|i l IH]; intro init0; simpl; [reflexivity | apply IH].
Qed.

Lemma count_occ_length : forall (l : list pystr) x,
    (count_occ pystr_eq_dec l x <= List.length l)%nat.
Proof.
  induction l as [|y l IH]; intro x; simpl; [lia|].
  specialize (IH x). destruct (pystr_eq_dec y x); lia.
Qed.

(** What [max_repetitions] is at least. *)
Lemma max_repetition_bound : forall text b,
    (2 <= b)%nat ->
    (b <= max_repetitions (_check_repetitive_phrases text))%nat
    <-> exists phrase,
        (b <= count_occ pystr_eq_dec (five_word_phrases (split_ws text)) phrase)%nat.
Proof.
  forget_parameters.
  intros text b Hb. unfold _check_repetitive_phrases. cbn [max_repetitions].
  rewrite phrases_fold_windows.
  destruct (@phrase_counts (five_word_phrases (split_ws text)) [])
    as (Hnd & Hentries); [constructor | intros k v [] |].
  rewrite fold_max_bound. split.
  - intros [H|(v & Hv & Hbv)]; [lia|].
    apply in_map_iff in Hv. destruct Hv as ([k v'] & Ev & Hin). simpl in Ev. subst v'.
    apply filter_In in Hin. destruct Hin as [Hin _].
    apply Hentries in Hin. destruct Hin as (_ & [(v0 & [] & _)|(_ & ->)]).
    now exists k.
  - intros (phrase & Hc). right.
    exists (count_occ pystr_eq_dec (five_word_phrases (split_ws text)) phrase).
    split; [|exact Hc].
    apply in_map_iff. exists (phrase, count_occ pystr_eq_dec (five_word_phrases (split_ws text)) phrase).
    split; [reflexivity|]. apply filter_In. split.
    + apply Hentries. split; [lia|]. right. split; [intros [] | reflexivity].
    + simpl. apply Nat.ltb_lt. lia.
Qed.

(** X3: [_check_repetitive_phrases] reports detected exactly when
    some five-word phrase starts at three or more positions of the word
    list; so a text of fewer than seven words is never reported, and the
    reported maximum is never 1 and never more than the number of
    positions. *)
Theorem repetitive_phrases_detected_iff :
  forall text,
    let check := _check_repetitive_phrases text in
    let words := split_ws text in
    (phrases_detected check = true
     <-> exists phrase,
          (3 <= count_occ pystr_eq_dec (five_word_phrases words) phrase)%nat)
    /\ (phrases_detected check = true -> (7 <= List.length words)%nat)
    /\ max_repetitions check <> 1%nat
    /\ (max_repetitions check <= List.length words - 4)%nat.
Proof.
  forget_parameters.
  intros text check words. subst check words.
  assert (Hiff : phrases_detected (_check_repetitive_phrases text) = true
                 <-> (3 <= max_repetitions (_check_repetitive_phrases text))%nat).
  { unfold _check_repetitive_phrases. cbn [phrases_detected max_repetitions].
    rewrite Nat.ltb_lt. lia. }
  assert (Hlen : forall phrase,
             (count_occ pystr_eq_dec (five_word_phrases (split_ws text)) phrase
              <= List.length (split_ws text) - 4)%nat).
  { intro phrase. etransitivity; [apply count_occ_length|].
    unfold five_word_phrases. rewrite length_map, length_seq. lia. }
  split; [|split; [|split]].
  - rewrite Hiff. apply max_repetition_bound. lia.
  - rewrite Hiff. intro H. apply max_repetition_bound in H; [|lia].
    destruct H as (phrase & H). specialize (Hlen phrase). lia.
  - intro E.
    assert (H1 : (1 <= max_repetitions (_check_repetitive_phrases text))%nat) by lia.
    unfold _check_repetitive_phrases in H1, E. cbn [max_repetitions] in H1, E.
    apply fold_max_bound in H1. destruct H1 as [H1|(v & Hv & _)]; [lia|].
    apply in_map_iff in Hv. destruct Hv as ([k v'] & Ev & Hin). simpl in Ev. subst v'.
    assert (H2 : (2 <= v)%nat).
    { apply filter_In in Hin. destruct Hin as [_ Hin]. simpl in Hin.
      apply Nat.ltb_lt in Hin. lia. }
    assert (H3 : (2 <= fold_left Nat.max
                         (map snd (filter (fun kv => (1 <? snd kv)%nat)
                            (fold_left (fun phrases i =>
                               count_phrase (join (py " ") (firstn 5 (skipn i (split_ws text)))) phrases)
                               (seq 0 (List.length (split_ws text) + 1 - 5)) []))) 0)%nat).
    { apply fold_max_bound. right. exists v. split; [|exact H2].
      apply in_map_iff. now exists (k, v). }
    lia.
  - destruct (Nat.le_gt_cases (max_repetitions (_check_repetitive_phrases text)) 1)
      as [Hle|Hgt].
    + destruct (Nat.le_gt_cases 7 (List.length (split_ws text))); [lia|].
      destruct (max_repetitions (_check_repetitive_phrases text)) as [|[|n]] eqn:E;
        [lia| |lia].
      assert (H1 : (1 <= max_repetitions (_check_repetitive_phrases text))%nat) by lia.
      unfold _check_repetitive_phrases in H1. cbn [max_repetitions] in H1.
      apply fold_max_bound in H1. destruct H1 as [H1|(v & Hv & _)]; [lia|].
      apply in_map_iff in Hv. destruct Hv as ([k v'] & Ev & Hin). simpl in Ev. subst v'.
      apply filter_In in Hin. destruct Hin as [Hin Hv]. simpl in Hv.
      apply Nat.ltb_lt in Hv.
      rewrite phrases_fold_windows in Hin.
      destruct (@phrase_counts (five_word_phrases (split_ws text)) [])
        as (_ & Hentries); [constructor | intros ? ? [] |].
      apply Hentries in Hin. destruct Hin as (_ & [(v0 & [] & _)|(_ & ->)]).
      specialize (Hlen k). lia.
    + assert (H := proj1 (@max_repetition_bound text _ Hgt) (Nat.le_refl _)).
      destruct H as (phrase & H). specialize (Hlen phrase). lia.
Qed.


(* ================================================================== *)
(** ** Jaccard similarity *)

Lemma same_length : forall l1 l2 : list pystr,
    NoDup l1 -> NoDup l2 -> (forall w, In w l1 <-> In w l2) ->
    List.length l1 = List.length l2.
Proof.
  intros l1 l2 H1 H2 H. apply Nat.le_antisymm; apply NoDup_incl_length; trivial;
    intros w Hw; now apply H.
Qed.

Lemma in_both : forall (l1 l2 : list pystr) w,
    In w (filter (fun w => if in_dec pystr_eq_dec w l2 then true else false) l1)
    <-> In w l1 /\ In w l2.
Proof.
  forget_parameters.
  intros l1 l2 w. rewrite filter_In.
  destruct (in_dec pystr_eq_dec w l2); intuition discriminate.
Qed.

(** The similarity as the quotient of the two counts, when both texts
    have a word. *)
Lemma similarity_quotient : forall text1 text2,
    split_ws text1 <> [] -> split_ws text2 <> [] ->
    let words1 := nodup pystr_eq_dec (split_ws text1) in
    let words2 := nodup pystr_eq_dec (split_ws text2) in
    _calculate_text_similarity text1 text2
    = Qnat (List.length
              (filter (fun w => if in_dec pystr_eq_dec w words2 then true else false)
                      words1))
      / Qnat (List.length (nodup pystr_eq_dec (words1 ++ words2))).
Proof.
  intros text1 text2 H1 H2 words1 words2. unfold _calculate_text_similarity.
  fold words1 words2.
  destruct words1 as [|a l1] eqn:E1.
  { destruct (split_ws text1) as [|w ws]; [congruence|].
    assert (Hin : In w words1) by (apply nodup_In; now left).
    rewrite E1 in Hin. destruct Hin. }
  destruct words2 as [|b l2] eqn:E2; [|reflexivity].
  destruct (split_ws text2) as [|w ws]; [congruence|].
  assert (Hin : In w words2) by (apply nodup_In; now left).
  rewrite E2 in Hin. destruct Hin.
Qed.

Lemma nodup_nil : forall l : list pystr, nodup pystr_eq_dec l = [] <-> l = [].
Proof.
  intros [|w l]; split; intro H; try reflexivity; try discriminate.
  assert (Hin : In w (nodup pystr_eq_dec (w :: l))) by (apply nodup_In; now left).
  rewrite H in Hin. destruct Hin.
Qed.

Lemma Qnat_quotient_one : forall a b,
    (0 < b)%nat -> (Qnat a / Qnat b == 1 <-> a = b).
Proof.
  intros a b Hb. unfold Qnat.
  assert (Hnz : ~ inject_Z (Z.of_nat b) == 0).
  { intro E. apply (inject_Z_injective (Z.of_nat b) 0) in E. lia. }
  split.
  - intro H. apply (Qmult_inj_r _ _ (inject_Z (Z.of_nat b)) Hnz) in H.
    rewrite Qmult_1_l in H. unfold Qdiv in H.
    rewrite <- Qmult_assoc, (Qmult_comm (/ _)), Qmult_inv_r, Qmult_1_r in H
      by exact Hnz.
    apply (proj1 (inject_Z_injective _ _)) in H. lia.
  - intros ->. unfold Qdiv. now apply Qmult_inv_r.
Qed.

(** X4: [_calculate_text_similarity] lies between 0 and 1, does
    not depend on the order of the two texts, and is 1 exactly when the
    two texts have the same words (as sets, so also when neither has
    any). *)
Theorem text_similarity_jaccard :
  forall text1 text2,
    0 <= _calculate_text_similarity text1 text2
    /\ _calculate_text_similarity text1 text2 <= 1
    /\ _calculate_text_similarity text1 text2
       = _calculate_text_similarity text2 text1
    /\ (_calculate_text_similarity text1 text2 == 1 <-> same_words text1 text2).
Proof.
  forget_parameters.
  intros text1 text2.
  destruct (split_ws text1) as [|w1 ws1] eqn:E1.
  { (* no word in the first text *)
    unfold _calculate_text_similarity, same_words. rewrite E1. simpl nodup.
    destruct (nodup pystr_eq_dec (split_ws text2)) as [|b l2] eqn:E2.
    - apply (proj1 (nodup_nil _)) in E2. rewrite E2.
      repeat split; try discriminate; tauto.
    - assert (Hin : In b (split_ws text2)).
      { apply (nodup_In pystr_eq_dec). rewrite E2. now left. }
      repeat split; try discriminate.
      intro H. exfalso. apply (H b). exact Hin. }
  destruct (split_ws text2) as [|w2 ws2] eqn:E2.
  { unfold _calculate_text_similarity, same_words. rewrite E1, E2. simpl (nodup _ []).
    destruct (nodup pystr_eq_dec (w1 :: ws1)) as [|a l1] eqn:E.
    - apply (proj1 (nodup_nil _)) in E. discriminate.
    - repeat split; try discriminate.
      intro H. exfalso. apply (H w1). now left. }
  assert (N1 : split_ws text1 <> []) by (rewrite E1; discriminate).
  assert (N2 : split_ws text2 <> []) by (rewrite E2; discriminate).
  rewrite (@similarity_quotient text1 text2 N1 N2), (@similarity_quotient text2 text1 N2 N1).
  unfold same_words. clear E1 E2 w1 ws1 w2 ws2.
  set (words1 := nodup pystr_eq_dec (split_ws text1)).
  set (words2 := nodup pystr_eq_dec (split_ws text2)).
  set (both := filter (fun w => if in_dec pystr_eq_dec w words2 then true else false)
                      words1).
  set (any := nodup pystr_eq_dec (words1 ++ words2)).
  assert (D1 : NoDup words1) by apply NoDup_nodup.
  assert (D2 : NoDup words2) by apply NoDup_nodup.
  assert (Dboth : NoDup both) by now apply NoDup_filter.
  assert (Dany : NoDup any) by apply NoDup_nodup.
  assert (Hany : forall w, In w any <-> In w words1 \/ In w words2).
  { intro w. unfold any. rewrite nodup_In. apply in_app_iff. }
  assert (Hboth : forall w, In w both <-> In w words1 /\ In w words2)
    by (intro w; apply in_both).
  assert (Hw1 : forall w, In w words1 <-> In w (split_ws text1))
    by (intro w; apply nodup_In).
  assert (Hw2 : forall w, In w words2 <-> In w (split_ws text2))
    by (intro w; apply nodup_In).
  assert (Hle : (List.length both <= List.length any)%nat).
  { apply NoDup_incl_length; [exact Dboth|].
    intros w Hw. apply Hany. apply Hboth in Hw. tauto. }
  assert (Hpos : (0 < List.length any)%nat).
  { destruct (split_ws text1) as [|w ws] eqn:E; [congruence|].
    assert (Hin : In w any). { apply Hany. left. apply Hw1. now left. }
    destruct any; [destruct Hin | simpl; lia]. }
  split; [now apply Qnat_ratio_range|]. split; [now apply Qnat_ratio_range|].
  split.
  - f_equal; f_equal; apply same_length;
      try apply NoDup_nodup; try (now apply NoDup_filter).
    + intro w. rewrite Hboth, in_both. tauto.
    + intro w. rewrite Hany, nodup_In, in_app_iff. tauto.
  - rewrite Qnat_quotient_one by exact Hpos. split.
    + intros Hlen w. rewrite <- Hw1, <- Hw2.
      assert (Hincl : incl any both).
      { apply NoDup_length_incl; [exact Dboth | lia |].
        intros x Hx. apply Hany. apply Hboth in Hx. tauto. }
      split; intro Hw.
      * assert (Hx : In w any) by (apply Hany; now left).
        apply Hincl, Hboth in Hx. tauto.
      * assert (Hx : In w any) by (apply Hany; now right).
        apply Hincl, Hboth in Hx. tauto.
    + intro Hsame. apply same_length; [exact Dboth | exact Dany|].
      intro w. rewrite Hboth, Hany, Hw1, Hw2. specialize (Hsame w). tauto.
Qed.


(* ================================================================== *)
(** ** The suspicion score and the verdict without the services *)

Lemma similarity_range : forall text1 text2,
    0 <= _calculate_text_similarity text1 text2
    /\ _calculate_text_similarity text1 text2 <= 1.
Proof.
  forget_parameters.
  intros text1 text2. unfold _calculate_text_similarity.
  set (words1 := nodup pystr_eq_dec (split_ws text1)).
  set (words2 := nodup pystr_eq_dec (split_ws text2)).
  destruct words1 as [|a l1] eqn:E1; destruct words2 as [|b l2] eqn:E2;
    try (split; discriminate).
  rewrite <- E1, <- E2. apply Qnat_ratio_range.
  - apply NoDup_incl_length; [apply NoDup_filter, NoDup_nodup|].
    intros w Hw. apply nodup_In, in_app_iff. apply filter_In in Hw. tauto.
  - assert (Hin : In a (nodup pystr_eq_dec (words1 ++ words2))).
    { apply nodup_In, in_app_iff. left. rewrite E1. now left. }
    destruct (nodup pystr_eq_dec (words1 ++ words2)); [destruct Hin | simpl; lia].
Qed.

Lemma max_or_zero_range : forall l,
    (forall x, In x l -> 0 <= x /\ x <= 1) ->
    0 <= max_or_zero l /\ max_or_zero l <= 1.
Proof.
  intros [|x rest] H; [split; discriminate|]. unfold max_or_zero.
  assert (Hx : 0 <= x /\ x <= 1) by (apply H; now left).
  assert (Hrest : forall y, In y rest -> 0 <= y /\ y <= 1)
    by (intros y Hy; apply H; now right).
  clear H. revert x Hx. induction rest as [|y rest IH]; intros x Hx; simpl.
  - exact Hx.
  - apply IH.
    + intros z Hz. apply Hrest. now right.
    + destruct (Qltb x y); [apply Hrest; now left | exact Hx].
Qed.

(** The score for each outcome of the four checks. *)
Lemma score_by_flags : forall quotes phrases formatting citation : bool,
    let s := min_one
               (let s := 0.0 in
                let s := if quotes then s + 0.3 else s in
                let s := if phrases then s + 0.4 else s in
                let s := if formatting then s + 0.2 else s in
                if citation then s + 0.1 else s) in
    0 <= s /\ s <= 1
    /\ (s == 0 <-> quotes = false /\ phrases = false
                   /\ formatting = false /\ citation = false)
    /\ (~ s == 0 -> 0.1 <= s)
    /\ (Qltb 0.6 s = true -> phrases = true)
    /\ (phrases = true -> quotes = true -> Qltb 0.6 s = true)
    /\ Qltb (s * 100) 0.0 = false
    /\ (~ s == 0 -> 1 < s * 100)
    /\ mean [0.3; 0.3; if Qltb 0.6 s then 0.8 else if Qltb 0.3 s then 0.6 else 0.4]
       < 0.5.
Proof.
  forget_parameters.
  intros [|] [|] [|] [|]; vm_compute;
    (repeat split; try discriminate; try tauto; try congruence;
     try (intros (? & ? & ? & ?); discriminate);
     try (intro H; exfalso; apply H; reflexivity)).
Qed.

Lemma score_of_patterns : forall text reference_texts,
    let r := detect_pattern_based_plagiarism text reference_texts in
    let found := patterns_detected r in
    suspicion_score r
    = min_one
        (let s := 0.0 in
         let s := if quotes_detected (excessive_quotes found) then s + 0.3 else s in
         let s := if phrases_detected (repetitive_phrases found) then s + 0.4 else s in
         let s := if formatting_detected (unusual_formatting found) then s + 0.2 else s in
         if citation_detected (citation_inconsistencies found) then s + 0.1 else s).
Proof. reflexivity. Qed.

(** X5: [detect_pattern_based_plagiarism]: the suspicion score lies
    between 0 and 1, is 0 exactly when none of the four checks reports
    detected and is at least 0.1 otherwise; the highest similarity lies
    between 0 and 1 and is 0 when there are no reference texts. *)
Theorem suspicion_score_range :
  forall text reference_texts,
    let r := detect_pattern_based_plagiarism text reference_texts in
    let found := patterns_detected r in
    0 <= suspicion_score r /\ suspicion_score r <= 1
    /\ (suspicion_score r == 0
        <-> quotes_detected (excessive_quotes found) = false
            /\ phrases_detected (repetitive_phrases found) = false
            /\ formatting_detected (unusual_formatting found) = false
            /\ citation_detected (citation_inconsistencies found) = false)
    /\ (~ suspicion_score r == 0 -> 0.1 <= suspicion_score r)
    /\ 0 <= max_similarity r /\ max_similarity r <= 1
    /\ (reference_texts = None \/ reference_texts = Some [] ->
        max_similarity r = 0.0 /\ reference_similarities r = []).
Proof.
  intros text refs r found. subst r found. rewrite score_of_patterns.
  set (found := patterns_detected (detect_pattern_based_plagiarism text refs)).
  destruct (score_by_flags (quotes_detected (excessive_quotes found))
              (phrases_detected (repetitive_phrases found))
              (formatting_detected (unusual_formatting found))
              (citation_detected (citation_inconsistencies found)))
    as (H0 & H1 & Hz & Hnz & _).
  split; [exact H0|]. split; [exact H1|]. split; [exact Hz|]. split; [exact Hnz|].
  assert (Hmax : 0 <= max_similarity (detect_pattern_based_plagiarism text refs)
                 /\ max_similarity (detect_pattern_based_plagiarism text refs) <= 1).
  { unfold detect_pattern_based_plagiarism. cbn [max_similarity].
    apply max_or_zero_range. intros x Hx.
    destruct refs as [refs|]; [|destruct Hx].
    apply in_map_iff in Hx. destruct Hx as (ref_text & <- & _).
    apply similarity_range. }
  split; [apply Hmax|]. split; [apply Hmax|].
  intros [->| ->]; split; reflexivity.
Qed.

Lemma check_without_services : forall ai_result traditional_result text reference_texts,
    succeeded ai_result = false -> succeeded traditional_result = false ->
    let pat := suspicion_score (detect_pattern_based_plagiarism text reference_texts) in
    comprehensive_plagiarism_check ai_result traditional_result text reference_texts
    = Ok (mkPlagiarismResult
            (Qltb 0.6 pat)
            (mean [0.3; 0.3;
                   if Qltb 0.6 pat then 0.8 else if Qltb 0.3 pat then 0.6 else 0.4])
            (VFloat 0.0) (VList []) (VFloat 0.0)
            (if Qltb (pat * 100) 0.0 then py "traditional_plagiarism"
             else py "pattern_based")
            now
            (mkInfo (dict_or_error ai_result) (dict_or_error traditional_result)
               (detect_pattern_based_plagiarism text reference_texts)
               (List.length text) (List.length (split_ws text)))).
Proof.
  intros ai_result trad text refs Hai Htrad pat.
  unfold comprehensive_plagiarism_check. cbv zeta.
  rewrite detect_pattern_succeeds. fold pat.
  assert (Ea : forall key d, field_or ai_result key d = d).
  { intros key d. unfold field_or. destruct ai_result; [|reflexivity].
    now rewrite Hai. }
  assert (Et : forall key d, field_or trad key d = d).
  { intros key d. unfold field_or. destruct trad; [|reflexivity].
    now rewrite Htrad. }
  rewrite !Ea, !Et. clearbody pat. reflexivity.
Qed.


(** X6: when neither network detector succeeded (it raised, or
    its result has no true success flag), [comprehensive_plagiarism_check]
    returns with AI probability 0.0, similarity 0.0, no sources and the
    method pattern_based; the confidence is below 0.5; the text is
    reported plagiarized only if the repeated-phrase check fired, and
    always when both the repeated-phrase and the quotation check fired. *)
Theorem plagiarism_check_without_services :
  forall ai_result traditional_result text reference_texts,
    succeeded ai_result = false -> succeeded traditional_result = false ->
    let found :=
      patterns_detected (detect_pattern_based_plagiarism text reference_texts) in
    exists r,
      comprehensive_plagiarism_check ai_result traditional_result text reference_texts
      = Ok r
      /\ ai_generated_probability r = VFloat 0.0
      /\ similarity_percentage r = VFloat 0.0
      /\ sources_found r = VList []
      /\ detection_method r = py "pattern_based"
      /\ confidence_score r < 0.5
      /\ (is_plagiarized r = true ->
          phrases_detected (repetitive_phrases found) = true)
      /\ (phrases_detected (repetitive_phrases found) = true ->
          quotes_detected (excessive_quotes found) = true ->
          is_plagiarized r = true).
Proof.
  intros ai_result trad text refs Hai Htrad found.
  rewrite (@check_without_services ai_result trad text refs Hai Htrad).
  eexists. split; [reflexivity|].
  cbn [ai_generated_probability similarity_percentage sources_found
       detection_method confidence_score is_plagiarized].
  rewrite score_of_patterns. fold found.
  destruct (score_by_flags (quotes_detected (excessive_quotes found))
              (phrases_detected (repetitive_phrases found))
              (formatting_detected (unusual_formatting found))
              (citation_detected (citation_inconsistencies found)))
    as (_ & _ & _ & _ & Hp & Hpq & Hneg & _ & Hconf).
  repeat (split; [reflexivity|]).
  split; [now rewrite Hneg|]. split; [exact Hconf|]. split; [exact Hp | exact Hpq].
Qed.

Lemma Ok_inj : forall (A : Type) (a b : A), Ok a = Ok b -> a = b.
Proof. intros A a b H. now injection H. Qed.

Lemma method_choice : forall b1 b2 b3 : bool,
    (if b1 && b2 then py "ai_detection"
     else if b3 then py "traditional_plagiarism" else py "pattern_based")
    = py "ai_detection" ->
    b1 = true /\ b2 = true.
Proof.
  intros [|] [|] [|]; simpl; intro H; try (split; reflexivity);
    vm_compute in H; discriminate H.
Qed.

(** X7: [comprehensive_plagiarism_check] compares the AI probability
    with one hundred times the suspicion score: for a probability of at
    most 1 it names ai_detection as the method only when no pattern check
    fired (suspicion score 0) and the probability exceeds the similarity
    percentage. *)
Theorem ai_detection_needs_zero_pattern_score :
  forall ai_result traditional_result text reference_texts r (ai : Q),
    comprehensive_plagiarism_check ai_result traditional_result text reference_texts
    = Ok r ->
    as_number (ai_generated_probability r) = Ok (PFin ai) ->
    ai <= 1 ->
    detection_method r = py "ai_detection" ->
    suspicion_score (detect_pattern_based_plagiarism text reference_texts) == 0
    /\ exists sim, as_number (similarity_percentage r) = Ok sim
                   /\ num_gt (PFin ai) sim = true.
Proof.
  intros ai_result trad text refs r ai H Hai Hle Hmethod.
  unfold comprehensive_plagiarism_check in H. cbv zeta in H.
  rewrite detect_pattern_succeeds in H.
  destruct (as_number (field_or ai_result "ai_probability" (VFloat 0.0)))
    as [a|e] eqn:Ea; cbn [bind] in H; [|discriminate].
  destruct (as_number (field_or trad "similarity_percentage" (VFloat 0.0)))
    as [sim|e] eqn:Es; cbn [bind] in H; [|discriminate].
  apply Ok_inj in H. subst r.
  cbn [ai_generated_probability similarity_percentage detection_method] in Hai, Hmethod |- *.
  rewrite Ea in Hai. injection Hai as ->.
  destruct (@method_choice _ _ _ Hmethod) as (Egt & Ep).
  split; [|now exists sim].
  cbn [num_gt] in Ep. apply Qltb_lt in Ep.
  rewrite score_of_patterns in Ep |- *.
  set (found := patterns_detected (detect_pattern_based_plagiarism text refs)) in *.
  destruct (score_by_flags (quotes_detected (excessive_quotes found))
              (phrases_detected (repetitive_phrases found))
              (formatting_detected (unusual_formatting found))
              (citation_detected (citation_inconsistencies found)))
    as (_ & _ & _ & _ & _ & _ & _ & Hbig & _).
  match goal with
  | |- ?s == 0 => destruct (Qeq_dec s 0) as [E|E]; [exact E|]
  end.
  exfalso. apply Hbig in E.
  apply (Qlt_irrefl 1). eapply Qlt_le_trans; [|exact Hle].
  eapply Qlt_trans; [exact E | exact Ep].
Qed.


(* ================================================================== *)
(** ** The evaluator: further properties *)

(** X8: [_parse_evaluation_response] keeps the response text under
    raw_response whatever the text is, and sets success to true exactly
    when a JSON text was found in the response and [json.loads] decoded
    it; the decoded value is then a JSON object, so the assignment of the
    two keys does not fail. *)
Theorem parse_outcome :
  forall response_text,
    let d := _parse_evaluation_response response_text in
    dict_get (py "raw_response") d = Some (VStr response_text)
    /\ (exists flag, dict_get (py "success") d = Some (VBool flag))
    /\ (dict_get (py "success") d = Some (VBool true)
        <-> exists json_str evaluation,
            extract_json response_text = Ok json_str
            /\ json_loads json_str = Ok (VDict evaluation)
            /\ d = dict_set (py "raw_response") (VStr response_text)
                            (dict_set (py "success") (VBool true) evaluation)).
Proof.
  intros text d. subst d. unfold _parse_evaluation_response.
  destruct (parse_evaluation_try text) as [d|e] eqn:H.
  - destruct (parse_try_success _ H) as (Hs & Hr).
    split; [exact Hr|]. split; [now exists true|].
    split; [intros _ | intros _; exact Hs].
    unfold parse_evaluation_try in H.
    destruct (extract_json text) as [json_str|e] eqn:Ej; simpl in H; [|discriminate].
    destruct (json_loads json_str) as [v|e] eqn:El; simpl in H; [|discriminate].
    destruct (extract_json_braces _ Ej) as (mid & ->).
    destruct (json_loads_object _ El) as (evaluation & ->).
    simpl in H. injection H as <-. now exists (chr "{" :: mid ++ [chr "}"]), evaluation.
  - split; [reflexivity|]. split; [now exists false|].
    split; [discriminate|].
    intros (json_str & evaluation & Ej & El & _). exfalso.
    unfold parse_evaluation_try in H. rewrite Ej in H. simpl in H.
    rewrite El in H. discriminate H.
Qed.

Lemma backend_success_timestamp : forall response_text model,
    dict_get (py "timestamp") (backend_success response_text model)
    = Some (VStr now).
Proof. intros. unfold backend_success. now get_through_set. Qed.

(** X9: [evaluate_answer] chooses the backend from the preferred
    name and the configuration alone.  Under the preference claude with
    an Anthropic client it returns the record of the Claude call, marked
    with the Claude model and the time, and the OpenAI client has no
    influence on the result; under any other preference the Anthropic
    client has none, and with an OpenAI client the record is marked with
    the GPT model. *)
Theorem evaluate_answer_uses_one_backend :
  forall claude gpt primary secondary question student_answer rubric context
         (preferred_model : pystr),
    let run p s :=
      evaluate_answer (mkEvaluator claude gpt p s) question student_answer rubric
                      context (VStr preferred_model) in
    if str_eqb (str_lower preferred_model) (py "claude")
    then forall call,
        primary = Some call ->
        (forall other, run primary other = run primary secondary)
        /\ exists d, run primary secondary = Ok d
                     /\ dict_get (py "model_used") d = Some (VStr claude)
                     /\ dict_get (py "timestamp") d = Some (VStr now)
    else (forall other, run other secondary = run primary secondary)
         /\ forall call,
             secondary = Some call ->
             exists d, run primary secondary = Ok d
                       /\ dict_get (py "model_used") d = Some (VStr gpt)
                       /\ dict_get (py "timestamp") d = Some (VStr now).
Proof.
  intros claude gpt primary secondary q a r c pm run. subst run.
  unfold evaluate_answer. cbn [lower_method bind].
  destruct (str_eqb (str_lower pm) (py "claude")); cbn [andb].
  - intros call ->. cbn [anthropic_client is_configured].
    unfold evaluate_answer_with_claude. cbn [anthropic_client claude_model].
    destruct (call q a r c) as [text|e]; (split; [reflexivity|]);
      eexists; (split; [reflexivity|]).
    + split; [apply backend_success_model | apply backend_success_timestamp].
    + split; reflexivity.
  - split; [reflexivity|]. intros call ->. cbn [openai_client is_configured].
    unfold evaluate_answer_with_gpt. cbn [openai_client gpt_model].
    destruct (call q a r c) as [text|e]; eexists; (split; [reflexivity|]).
    + split; [apply backend_success_model | apply backend_success_timestamp].
    + split; reflexivity.
Qed.

Lemma evaluate_answer_flagged :
  forall self question student_answer rubric context preferred_model d,
    evaluate_answer self question student_answer rubric context preferred_model
    = Ok d ->
    flagged_result d.
Proof.
  intros self q a r c pm d H. unfold evaluate_answer in H.
  destruct (lower_method pm) as [lowered|e]; cbn [bind] in H; [|discriminate].
  assert (Hc : forall x, evaluate_answer_with_claude self q a r c = Ok x ->
                         flagged_result x).
  { intros x Hx. unfold evaluate_answer_with_claude in Hx.
    destruct (anthropic_client self) as [call|]; [|discriminate].
    destruct (call q a r c); injection Hx as <-;
      [apply backend_success_flagged | apply backend_failure_flagged]. }
  assert (Hg : forall x, evaluate_answer_with_gpt self q a r c = Ok x ->
                         flagged_result x).
  { intros x Hx. unfold evaluate_answer_with_gpt in Hx.
    destruct (openai_client self) as [call|]; [|discriminate].
    destruct (call q a r c); injection Hx as <-;
      [apply backend_success_flagged | apply backend_failure_flagged]. }
  destruct (str_eqb lowered (py "claude") && is_configured (anthropic_client self)).
  - destruct (evaluate_answer_with_claude self q a r c) as [x|e] eqn:E.
    + injection H as <-. now apply Hc.
    + destruct (is_configured (openai_client self)); [now apply Hg | discriminate].
  - destruct (is_configured (openai_client self)); [now apply Hg | discriminate].
Qed.

Lemma processed_result_flagged : forall i r,
    (forall d, r = Ok d -> flagged_result d) ->
    flagged_result (processed_result i r).
Proof.
  intros i [d|e] H; simpl.
  - unfold flagged_result. get_through_set. now apply H.
  - right. split; [reflexivity|]. eexists. reflexivity.
Qed.

(** X10: every record that [batch_evaluate_answers] returns carries a
    success flag and, when the flag is false, an error string: also the
    records of requests whose evaluation raised.  When no client is
    configured, every request with a string as preferred model gives the
    failure record of the error raised for the missing client. *)
Theorem batch_results_flagged :
  forall self (requests : list dict),
    (forall d, In d (batch_evaluate_answers self requests) -> flagged_result d)
    /\ (anthropic_client self = None -> openai_client self = None ->
        forall i request name,
          nth_error requests i = Some request ->
          dict_get_default (py "preferred_model") (VStr (py "claude")) request
          = VStr name ->
          nth_error (batch_evaluate_answers self requests) i
          = Some [ (py "success", VBool false);
                   (py "error", VStr (py "No AI client available for evaluation"));
                   (py "request_index", VInt (Z.of_nat i));
                   (py "timestamp", VStr now) ]).
Proof.
  intros self requests. split.
  - intros d Hd. apply In_nth_error in Hd. destruct Hd as (i & Hi).
    rewrite batch_nth in Hi.
    destruct (nth_error requests i) as [request|]; [|discriminate].
    simpl in Hi. injection Hi as <-.
    apply processed_result_flagged. intros d Hd.
    unfold batch_task in Hd. now apply evaluate_answer_flagged in Hd.
  - intros Ha Ho i request name Hi Hname.
    rewrite batch_nth, Hi. simpl. f_equal.
    unfold batch_task, evaluate_answer. rewrite Hname, Ha, Ho. cbn [lower_method bind].
    cbn [is_configured]. rewrite andb_false_r. reflexivity.
Qed.

(* ================================================================== *)
(** ** The points of a generated rubric *)





(* ================================================================== *)
(** ** The rubric in the prompt *)

Lemma format_levels_shape : forall levels,
    (exists lines, format_levels levels = Ok lines)
    <-> forallb is_dict levels = true.
Proof.
  induction levels as [|level rest IH]; simpl.
  - split; [reflexivity | intros _; now exists []].
  - destruct level; simpl;
      try (split; [intros (lines & H); discriminate H | discriminate]).
    rewrite <- IH.
    destruct (format_levels rest) as [lines|e]; simpl.
    + split; intros _; eexists; reflexivity.
    + split; intros (l & H); discriminate H.
Qed.

Lemma format_levels_raises : forall levels e,
    format_levels levels = Raise e ->
    e = AttributeError (py "object has no attribute 'get'").
Proof.
  induction levels as [|level rest IH]; intros e H; simpl in H; [discriminate|].
  destruct level; simpl in H; try (injection H as <-; reflexivity).
  destruct (format_levels rest) as [lines|e']; simpl in H; [discriminate|].
  injection H as <-. now apply IH.
Qed.

Lemma format_criterion_shape : forall i criterion,
    (exists lines, format_criterion i criterion = Ok lines)
    <-> criterion_shape criterion = true.
Proof.
  intros i criterion.
  destruct criterion as [| | | | | | | |d];
    try (simpl; split; [intros (lines & H); discriminate H | discriminate]).
  unfold format_criterion, criterion_shape, levels_shape. cbn [get_method bind].
  set (levels := dict_get_default (py "performance_levels") (VList []) d).
  destruct (truthy levels) eqn:Et; cbn [negb orb].
  - destruct levels as [| | | | | |s|l|d'];
      try (simpl; split; [intros (lines & H); discriminate H | discriminate]).
    + destruct s as [|c s]; [discriminate Et|].
      simpl. split; [intros (lines & H); discriminate H | discriminate].
    + cbn [iterate bind]. rewrite <- format_levels_shape.
      destruct (format_levels l) as [lines|e]; cbn [bind].
      * split; [intros _; now exists lines | intros _; eexists; reflexivity].
      * split; intros (x & H); discriminate H.
    + destruct d' as [|[k v] d']; [discriminate Et|].
      simpl. split; [intros (lines & H); discriminate H | discriminate].
  - split; [reflexivity | intros _; eexists; reflexivity].
Qed.

Lemma format_criterion_raises : forall i criterion e,
    format_criterion i criterion = Raise e ->
    e = AttributeError (py "object has no attribute 'get'")
    \/ e = TypeError (py "object is not iterable").
Proof.
  intros i criterion e H.
  destruct criterion as [| | | | | | | |d];
    try (simpl in H; injection H as <-; now left).
  unfold format_criterion in H. cbn [get_method bind] in H.
  set (levels := dict_get_default (py "performance_levels") (VList []) d) in H.
  destruct (truthy levels); cbn [bind] in H; [|discriminate].
  destruct levels as [| | | | | |s|l|d']; cbn [iterate bind] in H;
    try (injection H as <-; now right).
  - destruct (format_levels (map (fun c => VStr [c]) s)) as [lines|e'] eqn:E;
      cbn [bind] in H; [discriminate|].
    injection H as <-. left. now apply format_levels_raises in E.
  - destruct (format_levels l) as [lines|e'] eqn:E; cbn [bind] in H; [discriminate|].
    injection H as <-. left. now apply format_levels_raises in E.
  - destruct (format_levels (map (fun kv => VStr (fst kv)) d')) as [lines|e'] eqn:E;
      cbn [bind] in H; [discriminate|].
    injection H as <-. left. now apply format_levels_raises in E.
Qed.

Lemma format_criteria_shape : forall criteria i,
    (exists lines, format_criteria i criteria = Ok lines)
    <-> forallb criterion_shape criteria = true.
Proof.
  induction criteria as [|criterion rest IH]; intro i; simpl.
  - split; [reflexivity | intros _; now exists []].
  - rewrite andb_true_iff, <- (format_criterion_shape i), <- (IH (S i)).
    destruct (format_criterion i criterion) as [lines|e]; cbn [bind].
    + destruct (format_criteria (S i) rest) as [more|e]; cbn [bind].
      * split; [intros _; split; eexists; reflexivity | intros _; eexists; reflexivity].
      * split; [intros (x & H); discriminate H | intros (_ & x & H); discriminate H].
    + split; [intros (x & H); discriminate H | intros ((x & H) & _); discriminate H].
Qed.

Lemma format_criteria_raises : forall criteria i e,
    format_criteria i criteria = Raise e ->
    e = AttributeError (py "object has no attribute 'get'")
    \/ e = TypeError (py "object is not iterable").
Proof.
  induction criteria as [|criterion rest IH]; intros i e H; simpl in H; [discriminate|].
  destruct (format_criterion i criterion) as [lines|e'] eqn:E; cbn [bind] in H.
  - destruct (format_criteria (S i) rest) as [more|e''] eqn:E'; cbn [bind] in H;
      [discriminate|].
    injection H as <-. now apply IH in E'.
  - injection H as <-. now apply format_criterion_raises in E.
Qed.

Lemma string_items_shape : forall (A : Type) (f : A -> pystr) (l : list A),
    forallb criterion_shape (map (fun x => VStr (f x)) l) = true <-> l = [].
Proof. intros A f [|x l]; simpl; split; congruence. Qed.

(** X12: [_format_rubric] returns a text exactly for the rubrics of
    the shape above: a rubric that counts as false gets the sentence for
    a missing rubric, and a dict is formatted whatever keys it and its
    criteria and levels lack, the defaults standing in; on every other
    rubric the method raises [AttributeError] or [TypeError]. *)
Theorem format_rubric_accepts :
  forall rubric,
    ((exists text, _format_rubric rubric = Ok text) <-> rubric_shape rubric = true)
    /\ (truthy rubric = false ->
        _format_rubric rubric
        = Ok (py "No specific rubric provided. Use general academic standards."))
    /\ (forall e, _format_rubric rubric = Raise e ->
                  e = AttributeError (py "object has no attribute 'get'")
                  \/ e = TypeError (py "object is not iterable")).
Proof.
  intro rubric. unfold _format_rubric, rubric_shape.
  destruct (truthy rubric) eqn:Et; cbn [negb orb].
  2:{ split; [split; [reflexivity | intros _; eexists; reflexivity]|].
      split; [reflexivity | discriminate]. }
  split; [|split; [discriminate|]].
  - destruct rubric as [| | | | | | | |d];
      try (simpl; split; [intros (x & H); discriminate H | discriminate]).
    unfold format_rubric_lines. cbn [get_method bind].
    set (criteria := dict_get_default (py "criteria") (VList []) d).
    destruct criteria as [| | | | | |s|l|d'];
      try (simpl; split; [intros (x & H); discriminate H | discriminate]).
    + cbn [iterate bind criteria_shape].
      assert (H := format_criteria_shape (map (fun c => VStr [c]) s) 1).
      rewrite (string_items_shape (fun c => [c]) s) in H.
      destruct s as [|c s].
      * split; [reflexivity | intros _; eexists; reflexivity].
      * split; [|discriminate]. intros (x & Hx). exfalso.
        destruct (format_criteria 1 (map (fun c0 => VStr [c0]) (c :: s)))
          as [lines|e]; [|discriminate Hx].
        assert (Hnil : c :: s = []) by (apply H; now exists lines). discriminate Hnil.
    + cbn [iterate bind criteria_shape]. rewrite <- (format_criteria_shape l 1).
      destruct (format_criteria 1 l) as [lines|e]; cbn [bind].
      * split; intros _; eexists; reflexivity.
      * split; intros (x & H); discriminate H.
    + cbn [iterate bind criteria_shape].
      assert (H := format_criteria_shape (map (fun kv => VStr (fst kv)) d') 1).
      rewrite (string_items_shape (fun kv : pystr * value => fst kv) d') in H.
      destruct d' as [|kv d'].
      * split; [reflexivity | intros _; eexists; reflexivity].
      * split; [|discriminate]. intros (x & Hx). exfalso.
        destruct (format_criteria 1 (map (fun kv0 => VStr (fst kv0)) (kv :: d')))
          as [lines|e]; [|discriminate Hx].
        assert (Hnil : kv :: d' = []) by (apply H; now exists lines). discriminate Hnil.
  - intros e H.
    destruct rubric as [| | | | | | | |d];
      try (simpl in H; injection H as <-; now left).
    unfold format_rubric_lines in H. cbn [get_method bind] in H.
    destruct (iterate (dict_get_default (py "criteria") (VList []) d))
      as [items|e'] eqn:Ei; cbn [bind] in H.
    + destruct (format_criteria 1 items) as [lines|e''] eqn:E; cbn [bind] in H;
        [discriminate|].
      injection H as <-. now apply format_criteria_raises in E.
    + injection H as <-. right.
      destruct (dict_get_default (py "criteria") (VList []) d); simpl in Ei;
        try discriminate Ei; now injection Ei as <-.
Qed.






(* ================================================================== *)
(** ** The sources of a scan *)

Lemma process_source_shape : forall source,
    source_shape source = true ->
    exists d intro,
      source = VDict d
      /\ dict_get_default (py "introduction") (VDict []) d = VDict intro
      /\ process_source source
         = Ok (VDict [ (py "url", dict_get_default (py "url") (VStr []) d);
                       (py "title",
                        dict_get_default (py "title") (VStr (py "Unknown Source")) d);
                       (py "similarity_percentage",
                        dict_get_default (py "matchedWords") (VInt 0) d);
                       (py "matched_words",
                        dict_get_default (py "words") (VInt 0) intro);
                       (py "type",
                        dict_get_default (py "type") (VStr (py "web")) d) ]).
Proof.
  intros [| | | | | | | |d] H; try discriminate H.
  unfold source_shape in H.
  destruct (dict_get_default (py "introduction") (VDict []) d) as [| | | | | | | |intro]
    eqn:E; try discriminate H.
  exists d, intro. split; [reflexivity|]. split; [exact E|].
  unfold process_source. cbn [get_method bind]. rewrite E. reflexivity.
Qed.

Lemma process_sources_entries : forall sources,
    forallb source_shape sources = true ->
    exists entries,
      process_sources sources = Ok entries
      /\ List.length entries = List.length sources
      /\ forall i source,
          nth_error sources i = Some source ->
          exists entry,
            nth_error entries i = Some entry /\ process_source source = Ok entry.
Proof.
  induction sources as [|source rest IH]; intro H.
  - exists []. split; [reflexivity|]. split; [reflexivity|].
    intros [|i] s Hs; discriminate Hs.
  - simpl in H. apply andb_true_iff in H. destruct H as (Hs & Hrest).
    destruct (process_source_shape _ Hs) as (d & intro & _ & _ & Ep).
    destruct (IH Hrest) as (entries & Ee & Hlen & Hnth).
    cbn [process_sources]. rewrite Ep, Ee. cbn [bind].
    eexists. split; [reflexivity|]. split; [simpl; lia|].
    intros [|i] s Hi.
    + injection Hi as <-. eexists. split; [reflexivity | exact Ep].
    + simpl in Hi. destruct (Hnth i s Hi) as (entry & H1 & H2).
      exists entry. split; [exact H1 | exact H2].
Qed.

(** X14: [_process_copyleaks_sources] on a list whose first ten
    sources are dicts (with a dict as introduction, if any) returns one
    entry for each of the first ten sources, in their order, and does not
    look at the others; the entry takes similarity_percentage from
    matchedWords and matched_words from the words of the introduction,
    and a missing key gets its default. *)
Theorem process_copyleaks_sources_top_ten :
  forall sources,
    forallb source_shape (firstn 10 sources) = true ->
    exists entries,
      _process_copyleaks_sources (VList sources) = Ok (VList entries)
      /\ List.length entries = Nat.min 10 (List.length sources)
      /\ ((10 <= List.length sources)%nat ->
          forall others,
            _process_copyleaks_sources (VList (firstn 10 sources ++ others))
            = Ok (VList entries))
      /\ forall i d,
          (i < 10)%nat ->
          nth_error sources i = Some (VDict d) ->
          exists intro,
            dict_get_default (py "introduction") (VDict []) d = VDict intro
            /\ nth_error entries i
               = Some (VDict
                         [ (py "url", dict_get_default (py "url") (VStr []) d);
                           (py "title",
                            dict_get_default (py "title")
                                             (VStr (py "Unknown Source")) d);
                           (py "similarity_percentage",
                            dict_get_default (py "matchedWords") (VInt 0) d);
                           (py "matched_words",
                            dict_get_default (py "words") (VInt 0) intro);
                           (py "type",
                            dict_get_default (py "type") (VStr (py "web")) d) ]).
Proof.
  intros sources H.
  destruct (process_sources_entries _ H) as (entries & Ee & Hlen & Hnth).
  exists entries. split; [|split; [|split]].
  - unfold _process_copyleaks_sources. cbn [slice_first iterate bind].
    now rewrite Ee.
  - rewrite Hlen. apply length_firstn.
  - intros Hge others. unfold _process_copyleaks_sources.
    cbn [slice_first iterate bind].
    rewrite firstn_app, firstn_firstn, length_firstn.
    replace (10 - Nat.min 10 (List.length sources))%nat with 0%nat by lia.
    rewrite Nat.min_id. simpl (firstn 0 others). rewrite app_nil_r.
    now rewrite Ee.
  - intros i d Hi Hs.
    assert (Hs' : nth_error (firstn 10 sources) i = Some (VDict d)).
    { rewrite nth_error_firstn. destruct (Nat.ltb_spec i 10); [exact Hs | lia]. }
    destruct (Hnth i _ Hs') as (entry & H1 & H2).
    assert (Hshape : source_shape (VDict d) = true).
    { rewrite forallb_forall in H. apply H. eapply nth_error_In. exact Hs'. }
    destruct (process_source_shape _ Hshape) as (d' & intro & Ed & Ei & Ep).
    injection Ed as <-. exists intro. split; [exact Ei|].
    rewrite H1. f_equal. rewrite Ep in H2. now injection H2 as <-.
Qed.


(* ================================================================== *)
(** ** The Base64 text of a document *)

Ltac Zify.zify_post_hook ::= Z.to_euclidean_division_equations.

Lemma utf8_bytes_length : forall c,
    (1 <= List.length (utf8_bytes c) <= 4)%nat.
Proof.
  forget_parameters.
  intro c. unfold utf8_bytes.
  destruct (c <? 128)%N, (c <? 2048)%N, (c <? 65536)%N; simpl; lia.
Qed.

Lemma utf8_bytes_range : forall c,
    is_code_point c -> Forall (fun b => (b < 256)%N) (utf8_bytes c).
Proof.
  forget_parameters.
  intros c Hc. unfold is_code_point in Hc. unfold utf8_bytes.
  destruct (N.ltb_spec c 128); [|destruct (N.ltb_spec c 2048);
                                  [|destruct (N.ltb_spec c 65536)]];
    repeat constructor; lia.
Qed.

Lemma utf8_decode_bytes : forall c rest,
    is_code_point c -> utf8_decode_char (utf8_bytes c ++ rest) = Some (c, rest).
Proof.
  forget_parameters.
  intros c rest Hc. unfold is_code_point in Hc. unfold utf8_bytes.
  destruct (N.ltb_spec c 128) as [H1|H1].
  { simpl. destruct (N.ltb_spec c 128); [reflexivity | lia]. }
  destruct (N.ltb_spec c 2048) as [H2|H2].
  { cbn [app utf8_decode_char].
    destruct (N.ltb_spec (192 + c / 64) 128); [lia|].
    destruct (N.ltb_spec (192 + c / 64) 224); [|lia].
    do 2 f_equal. lia. }
  destruct (N.ltb_spec c 65536) as [H3|H3].
  { cbn [app utf8_decode_char].
    destruct (N.ltb_spec (224 + c / 4096) 128); [lia|].
    destruct (N.ltb_spec (224 + c / 4096) 224); [lia|].
    destruct (N.ltb_spec (224 + c / 4096) 240); [|lia].
    do 2 f_equal. lia. }
  cbn [app utf8_decode_char].
  destruct (N.ltb_spec (240 + c / 262144) 128); [lia|].
  destruct (N.ltb_spec (240 + c / 262144) 224); [lia|].
  destruct (N.ltb_spec (240 + c / 262144) 240); [lia|].
  do 2 f_equal. lia.
Qed.

Lemma utf8_encode_outcome : forall s,
    match utf8_encode s with
    | Ok bytes =>
        (forall c, In c s -> is_surrogate c = false)
        /\ (List.length s <= List.length bytes <= 4 * List.length s)%nat
        /\ (Forall is_code_point s -> Forall (fun b => (b < 256)%N) bytes)
    | Raise _ => exists c, In c s /\ is_surrogate c = true
    end.
Proof.
  forget_parameters.
  induction s as [|c s IH]; simpl.
  - split; [intros c []|]. split; [lia | constructor].
  - destruct (is_surrogate c) eqn:Ec.
    + exists c. split; [now left | exact Ec].
    + destruct (utf8_encode s) as [bytes|e]; cbn [bind].
      * destruct IH as (Hs & Hlen & Hrange). split; [|split].
        -- intros x [<-|Hx]; [exact Ec | now apply Hs].
        -- rewrite length_app. pose proof (utf8_bytes_length c). lia.
        -- intro H. inversion H; subst. apply Forall_app. split.
           ++ now apply utf8_bytes_range.
           ++ now apply Hrange.
      * destruct IH as (x & Hx & Es). exists x. split; [now right | exact Es].
Qed.

Lemma utf8_encode_injective : forall s1 s2 bytes,
    Forall is_code_point s1 -> Forall is_code_point s2 ->
    utf8_encode s1 = Ok bytes -> utf8_encode s2 = Ok bytes -> s1 = s2.
Proof.
  forget_parameters.
  induction s1 as [|c1 s1 IH]; intros s2 bytes H1 H2 E1 E2.
  - simpl in E1. injection E1 as <-.
    destruct s2 as [|c2 s2]; [reflexivity|]. exfalso. simpl in E2.
    destruct (is_surrogate c2); [discriminate|].
    destruct (utf8_encode s2) as [r2|e]; cbn [bind] in E2; [|discriminate].
    injection E2 as E2. pose proof (utf8_bytes_length c2) as Hl.
    apply (f_equal (@List.length N)) in E2. rewrite length_app in E2. simpl in E2. lia.
  - simpl in E1. destruct (is_surrogate c1); [discriminate|].
    destruct (utf8_encode s1) as [r1|e] eqn:Er1; cbn [bind] in E1; [|discriminate].
    injection E1 as <-.
    destruct s2 as [|c2 s2].
    + exfalso. simpl in E2. injection E2 as E2.
      pose proof (utf8_bytes_length c1) as Hl.
      apply (f_equal (@List.length N)) in E2. rewrite length_app in E2. simpl in E2. lia.
    + simpl in E2. destruct (is_surrogate c2); [discriminate|].
      destruct (utf8_encode s2) as [r2|e] eqn:Er2; cbn [bind] in E2; [|discriminate].
      injection E2 as E2.
      inversion H1 as [|? ? Hc1 Hs1]; subst. inversion H2 as [|? ? Hc2 Hs2]; subst.
      assert (D1 := utf8_decode_bytes r1 Hc1).
      assert (D2 := utf8_decode_bytes r2 Hc2).
      rewrite E2 in D2. rewrite D1 in D2. injection D2 as -> ->.
      f_equal. eapply IH; eauto.
Qed.

Lemma b64_char_index : forall i,
    (i < 64)%N ->
    b64_index (b64_char i) = i /\ b64_char i <> b64_pad /\ In (b64_char i) b64_alphabet.
Proof.
  forget_parameters.
  intros i Hi.
  assert (H : forallb (fun i => N.eqb (b64_index (b64_char i)) i
                                && negb (N.eqb (b64_char i) b64_pad)
                                && existsb (N.eqb (b64_char i)) b64_alphabet)
                      (map N.of_nat (seq 0 64)) = true)
    by (vm_compute; reflexivity).
  rewrite forallb_forall in H. specialize (H i).
  assert (Hin : In i (map N.of_nat (seq 0 64))).
  { apply in_map_iff. exists (N.to_nat i). split; [lia|]. apply in_seq. lia. }
  apply H in Hin. apply andb_true_iff in Hin. destruct Hin as (Hin & Hex).
  apply andb_true_iff in Hin. destruct Hin as (Hidx & Hpad).
  split; [now apply N.eqb_eq|]. split.
  - intro E. rewrite E, N.eqb_refl in Hpad. discriminate.
  - apply existsb_exists in Hex. destruct Hex as (x & Hx & Ex).
    apply N.eqb_eq in Ex. now subst.
Qed.

Lemma three_at_a_time : forall (A : Type) (P : list A -> Prop),
    P [] -> (forall a, P [a]) -> (forall a b, P [a; b]) ->
    (forall a b c rest, P rest -> P (a :: b :: c :: rest)) ->
    forall l, P l.
Proof.
  intros A P H0 H1 H2 H3.
  assert (H : forall l, P l /\ (forall a, P (a :: l)) /\ (forall a b, P (a :: b :: l))).
  { induction l as [|x l (IH0 & IH1 & IH2)].
    - auto.
    - split; [apply IH1|]. split; [intro a; apply IH2|].
      intros a b. now apply H3. }
  intro l. apply H.
Qed.

Lemma b64encode_length : forall bytes,
    exists groups,
      (List.length bytes <= 3 * groups <= List.length bytes + 2)%nat
      /\ List.length (b64encode bytes) = (4 * groups)%nat.
Proof.
  forget_parameters.
  induction bytes as [| a | a b | a b c rest (groups & Hg & Hl)] using three_at_a_time.
  - exists 0%nat. simpl. lia.
  - exists 1%nat. simpl. lia.
  - exists 1%nat. simpl. lia.
  - exists (S groups). cbn [b64encode List.length]. lia.
Qed.

Lemma b64encode_alphabet : forall bytes,
    Forall (fun b => (b < 256)%N) bytes ->
    Forall (fun c => In c b64_alphabet \/ c = b64_pad) (b64encode bytes).
Proof.
  forget_parameters.
  assert (Hchar : forall i, (i < 64)%N ->
                            In (b64_char i) b64_alphabet \/ b64_char i = b64_pad).
  { intros i Hi. left. now apply b64_char_index. }
  assert (Hpad : In b64_pad b64_alphabet \/ b64_pad = b64_pad) by now right.
  induction bytes as [| a | a b | a b c rest IH] using three_at_a_time; intro H.
  - constructor.
  - inversion H as [|? ? Ha _]; subst. cbn [b64encode].
    constructor; [apply Hchar; lia|]. constructor; [apply Hchar; lia|].
    constructor; [exact Hpad|]. constructor; [exact Hpad|]. constructor.
  - inversion H as [|? ? Ha H']; subst. inversion H' as [|? ? Hb _]; subst.
    cbn [b64encode].
    constructor; [apply Hchar; lia|]. constructor; [apply Hchar; lia|].
    constructor; [apply Hchar; lia|]. constructor; [exact Hpad|]. constructor.
  - inversion H as [|? ? Ha H']; subst. inversion H' as [|? ? Hb H'']; subst.
    inversion H'' as [|? ? Hc Hrest]; subst. cbn [b64encode].
    constructor; [apply Hchar; lia|]. constructor; [apply Hchar; lia|].
    constructor; [apply Hchar; lia|]. constructor; [apply Hchar; lia|].
    now apply IH.
Qed.

Lemma b64decode_encode : forall bytes,
    Forall (fun b => (b < 256)%N) bytes -> b64decode (b64encode bytes) = bytes.
Proof.
  forget_parameters.
  induction bytes as [| a | a b | a b c rest IH] using three_at_a_time; intro H.
  - reflexivity.
  - inversion H as [|? ? Ha _]; subst. cbn [b64encode b64decode].
    rewrite N.eqb_refl.
    destruct (@b64_char_index (a / 4)) as (-> & _); [lia|].
    destruct (@b64_char_index (a mod 4 * 16)) as (-> & _); [lia|].
    f_equal. lia.
  - inversion H as [|? ? Ha H']; subst. inversion H' as [|? ? Hb _]; subst.
    cbn [b64encode b64decode]. rewrite N.eqb_refl.
    destruct (@b64_char_index (a / 4)) as (-> & _); [lia|].
    destruct (@b64_char_index (a mod 4 * 16 + b / 16)) as (-> & _); [lia|].
    destruct (@b64_char_index (b mod 16 * 4)) as (-> & Hp & _); [lia|].
    apply N.eqb_neq in Hp. rewrite Hp.
    f_equal; [lia|]. f_equal. lia.
  - inversion H as [|? ? Ha H']; subst. inversion H' as [|? ? Hb H'']; subst.
    inversion H'' as [|? ? Hc Hrest]; subst.
    cbn [b64encode b64decode].
    destruct (@b64_char_index (a / 4)) as (-> & _); [lia|].
    destruct (@b64_char_index (a mod 4 * 16 + b / 16)) as (-> & _); [lia|].
    destruct (@b64_char_index (b mod 16 * 4 + c / 64)) as (-> & Hp3 & _); [lia|].
    destruct (@b64_char_index (c mod 64)) as (-> & Hp4 & _); [lia|].
    apply N.eqb_neq in Hp3, Hp4. rewrite Hp3, Hp4.
    rewrite (IH Hrest).
    f_equal; [lia|]. f_equal; [lia|]. f_equal. lia.
Qed.

(** X15: [_encode_text_to_base64] raises exactly when the text has a
    surrogate code point.  Otherwise the result is made of letters of
    the Base64 alphabet and padding, four for every group of three bytes
    of the UTF-8 form of the text, which has between one and four bytes
    for each character. *)
Theorem encode_text_to_base64_outcome :
  forall text,
    Forall is_code_point text ->
    match _encode_text_to_base64 text with
    | Raise _ => exists c, In c text /\ is_surrogate c = true
    | Ok encoded =>
        (forall c, In c text -> is_surrogate c = false)
        /\ Forall (fun c => In c b64_alphabet \/ c = b64_pad) encoded
        /\ exists bytes groups,
            utf8_encode text = Ok bytes
            /\ (List.length text <= List.length bytes <= 4 * List.length text)%nat
            /\ (List.length bytes <= 3 * groups <= List.length bytes + 2)%nat
            /\ List.length encoded = (4 * groups)%nat
    end.
Proof.
  forget_parameters.
  intros text Hvalid. unfold _encode_text_to_base64.
  pose proof (utf8_encode_outcome text) as H.
  destruct (utf8_encode text) as [bytes|e]; cbn [bind]; [|exact H].
  destruct H as (Hs & Hlen & Hrange). split; [exact Hs|]. split.
  - apply b64encode_alphabet. now apply Hrange.
  - destruct (b64encode_length bytes) as (groups & Hg & Hl).
    exists bytes, groups. auto.
Qed.

(** X16: [_encode_text_to_base64] loses nothing: two texts with
    the same Base64 form are the same text. *)
Theorem encode_text_to_base64_injective :
  forall text1 text2 encoded,
    Forall is_code_point text1 -> Forall is_code_point text2 ->
    _encode_text_to_base64 text1 = Ok encoded ->
    _encode_text_to_base64 text2 = Ok encoded ->
    text1 = text2.
Proof.
  forget_parameters.
  intros text1 text2 encoded H1 H2 E1 E2. unfold _encode_text_to_base64 in E1, E2.
  pose proof (utf8_encode_outcome text1) as O1.
  pose proof (utf8_encode_outcome text2) as O2.
  destruct (utf8_encode text1) as [bytes1|e] eqn:U1; cbn [bind] in E1; [|discriminate].
  destruct (utf8_encode text2) as [bytes2|e] eqn:U2; cbn [bind] in E2; [|discriminate].
  destruct O1 as (_ & _ & R1). destruct O2 as (_ & _ & R2).
  injection E1 as E1. injection E2 as E2.
  assert (Hb : bytes1 = bytes2).
  { rewrite <- (b64decode_encode (R1 H1)), <- (b64decode_encode (R2 H2)).
    now rewrite E1, E2. }
  subst bytes2. eapply utf8_encode_injective; eauto.
Qed.

Ltac Zify.zify_post_hook ::= idtac.


(* ================================================================== *)
(** ** The network detectors and their cache *)

Lemma cache_get_set : forall k k' entry c,
    cache_get k (cache_set k' entry c)
    = if str_eqb k k' then Some entry else cache_get k c.
Proof.
  intros k k' entry. induction c as [|[k0 e0] c IH]; simpl.
  - reflexivity.
  - destruct (str_eqb k' k0) eqn:E0; simpl.
    + apply str_eqb_eq in E0. subst k0.
      destruct (str_eqb k k'); reflexivity.
    + destruct (str_eqb k k0) eqn:E1.
      * apply str_eqb_eq in E1. subst k0.
        destruct (str_eqb k k') eqn:E2; [|reflexivity].
        apply str_eqb_eq in E2. subst k'. rewrite str_eqb_refl in E0. discriminate.
      * exact IH.
Qed.


Lemma cached_result_get : forall key c1 c2 clock,
    cache_get key c1 = cache_get key c2 ->
    cached_result key c1 clock = cached_result key c2 clock.
Proof. intros key c1 c2 clock H. unfold cached_result. now rewrite H. Qed.

Lemma cached_result_ok : forall key c clock d,
    cache_ok c -> cached_result key c clock = Ok (Some d) ->
    dict_get (py "success") d = Some (VBool true).
Proof.
  intros key c clock d Hok H. unfold cached_result in H.
  destruct (cache_get key c) as [entry|] eqn:E; [|discriminate].
  destruct (_is_cache_valid entry clock) as [[|]|e]; simpl in H; try discriminate.
  injection H as <-. eapply Hok. exact E.
Qed.

Lemma cache_ok_set : forall key d c,
    cache_ok c -> dict_get (py "success") d = Some (VBool true) ->
    cache_ok (cache_set key (mkEntry d now) c).
Proof.
  intros key d c Hok Hd k entry H. rewrite cache_get_set in H.
  destruct (str_eqb k key); [injection H as <-; exact Hd | eapply Hok; exact H].
Qed.

Lemma ai_processed_success : forall reply d,
    ai_processed_result reply = Ok d ->
    dict_get (py "success") d = Some (VBool true).
Proof.
  intros reply d H. unfold ai_processed_result in H.
  repeat match type of H with
         | bind ?r _ = _ => destruct r; cbn [bind] in H; [|discriminate]
         end.
  now injection H as <-.
Qed.

Lemma traditional_processed_success : forall scan_id reply d,
    traditional_processed_result scan_id reply = Ok d ->
    dict_get (py "success") d = Some (VBool true).
Proof.
  intros scan_id reply d H. unfold traditional_processed_result in H.
  repeat match type of H with
         | bind ?r _ = _ => destruct r; cbn [bind] in H; [|discriminate]
         end.
  now injection H as <-.
Qed.

(** What a call of [detect_ai_generated_content] does to the cache and
    what it reads of it. *)
Lemma detect_ai_update : forall self net clock text c,
    exists update,
      (forall k entry, update = Some (k, entry) ->
                       (exists h, k = py "gptzero_" ++ h)
                       /\ fst (detect_ai_generated_content self net clock text c)
                          = Ok (ce_result entry)
                       /\ ce_timestamp entry = now
                       /\ dict_get (py "success") (ce_result entry) = Some (VBool true))
      /\ forall c2,
          (forall h, cache_get (py "gptzero_" ++ h) c2
                     = cache_get (py "gptzero_" ++ h) c) ->
          detect_ai_generated_content self net clock text c2
          = (fst (detect_ai_generated_content self net clock text c),
             apply_update update c2).
Proof.
  intros self net clock text c. unfold detect_ai_generated_content.
  destruct (given (gptzero_api_key self)) as [api_key|];
    [|exists None; split; [discriminate | reflexivity]].
  destruct (_generate_text_hash text) as [text_hash|e];
    [|exists None; split; [discriminate | reflexivity]].
  cbv zeta.
  assert (Hc : forall c2,
             (forall h, cache_get (py "gptzero_" ++ h) c2
                        = cache_get (py "gptzero_" ++ h) c) ->
             cached_result (py "gptzero_" ++ text_hash) c2 clock
             = cached_result (py "gptzero_" ++ text_hash) c clock).
  { intros c2 H. apply cached_result_get, H. }
  destruct (cached_result (py "gptzero_" ++ text_hash) c clock) as [[cached|]|e] eqn:Ec.
  - exists None. split; [discriminate|]. intros c2 H. now rewrite (Hc c2 H).
  - destruct (gptzero_predict net api_key text) as [response|e].
    + destruct (status_code response =? 200)%Z.
      * destruct (bind (json response) (fun reply => ai_processed_result reply))
          as [processed|e] eqn:Ep.
        -- exists (Some (py "gptzero_" ++ text_hash, mkEntry processed now)).
           split.
           ++ intros k entry H. injection H as <- <-.
              split; [now exists text_hash|]. split; [reflexivity|].
              split; [reflexivity|]. cbn [ce_result].
              destruct (json response) as [reply|]; cbn [bind] in Ep; [|discriminate].
              now apply ai_processed_success in Ep.
           ++ intros c2 H. now rewrite (Hc c2 H).
        -- exists None. split; [discriminate|]. intros c2 H. now rewrite (Hc c2 H).
      * exists None. split; [discriminate|]. intros c2 H. now rewrite (Hc c2 H).
    + exists None. split; [discriminate|]. intros c2 H. now rewrite (Hc c2 H).
  - exists None. split; [discriminate|]. intros c2 H. now rewrite (Hc c2 H).
Qed.

Lemma traditional_try_cached : forall net email key text title returned processed,
    traditional_try net email key text title = Ok (returned, Some processed) ->
    returned = processed
    /\ dict_get (py "success") processed = Some (VBool true).
Proof.
  intros net email key text title returned processed H.
  unfold traditional_try in H. cbv zeta in H.
  destruct (negb _); [discriminate|].
  repeat match type of H with
         | bind ?r _ = _ => destruct r eqn:?; cbn [bind] in H; [|discriminate]
         | (if ?b then _ else _) = _ => destruct b; try discriminate
         end.
  injection H as <- <-. split; [reflexivity|].
  eapply traditional_processed_success; eassumption.
Qed.

Lemma detect_traditional_update : forall self net clock text title c,
    exists update,
      (forall k entry, update = Some (k, entry) ->
                       (exists h, k = py "copyleaks_" ++ h)
                       /\ fst (detect_traditional_plagiarism self net clock text title c)
                          = Ok (ce_result entry)
                       /\ ce_timestamp entry = now
                       /\ dict_get (py "success") (ce_result entry) = Some (VBool true))
      /\ forall c2,
          (forall h, cache_get (py "copyleaks_" ++ h) c2
                     = cache_get (py "copyleaks_" ++ h) c) ->
          detect_traditional_plagiarism self net clock text title c2
          = (fst (detect_traditional_plagiarism self net clock text title c),
             apply_update update c2).
Proof.
  intros self net clock text title c. unfold detect_traditional_plagiarism.
  destruct (given (copyleaks_email self)) as [email|];
    [|exists None; split; [discriminate | reflexivity]].
  destruct (given (copyleaks_api_key self)) as [key|];
    [|exists None; split; [discriminate | reflexivity]].
  destruct (_generate_text_hash text) as [text_hash|e];
    [|exists None; split; [discriminate | reflexivity]].
  cbv zeta.
  assert (Hc : forall c2,
             (forall h, cache_get (py "copyleaks_" ++ h) c2
                        = cache_get (py "copyleaks_" ++ h) c) ->
             cached_result (py "copyleaks_" ++ text_hash) c2 clock
             = cached_result (py "copyleaks_" ++ text_hash) c clock).
  { intros c2 H. apply cached_result_get, H. }
  destruct (cached_result (py "copyleaks_" ++ text_hash) c clock) as [[cached|]|e] eqn:Ec.
  - exists None. split; [discriminate|]. intros c2 H. now rewrite (Hc c2 H).
  - destruct (traditional_try net email key text title) as [[returned [processed|]]|e]
      eqn:Et.
    + destruct (traditional_try_cached _ _ _ _ _ Et) as (-> & Hs).
      exists (Some (py "copyleaks_" ++ text_hash, mkEntry processed now)).
      split.
      * intros k entry H. injection H as <- <-.
        split; [now exists text_hash|]. split; [reflexivity|].
        split; [reflexivity | exact Hs].
      * intros c2 H. now rewrite (Hc c2 H).
    + exists None. split; [discriminate|]. intros c2 H. now rewrite (Hc c2 H).
    + exists None. split; [discriminate|]. intros c2 H. now rewrite (Hc c2 H).
  - exists None. split; [discriminate|]. intros c2 H. now rewrite (Hc c2 H).
Qed.


Lemma ai_failure_record : forall msg,
    failure_record (ai_failure msg)
    /\ dict_get (py "ai_probability") (ai_failure msg) = Some (VFloat 0.0).
Proof. intro msg. repeat split. now exists msg. Qed.

Lemma detect_ai_outcome : forall self net clock text c,
    cache_ok c ->
    match fst (detect_ai_generated_content self net clock text c) with
    | Ok d =>
        dict_get (py "success") d = Some (VBool true)
        \/ (failure_record d
            /\ dict_get (py "ai_probability") d = Some (VFloat 0.0)
            /\ snd (detect_ai_generated_content self net clock text c) = c)
    | Raise _ => snd (detect_ai_generated_content self net clock text c) = c
    end.
Proof.
  intros self net clock text c Hok. unfold detect_ai_generated_content.
  destruct (given (gptzero_api_key self)) as [api_key|]; cbn [fst snd];
    [|right; split; [apply ai_failure_record|]; split; reflexivity].
  destruct (_generate_text_hash text) as [text_hash|e]; cbn [fst snd]; [|reflexivity].
  cbv zeta.
  destruct (cached_result (py "gptzero_" ++ text_hash) c clock) as [[cached|]|e] eqn:Ec;
    cbn [fst snd]; [| |reflexivity].
  - left. eapply cached_result_ok; eassumption.
  - destruct (gptzero_predict net api_key text) as [response|e]; cbn [fst snd];
      [|right; split; [apply ai_failure_record|]; split; reflexivity].
    destruct (status_code response =? 200)%Z; cbn [fst snd];
      [|right; split; [apply ai_failure_record|]; split; reflexivity].
    destruct (json response) as [reply|e]; cbn [bind fst snd];
      [|right; split; [apply ai_failure_record|]; split; reflexivity].
    destruct (ai_processed_result reply) as [processed|e] eqn:Ep; cbn [fst snd];
      [|right; split; [apply ai_failure_record|]; split; reflexivity].
    left. now apply ai_processed_success in Ep.
Qed.

Lemma copyleaks_token_outcome : forall net email key,
    let token := _get_copyleaks_token net email key in
    (truthy (dict_get_default (py "success") VNone token) = true
     /\ exists t, dict_get (py "access_token") token = Some t)
    \/ (truthy (dict_get_default (py "success") VNone token) = false
        /\ failure_record token).
Proof.
  intros net email key token. subst token. unfold _get_copyleaks_token.
  destruct (copyleaks_login net email key) as [response|e];
    [|right; split; [reflexivity|]; split; [reflexivity | eexists; reflexivity]].
  destruct (status_code response =? 200)%Z;
    [|right; split; [reflexivity|]; split; [reflexivity | eexists; reflexivity]].
  destruct (json response) as [reply|e]; cbn [bind];
    [|right; split; [reflexivity|]; split; [reflexivity | eexists; reflexivity]].
  destruct reply; cbn [get_method bind];
    try (right; split; [reflexivity|]; split; [reflexivity | eexists; reflexivity]).
  left. split; [reflexivity | eexists; reflexivity].
Qed.

Lemma traditional_try_outcome : forall net email key text title returned update,
    traditional_try net email key text title = Ok (returned, update) ->
    dict_get (py "success") returned = Some (VBool true)
    \/ (failure_record returned /\ update = None).
Proof.
  intros net email key text title returned update H.
  destruct update as [processed|].
  { destruct (traditional_try_cached _ _ _ _ _ H) as (-> & Hs). now left. }
  unfold traditional_try in H. cbv zeta in H.
  destruct (copyleaks_token_outcome net email key) as [(Et & _)|(Et & Hf)];
    rewrite Et in H; cbn [negb] in H.
  - repeat match type of H with
           | bind ?r _ = _ => destruct r eqn:?; cbn [bind] in H; [|discriminate]
           end.
    destruct (_ || _).
    + match type of H with
      | bind ?r _ = _ => destruct r eqn:?; cbn [bind] in H; [|discriminate]
      end.
      destruct (_ =? _)%Z.
      * repeat match type of H with
               | bind ?r _ = _ => destruct r eqn:?; cbn [bind] in H; [|discriminate]
               end.
        discriminate H.
      * injection H as <-. now left.
    + injection H as <-. right. split; [|reflexivity].
      split; [reflexivity | eexists; reflexivity].
  - injection H as <-. right. split; [exact Hf | reflexivity].
Qed.

Lemma detect_traditional_outcome : forall self net clock text title c,
    cache_ok c ->
    match fst (detect_traditional_plagiarism self net clock text title c) with
    | Ok d =>
        dict_get (py "success") d = Some (VBool true)
        \/ (failure_record d
            /\ snd (detect_traditional_plagiarism self net clock text title c) = c)
    | Raise _ => snd (detect_traditional_plagiarism self net clock text title c) = c
    end.
Proof.
  intros self net clock text title c Hok. unfold detect_traditional_plagiarism.
  assert (Hmissing :
            failure_record
              [ (py "success", VBool false);
                (py "error", VStr (py "CopyLeaks credentials not provided"));
                (py "similarity_percentage", VFloat 0.0);
                (py "sources", VList []) ]).
  { split; [reflexivity | eexists; reflexivity]. }
  destruct (given (copyleaks_email self)) as [email|]; cbn [fst snd];
    [|right; split; [exact Hmissing | reflexivity]].
  destruct (given (copyleaks_api_key self)) as [key|]; cbn [fst snd];
    [|right; split; [exact Hmissing | reflexivity]].
  destruct (_generate_text_hash text) as [text_hash|e]; cbn [fst snd]; [|reflexivity].
  cbv zeta.
  destruct (cached_result (py "copyleaks_" ++ text_hash) c clock) as [[cached|]|e] eqn:Ec;
    cbn [fst snd]; [| |reflexivity].
  - left. eapply cached_result_ok; eassumption.
  - destruct (traditional_try net email key text title) as [[returned update]|e] eqn:Et.
    + destruct (traditional_try_outcome _ _ _ _ _ Et) as [Hs|(Hf & ->)].
      * destruct update; cbn [fst snd]; now left.
      * cbn [fst snd]. right. split; [exact Hf | reflexivity].
    + cbn [fst snd]. right. split; [|reflexivity].
      split; [reflexivity | eexists; reflexivity].
Qed.

Lemma apply_update_ok : forall update c,
    cache_ok c ->
    (forall k entry, update = Some (k, entry) ->
                     ce_timestamp entry = now
                     /\ dict_get (py "success") (ce_result entry) = Some (VBool true)) ->
    cache_ok (apply_update update c).
Proof.
  intros [[k entry]|] c Hok H; [|exact Hok]. simpl.
  destruct (H k entry eq_refl) as (Ht & Hs). destruct entry as [d t].
  simpl in Ht, Hs. subst t. now apply cache_ok_set.
Qed.

(** X17: the two network detectors cache only results of
    successful detections: from a cache that holds only such results
    each call leaves one; a call that returns a record without a true
    success flag returns a failure record (for the AI detector with
    probability 0.0) and writes nothing, and so does a call that
    raises. *)
Theorem detectors_cache_only_successes :
  forall self net clock text title c,
    cache_ok c ->
    let ai := detect_ai_generated_content self net clock text c in
    let traditional := detect_traditional_plagiarism self net clock text title c in
    cache_ok (snd ai) /\ cache_ok (snd traditional)
    /\ match fst ai with
       | Ok d =>
           dict_get (py "success") d = Some (VBool true)
           \/ (failure_record d
               /\ dict_get (py "ai_probability") d = Some (VFloat 0.0)
               /\ snd ai = c)
       | Raise _ => snd ai = c
       end
    /\ match fst traditional with
       | Ok d =>
           dict_get (py "success") d = Some (VBool true)
           \/ (failure_record d /\ snd traditional = c)
       | Raise _ => snd traditional = c
       end.
Proof.
  intros self net clock text title c Hok ai traditional. subst ai traditional.
  split; [|split; [|split]].
  - destruct (detect_ai_update self net clock text c) as (update & Hu & Hc).
    rewrite (Hc c (fun h => eq_refl)). cbn [snd].
    apply apply_update_ok; [exact Hok|].
    intros k entry E. destruct (Hu k entry E) as (_ & _ & Ht & Hs). now split.
  - destruct (detect_traditional_update self net clock text title c)
      as (update & Hu & Hc).
    rewrite (Hc c (fun h => eq_refl)). cbn [snd].
    apply apply_update_ok; [exact Hok|].
    intros k entry E. destruct (Hu k entry E) as (_ & _ & Ht & Hs). now split.
  - now apply detect_ai_outcome.
  - now apply detect_traditional_outcome.
Qed.

(** X18: a result that [detect_ai_generated_content] fetched and
    wrote to the cache is returned again for the same text as long as
    less than 24 hours have passed since its timestamp, whatever the
    service would answer now; after that the cached result is passed
    over, and the call proceeds as with an empty cache. *)
Theorem detect_ai_cached_result_reused :
  forall self net clock text c d c' t0,
    detect_ai_generated_content self net clock text c = (Ok d, c') ->
    c' <> c ->
    fromisoformat now = Ok t0 ->
    forall net' clock',
      ((clock' - t0 < cache_ttl)%Z ->
       detect_ai_generated_content self net' clock' text c' = (Ok d, c'))
      /\ ((cache_ttl <= clock' - t0)%Z ->
          fst (detect_ai_generated_content self net' clock' text c')
          = fst (detect_ai_generated_content self net' clock' text [])).
Proof.
  intros self net clock text c d c' t0 H Hnew Ht0 net' clock'.
  unfold detect_ai_generated_content in H |- *.
  destruct (given (gptzero_api_key self)) as [api_key|];
    [|injection H as _ <-; congruence].
  destruct (_generate_text_hash text) as [text_hash|e]; [|discriminate].
  cbv zeta in H |- *.
  destruct (cached_result (py "gptzero_" ++ text_hash) c clock) as [[cached|]|e];
    [injection H as _ <-; congruence | | discriminate].
  destruct (gptzero_predict net api_key text) as [response|e];
    [|injection H as _ <-; congruence].
  destruct (status_code response =? 200)%Z; [|injection H as _ <-; congruence].
  destruct (bind (json response) (fun reply => ai_processed_result reply))
    as [processed|e]; [|injection H as _ <-; congruence].
  apply pair_equal_spec in H. destruct H as (Hd & Hc'). apply Ok_inj in Hd.
  subst d c'.
  assert (Hget : cache_get (py "gptzero_" ++ text_hash)
                           (cache_set (py "gptzero_" ++ text_hash)
                                      (mkEntry processed now) c)
                 = Some (mkEntry processed now)).
  { now rewrite cache_get_set, str_eqb_refl. }
  unfold cached_result. rewrite Hget. unfold _is_cache_valid.
  cbn [ce_timestamp ce_result cache_get]. rewrite Ht0. cbn [bind].
  split; intro Hage.
  - apply Z.ltb_lt in Hage. now rewrite Hage.
  - apply Z.ltb_ge in Hage. rewrite Hage.
    destruct (gptzero_predict net' api_key text) as [response'|e']; [|reflexivity].
    destruct (status_code response' =? 200)%Z; [|reflexivity].
    destruct (bind (json response') (fun reply => ai_processed_result reply));
      reflexivity.
Qed.


Lemma succeeded_failure : forall d, failure_record d -> succeeded (Ok d) = false.
Proof.
  intros d (Hs & _). unfold succeeded, dict_get_default. now rewrite Hs.
Qed.

(** X20: [comprehensive_plagiarism_check] with its detector calls,
    when the detectors cannot run - no GPTZero key and an incomplete
    CopyLeaks account, or a text with a surrogate code point, which has
    no UTF-8 form to hash: the check still returns; it reports AI
    probability 0.0, similarity 0.0, no sources and the method
    pattern_based, with a confidence below 0.5; it sends no request (the
    result is the same for every network) and leaves the cache as it
    was. *)
Theorem check_without_detectors :
  forall self net clock text title reference_texts c,
    (given (gptzero_api_key self) = None
     /\ (given (copyleaks_email self) = None \/ given (copyleaks_api_key self) = None))
    \/ (exists ch, In ch text /\ is_surrogate ch = true) ->
    exists r,
      comprehensive_plagiarism_check_run self net clock text title reference_texts c
      = (Ok r, c)
      /\ (forall net',
             comprehensive_plagiarism_check_run self net' clock text title
                                                reference_texts c
             = (Ok r, c))
      /\ ai_generated_probability r = VFloat 0.0
      /\ similarity_percentage r = VFloat 0.0
      /\ sources_found r = VList []
      /\ detection_method r = py "pattern_based"
      /\ confidence_score r < 0.5.
Proof.
  intros self net clock text title refs c H.
  assert (Hruns : exists a t,
             succeeded a = false /\ succeeded t = false
             /\ forall n, detect_ai_generated_content self n clock text c = (a, c)
                          /\ detect_traditional_plagiarism self n clock text title c
                             = (t, c)).
  { unfold detect_ai_generated_content, detect_traditional_plagiarism.
    destruct H as [(Hk & Hc)|(ch & Hin & Hs)].
    - rewrite Hk. destruct Hc as [Hc|Hc]; rewrite Hc.
      + do 2 eexists. split; [|split; [|intro n; split; reflexivity]]; reflexivity.
      + destruct (given (copyleaks_email self));
          do 2 eexists; (split; [|split; [|intro n; split; reflexivity]]); reflexivity.
    - assert (Hhash : exists e, _generate_text_hash text = Raise e).
      { unfold _generate_text_hash. pose proof (utf8_encode_outcome text) as Ho.
        destruct (utf8_encode text) as [bytes|e]; [|now exists e].
        destruct Ho as (Hno & _). rewrite (Hno ch Hin) in Hs. discriminate. }
      destruct Hhash as (e & ->).
      destruct (given (gptzero_api_key self)), (given (copyleaks_email self)),
        (given (copyleaks_api_key self));
        do 2 eexists; (split; [|split; [|intro n; split; reflexivity]]); reflexivity. }
  destruct Hruns as (a & t & Ha & Ht & Hrun).
  pose proof (@check_without_services a t text refs Ha Ht) as Hcheck.
  cbv zeta in Hcheck.
  unfold comprehensive_plagiarism_check_run.
  eexists. split; [|split].
  - destruct (Hrun net) as (-> & ->). rewrite Hcheck. reflexivity.
  - intro net'. destruct (Hrun net') as (-> & ->). rewrite Hcheck. reflexivity.
  - cbn [ai_generated_probability similarity_percentage sources_found
         detection_method confidence_score].
    rewrite score_of_patterns.
    set (found := patterns_detected (detect_pattern_based_plagiarism text refs)).
    destruct (score_by_flags (quotes_detected (excessive_quotes found))
                (phrases_detected (repetitive_phrases found))
                (formatting_detected (unusual_formatting found))
                (citation_detected (citation_inconsistencies found)))
      as (_ & _ & _ & _ & _ & _ & Hneg & _ & Hconf).
    repeat (split; [reflexivity|]).
    split; [now rewrite Hneg | exact Hconf].
Qed.


End Scan2Score.

(* ================================================================== *)
(** ** The claims on concrete inputs *)


(** C1 (the code at the failing input): with both clients configured and
    the preference claude, a primary call that raises is answered by the
    failure record of the primary, with model_used the Claude model; the
    secondary, which would have replied, is not called. *)
Theorem claude_failure_is_not_rerouted :
  let self := sample_evaluator (Some failing_client) (Some replying_client) in
  let question := VStr (py "What is photosynthesis?") in
  let answer := VStr (py "Plants turn light into sugar.") in
  let outcome := evaluate_answer ascii_lower sample_now self question answer
                                 (VDict []) (VStr []) (VStr (py "claude")) in
  outcome = Ok [ (py "success", VBool false);
                 (py "error", VStr (py "Connection error."));
                 (py "model_used", VStr (claude_model self));
                 (py "timestamp", VStr sample_now) ]
  /\ claude_model self <> gpt_model self
  /\ exists d, evaluate_answer_with_gpt sample_now self question answer
                                        (VDict []) (VStr []) = Ok d
               /\ dict_get (py "success") d = Some (VBool true)
               /\ dict_get (py "model_used") d = Some (VStr (gpt_model self)).
Proof.
  cbv zeta. split; [reflexivity|]. split; [discriminate|].
  eexists. split; [vm_compute; reflexivity|]. split; reflexivity.
Qed.

(** C2 (counterexample): with no client configured [evaluate_answer]
    raises; it returns no record. *)
Lemma evaluate_answer_raises_without_client :
  let outcome :=
    evaluate_answer ascii_lower sample_now (sample_evaluator None None)
                    (VStr (py "What is photosynthesis?"))
                    (VStr (py "Plants turn light into sugar."))
                    (VDict []) (VStr []) (VStr (py "claude")) in
  outcome = Raise (ValueError (py "No AI client available for evaluation"))
  /\ ~ exists d, outcome = Ok d.
Proof.
  cbv zeta. split; [reflexivity|]. intros [d H]. discriminate H.
Qed.

(** C3 (witness): a response without braces, and one whose braces hold
    no JSON. *)
Lemma parse_failure_gives_fallback_witness :
  fallback_record (_parse_evaluation_response (py "I cannot grade this answer."))
                  (ValueError (py "No JSON found in response"))
                  (py "I cannot grade this answer.")
  /\ (extract_json (py "Score: {good}") = Ok (py "{good}")
      /\ json_loads (py "{good}")
         = Raise (JSONDecodeError
                    (py "Expecting property name enclosed in double quotes"))
      /\ fallback_record
           (_parse_evaluation_response (py "Score: {good}"))
           (JSONDecodeError (py "Expecting property name enclosed in double quotes"))
           (py "Score: {good}")).
Proof.
  split.
  - apply (proj1 (parse_failure_gives_fallback (py "I cannot grade this answer."))).
    apply extract_json_raises_iff. eexists. vm_compute. reflexivity.
  - split; [vm_compute; reflexivity|]. split; [vm_compute; reflexivity|].
    apply (proj2 (parse_failure_gives_fallback (py "Score: {good}")) (py "{good}"));
      vm_compute; reflexivity.
Defined.






(** C7 (witness): the triple (0.8, 0, 0). *)
Lemma plagiarism_verdict_witness :
  as_number (field_or sample_ai_result "ai_probability" (VFloat 0.0)) = Ok (PFin 0.8)
  /\ as_number (field_or sample_traditional_result "similarity_percentage" (VFloat 0.0))
     = Ok (PFin 0.0)
  /\ suspicion_score
       (detect_pattern_based_plagiarism ascii_lower ascii_isalnum ascii_isdecimal
          sample_now plain_text None) == 0
  /\ exists r,
      comprehensive_plagiarism_check ascii_lower ascii_isalnum ascii_isdecimal
        sample_now sample_ai_result sample_traditional_result plain_text None = Ok r
      /\ is_plagiarized r = true
      /\ confidence_score r == (0.9 + 0.3 + 0.4) / 3.
Proof.
  split; [reflexivity|]. split; [reflexivity|]. split; [vm_compute; reflexivity|].
  destruct (@plagiarism_verdict ascii_lower ascii_isalnum ascii_isdecimal sample_now
              sample_ai_result sample_traditional_result plain_text None 0.8 0.0)
    as (r & Hr & _ & _ & Hin); [reflexivity | reflexivity |].
  exists r. split; [exact Hr|].
  apply Hin; [reflexivity | reflexivity | vm_compute; reflexivity].
Defined.

(** C8 (witness): a batch of three requests on an evaluator that has the
    Anthropic client only; the second request asks for gpt and raises. *)
Lemma batch_evaluate_answers_isolated_witness :
  let self := sample_evaluator (Some replying_client) None in
  let requests := [sample_request "claude"; sample_request "gpt"; sample_request "claude"] in
  let results := batch_evaluate_answers ascii_lower sample_now self requests in
  nth_error requests 1 = Some (sample_request "gpt")
  /\ List.length results = 3%nat
  /\ nth_error results 1
     = Some [ (py "success", VBool false);
              (py "error", VStr (py "No AI client available for evaluation"));
              (py "request_index", VInt 1);
              (py "timestamp", VStr sample_now) ]
  /\ (exists d, nth_error results 0 = Some d
                /\ dict_get (py "success") d = Some (VBool true)
                /\ dict_get (py "request_index") d = Some (VInt 0))
  /\ (exists d, nth_error results 2 = Some d
                /\ dict_get (py "success") d = Some (VBool true)
                /\ dict_get (py "request_index") d = Some (VInt 2)).
Proof.
  intros self requests results.
  destruct (batch_evaluate_answers_isolated ascii_lower sample_now self requests)
    as [Hlen Hall].
  split; [reflexivity|]. split; [exact Hlen|].
  destruct (Hall 1%nat (sample_request "gpt") eq_refl) as (d1 & Hn1 & _ & Hd1 & _).
  destruct (Hall 0%nat (sample_request "claude") eq_refl) as (d0 & Hn0 & Hi0 & Hd0 & _).
  destruct (Hall 2%nat (sample_request "claude") eq_refl) as (d2 & Hn2 & Hi2 & Hd2 & _).
  split; [|split].
  - unfold results. rewrite Hn1. f_equal. exact Hd1.
  - exists d0. repeat split; [exact Hn0 | | exact Hi0].
    vm_compute in Hd0. rewrite Hd0. reflexivity.
  - exists d2. repeat split; [exact Hn2 | | exact Hi2].
    vm_compute in Hd2. rewrite Hd2. reflexivity.
Defined.

(** C9 (witness): a five-word answer without citation. *)
Lemma uncited_text_scores_at_least_a_tenth_witness :
  (0 < List.length (split_ws uncited_text))%nat
  /\ find_citations ascii_isdecimal uncited_text = []
  /\ citation_detected (_check_citation_patterns ascii_isdecimal uncited_text) = true
  /\ 0.1 <= suspicion_score
              (detect_pattern_based_plagiarism ascii_lower ascii_isalnum
                 ascii_isdecimal sample_now uncited_text None).
Proof.
  assert (Hw : (0 < List.length (split_ws uncited_text))%nat)
    by (vm_compute; lia).
  assert (Hc : find_citations ascii_isdecimal uncited_text = [])
    by (vm_compute; reflexivity).
  destruct (@uncited_text_scores_at_least_a_tenth ascii_lower ascii_isalnum
              ascii_isdecimal sample_now uncited_text None Hw Hc)
    as (Hd & _ & _ & Hs).
  auto.
Defined.

(** C10 (witness): the confidence of the check on the sample outcomes. *)
Lemma confidence_score_range_witness :
  exists r,
    comprehensive_plagiarism_check ascii_lower ascii_isalnum ascii_isdecimal
      sample_now sample_ai_result sample_traditional_result plain_text None = Ok r
    /\ (1 # 3) <= confidence_score r /\ confidence_score r <= (13 # 15).
Proof.
  eexists. split; [vm_compute; reflexivity|].
  destruct (@confidence_score_range ascii_lower ascii_isalnum ascii_isdecimal
              sample_now sample_ai_result sample_traditional_result plain_text None
              _ eq_refl) as (_ & Hlo & Hhi & _).
  split; [exact Hlo | exact Hhi].
Defined.

(* ================================================================== *)
(** ** The further properties on concrete inputs *)

(** The verdict without the services: the AI detector raised, the
    similarity detector has no credentials. *)
Lemma plagiarism_check_without_services_witness :
  succeeded (Raise (OtherError (py "Connection error."))) = false
  /\ succeeded sample_traditional_result = false
  /\ exists r,
      comprehensive_plagiarism_check ascii_lower ascii_isalnum ascii_isdecimal
        sample_now (Raise (OtherError (py "Connection error.")))
        sample_traditional_result plain_text None = Ok r
      /\ detection_method r = py "pattern_based"
      /\ confidence_score r < 0.5.
Proof.
  split; [reflexivity|]. split; [reflexivity|].
  destruct (@plagiarism_check_without_services ascii_lower ascii_isalnum
              ascii_isdecimal sample_now
              (Raise (OtherError (py "Connection error.")))
              sample_traditional_result plain_text None eq_refl eq_refl)
    as (r & Hr & _ & _ & _ & Hm & Hc & _).
  exists r. split; [exact Hr|]. split; [exact Hm | exact Hc].
Defined.

(** The method ai_detection: probability 0.8 on a text that no pattern
    check reports. *)
Lemma ai_detection_needs_zero_pattern_score_witness :
  suspicion_score
    (detect_pattern_based_plagiarism ascii_lower ascii_isalnum ascii_isdecimal
       sample_now plain_text None) == 0.
Proof.
  refine (proj1 (@ai_detection_needs_zero_pattern_score ascii_lower ascii_isalnum
                   ascii_isdecimal sample_now sample_ai_result
                   sample_traditional_result plain_text None _ 0.8 _ _ _ _)).
  - vm_compute. reflexivity.
  - reflexivity.
  - vm_compute. discriminate.
  - vm_compute. reflexivity.
Defined.


(** Two sources. *)
Lemma process_copyleaks_sources_top_ten_witness :
  forallb source_shape (firstn 10 sample_sources) = true
  /\ exists entries,
      _process_copyleaks_sources (VList sample_sources) = Ok (VList entries)
      /\ List.length entries = 2%nat.
Proof.
  split; [reflexivity|].
  destruct (@process_copyleaks_sources_top_ten sample_sources eq_refl)
    as (entries & He & Hl & _).
  exists entries. split; [exact He | exact Hl].
Defined.

(** The text "Hi!" has the Base64 form "SGkh". *)
Lemma encode_text_to_base64_outcome_witness :
  Forall is_code_point (py "Hi!")
  /\ _encode_text_to_base64 (py "Hi!") = Ok (py "SGkh")
  /\ Forall (fun c => In c b64_alphabet \/ c = b64_pad) (py "SGkh").
Proof.
  assert (H : Forall is_code_point (py "Hi!"))
    by (repeat constructor).
  assert (E : _encode_text_to_base64 (py "Hi!") = Ok (py "SGkh"))
    by (vm_compute; reflexivity).
  pose proof (@encode_text_to_base64_outcome (py "Hi!") H) as Ho.
  rewrite E in Ho. destruct Ho as (_ & Ha & _).
  split; [exact H|]. split; [exact E | exact Ha].
Defined.

Lemma encode_text_to_base64_injective_witness :
  Forall is_code_point (py "Hi!")
  /\ _encode_text_to_base64 (py "Hi!") = Ok (py "SGkh")
  /\ py "Hi!" = py "Hi!".
Proof.
  assert (H : Forall is_code_point (py "Hi!"))
    by (repeat constructor).
  assert (E : _encode_text_to_base64 (py "Hi!") = Ok (py "SGkh"))
    by (vm_compute; reflexivity).
  split; [exact H|]. split; [exact E|].
  exact (@encode_text_to_base64_injective (py "Hi!") (py "Hi!") (py "SGkh") H H E E).
Defined.

(** A first call on an empty cache, with a service that answers. *)
Lemma detectors_cache_only_successes_witness :
  cache_ok []
  /\ cache_ok (snd (detect_ai_generated_content sample_now sample_digest
                      sample_fromisoformat sample_detector sample_network 0
                      uncited_text []))
  /\ snd (detect_ai_generated_content sample_now sample_digest
            sample_fromisoformat sample_detector sample_network 0
            uncited_text []) <> [].
Proof.
  assert (H : cache_ok []) by (intros k entry E; discriminate E).
  destruct (@detectors_cache_only_successes sample_now sample_digest
              sample_fromisoformat sample_detector sample_network 0%Z
              uncited_text (py "Document") [] H)
    as (Hai & _).
  split; [exact H|]. split; [exact Hai|]. vm_compute. discriminate.
Defined.

(** The second call, half an hour later and with the service down,
    returns the cached result. *)
Lemma detect_ai_cached_result_reused_witness :
  exists d c',
    detect_ai_generated_content sample_now sample_digest sample_fromisoformat
      sample_detector sample_network 1740821400000000 uncited_text []
    = (Ok d, c')
    /\ c' <> []
    /\ sample_fromisoformat sample_now = Ok 1740821400000000%Z
    /\ detect_ai_generated_content sample_now sample_digest sample_fromisoformat
         sample_detector silent_network 1740823200000000 uncited_text c'
       = (Ok d, c').
Proof.
  do 2 eexists.
  refine ((fun H Hnew =>
             conj H (conj Hnew (conj eq_refl
               (proj1 (@detect_ai_cached_result_reused sample_now sample_digest
                         sample_fromisoformat sample_detector sample_network
                         1740821400000000%Z uncited_text [] _ _ 1740821400000000%Z
                         H Hnew eq_refl silent_network 1740823200000000%Z) _))))
            _ _).
  - reflexivity.
  - vm_compute. reflexivity.
  - intro E. discriminate E.
Defined.

(** A detector without credentials. *)
Lemma check_without_detectors_witness :
  given (gptzero_api_key bare_detector) = None
  /\ given (copyleaks_email bare_detector) = None
  /\ exists r,
      comprehensive_plagiarism_check_run ascii_lower ascii_isalnum ascii_isdecimal
        sample_now sample_digest sample_fromisoformat bare_detector silent_network
        0 plain_text (py "Document") None [] = (Ok r, [])
      /\ detection_method r = py "pattern_based".
Proof.
  split; [reflexivity|]. split; [reflexivity|].
  destruct (@check_without_detectors ascii_lower ascii_isalnum ascii_isdecimal
              sample_now sample_digest sample_fromisoformat bare_detector
              silent_network 0%Z plain_text (py "Document") None []
              (or_introl (conj eq_refl (or_introl eq_refl))))
    as (r & Hr & _ & _ & _ & _ & Hm & _).
  exists r. split; [exact Hr | exact Hm].
Defined.

(* ================================================================== *)
(** ** The model on further inputs *)

(** A fenced block is taken even when bare braces come first. *)
Example fenced_block_first :
  extract_json (py "{note} " ++ py "```json" ++ sample_object ++ py "```")
  = Ok sample_object.
Proof. vm_compute. reflexivity. Qed.

(** A repeated key keeps its last value, escapes are decoded, and what
    follows the value must be whitespace. *)
Example json_loads_samples :
  json_loads (py "{" ++ quoted "a" ++ py ": 1, " ++ quoted "b" ++ py ": [true, null, -2.5e1], "
              ++ quoted "a" ++ py ": " ++ quoted "x\u0041\n" ++ py "}  ")
  = Ok (VDict [ (py "a", VStr [120; 65; 10]%N);
                (py "b", VList [VBool true; VNone; VFloat (-25)]) ])
  /\ json_loads (py "{} x") = Raise (JSONDecodeError (py "Extra data"))
  /\ json_loads (py "[1, 2") = Raise (JSONDecodeError (py "Expecting ',' delimiter")).
Proof. repeat split; vm_compute; reflexivity. Qed.

(** The same five-word phrase four times is reported as repetitive; the
    plain text fires no check and scores 0. *)
Example pattern_heuristic_samples :
  phrases_detected
    (_check_repetitive_phrases
       (py "the cat sat down here the cat sat down here the cat sat down here the cat sat down here"))
  = true
  /\ (let r := detect_pattern_based_plagiarism ascii_lower ascii_isalnum
                 ascii_isdecimal sample_now plain_text None in
      quotes_detected (excessive_quotes (patterns_detected r)) = false
      /\ phrases_detected (repetitive_phrases (patterns_detected r)) = false
      /\ formatting_detected (unusual_formatting (patterns_detected r)) = false
      /\ citation_detected (citation_inconsistencies (patterns_detected r)) = false
      /\ citation_count (citation_inconsistencies (patterns_detected r)) = 1%nat
      /\ suspicion_score r == 0).
Proof. repeat split; vm_compute; reflexivity. Qed.

(** The three citation patterns, the last one without regard to case. *)
Example find_citations_sample :
  find_citations ascii_isdecimal
    (py "As Stated By Knuth (1997, p. 3) and [12], see (Doe 2020).")
  = [ py "(1997, p. 3)"; py "(Doe 2020)"; py "[12]";
      py "As Stated By Knuth (1997, p" ].
Proof. vm_compute. reflexivity. Qed.

(** A negative criteria_count is a slice from the end: -1 leaves three of
    the four criteria. *)
Example negative_criteria_count :
  exists criteria,
    dict_get (py "criteria")
             (create_custom_rubric ascii_lower sample_now (VStr (py "History"))
                                   (py "essay") 100 (-1))
    = Some (VList criteria)
    /\ List.length criteria = 3%nat.
Proof. eexists. split; vm_compute; reflexivity. Qed.
